(** * Order and stock transaction core of the Amman Steels back office

    A shallow embedding of the request handlers in
    [src/routes/adminOrders.js] and the stock routes (adminStock.js), with
    the Mongoose models they persist ([src/models/Order.js],
    [src/models/Product.js], the StockMovement model).

    JavaScript numbers are IEEE-754 binary64 values; they are modelled by
    [spec_float] at precision 53 and maximal exponent 1024, so every
    arithmetic expression of the handlers is evaluated with the rounding
    the engine performs.  Handlers are state-passing functions over a
    database record; a response is a status code and a body.

    JavaScript strings are sequences of UTF-16 code units.  A [string]
    here holds one code unit per element, each below 256 (ASCII and
    Latin-1): [String.length] is the length the engine reports, and white
    space is the tab, the line feed, the vertical tab, the form feed, the
    carriage return, the space and the no-break space (code 160), the
    white space the engine knows below 256. *)

From Stdlib Require Import ZArith NArith List String Ascii Bool Lia PeanoNat.
From Stdlib Require Import Floats.SpecFloat.
From Stdlib Require Import QArith Qround.
From Stdlib Require Import DecimalString DecimalN.
Import ListNotations.

Close Scope Q_scope.
Local Open Scope string_scope.

(** ** JavaScript numbers *)

Module JS.

Definition Number := spec_float.

Definition prec : Z := 53.
Definition emax : Z := 1024.

Definition add (x y : Number) : Number := SFadd prec emax x y.
Definition sub (x y : Number) : Number := SFsub prec emax x y.
Definition mul (x y : Number) : Number := SFmul prec emax x y.
Definition div (x y : Number) : Number := SFdiv prec emax x y.

(** [x < y], [x <= y], [x > y], [x >= y]; every comparison with NaN is
    false. *)
Definition lt (x y : Number) : bool := SFltb x y.
Definition le (x y : Number) : bool := SFleb x y.
Definition gt (x y : Number) : bool := SFltb y x.
Definition ge (x y : Number) : bool := SFleb y x.

(** An integer literal. *)
Definition of_Z (z : Z) : Number := binary_normalize prec emax z 0 false.

(** A decimal literal [m / 10^k], rounded to the nearest double (both the
    numerator and the power of ten used below are exactly representable,
    and the division is correctly rounded). *)
Definition dec (m : Z) (k : nat) : Number :=
  div (of_Z m) (of_Z (10 ^ Z.of_nat k)).

Definition zero : Number := S754_zero false.

Definition isNaN (x : Number) : bool :=
  match x with S754_nan => true | _ => false end.

(** ToBoolean on a number: [0], [-0] and [NaN] are falsy. *)
Definition truthy (x : Number) : bool :=
  match x with
  | S754_zero _ | S754_nan => false
  | _ => true
  end.

(** [x || d] where [x] may be [undefined]. *)
Definition or_default (x : option Number) (d : Number) : Number :=
  match x with
  | Some v => if truthy v then v else d
  | None => d
  end.

(** [Math.max(x, y)]: NaN if either argument is NaN, and [+0] is larger
    than [-0]. *)
Definition Math_max (x y : Number) : Number :=
  match x, y with
  | S754_nan, _ | _, S754_nan => S754_nan
  | _, _ =>
      match SFcompare x y with
      | Some Lt => y
      | Some Gt => x
      | _ => match x, y with
             | S754_zero true, S754_zero false => y
             | _, _ => x
             end
      end
  end.

(** The exact rational value of a finite number. *)
Definition to_Q (x : Number) : option Q :=
  match x with
  | S754_zero _ => Some 0%Q
  | S754_finite s m e =>
      let v := match e with
               | Zneg p => (Zpos m # Pos.pow 2 p)%Q
               | _ => inject_Z (Zpos m * 2 ^ e)
               end in
      Some (if s then Qopp v else v)
  | _ => None
  end.

(** The integer a number denotes, when it is finite and integral. *)
Definition to_Z (x : Number) : option Z :=
  match to_Q x with
  | Some q => if Qeq_bool (inject_Z (Qfloor q)) q then Some (Qfloor q) else None
  | None => None
  end.

(** [String(n)] for a non-negative integer below 10^21. *)
Definition String_of_N (n : N) : string :=
  NilEmpty.string_of_uint (N.to_uint n).

Fixpoint repeat_char (c : ascii) (n : nat) : string :=
  match n with
  | O => EmptyString
  | S n' => String c (repeat_char c n')
  end.

(** [s.padStart(n, c)] with a one-character filler. *)
Definition padStart (n : nat) (c : ascii) (s : string) : string :=
  repeat_char c (n - String.length s) ++ s.

(** ToBoolean on a string: only the empty string is falsy. *)
Definition truthy_string (s : string) : bool :=
  match s with EmptyString => false | _ => true end.

End JS.

Abbreviation Number := JS.Number.

(** ** Data model *)

Definition ObjectId := nat.

(** The reviews embedded in a product document ([reviewSchema] of
    [models/Product.js]). *)
Record ProductReview := mkProductReview {
  pr_user : string;
  pr_rating : Number;
  pr_comment : string
}.

(** [productSchema] of [models/Product.js]: the fields the handlers read or
    write, and those [save()] validates. *)
Record Product := mkProduct {
  p__id : ObjectId;
  p_id : string;
  p_name : string;
  p_price : Number;
  p_unit : string;
  p_inStock : bool;
  p_category : string;
  p_image : string;
  p_description : string;
  p_reviews : list ProductReview
}.

(** [orderItemSchema] of [models/Order.js]. *)
Record OrderItem := mkOrderItem {
  product : ObjectId;
  productName : string;
  sku : string;
  quantity : Number;
  unit : string;
  unitPrice : Number;
  discount : Number;
  gstRate : Number;
  gstAmount : Number;
  totalAmount : Number
}.

Record Customer := mkCustomer {
  c_name : string;
  c_phone : option string;
  c_email : option string;
  c_address : option string;
  c_gstin : option string
}.

(** [orderSchema] of [models/Order.js]. *)
Record Order := mkOrder {
  _id : ObjectId;
  orderNumber : string;
  invoiceNumber : option string;
  customer : Customer;
  items : list OrderItem;
  subtotal : Number;
  totalDiscount : Number;
  totalGst : Number;
  grandTotal : Number;
  paymentMethod : string;
  paymentStatus : string;
  amountPaid : Number;
  amountDue : Number;
  status : string;
  notes : option string;
  createdBy : ObjectId;
  processedBy : option ObjectId
}.

(** The StockMovement model. *)
Record StockMovement := mkStockMovement {
  m_product : ObjectId;
  m_type : string;
  m_quantity : Number;
  previousStock : Number;
  newStock : Number;
  m_unitPrice : option Number;
  m_totalValue : option Number;
  m_supplierName : option string;
  m_supplierInvoiceNo : option string;
  m_notes : option string;
  m_createdBy : ObjectId
}.

(** The three collections the handlers touch. *)
Record DB := mkDB {
  products : list Product;
  orders : list Order;
  movements : list StockMovement
}.

(** [new Date()]: the two components the identifier generators read. *)
Record Date := mkDate {
  getFullYear : N;
  getMonth : N      (* 0 for January ... 11 for December *)
}.

(** ** Responses *)

Inductive Body :=
| BErrors                                         (* { success: false, errors } *)
| BFail (message : string)                        (* { success: false, message } *)
| BOrder (message : string) (data : Order)        (* { success: true, message, data } *)
| BMovement (message : string) (data : StockMovement).

Record Response := mkResponse {
  res_status : nat;
  res_body : Body
}.

Definition server_error : Response := mkResponse 500 (BFail "Server error").

(** ** Schema validators

    What Mongoose checks on [save()]: [required], [min], [enum] and
    [maxlength] as the schemas declare them.  A number field holding NaN
    fails to cast, and [min] compares with [>=], so NaN fails it too. *)

Definition min_ok (lo : Z) (x : Number) : bool := JS.ge x (JS.of_Z lo).

Definition number_ok (x : Number) : bool := negb (JS.isNaN x).

Definition required_string (s : string) : bool := JS.truthy_string s.

Definition enum_ok (allowed : list string) (s : string) : bool :=
  existsb (String.eqb s) allowed.

(** [maxlength: n]: the length of the text in code units is at most [n]. *)
Definition maxlength_ok (n : nat) (s : option string) : bool :=
  match s with
  | Some t => Nat.leb (String.length t) n
  | None => true
  end.

Definition opt_min_ok (lo : Z) (x : option Number) : bool :=
  match x with
  | Some v => min_ok lo v
  | None => true
  end.

Definition paymentMethod_enum : list string :=
  ["cash"; "card"; "upi"; "bank_transfer"; "credit"].
Definition paymentStatus_enum : list string := ["pending"; "partial"; "paid"].
Definition status_enum : list string :=
  ["draft"; "confirmed"; "processing"; "completed"; "cancelled"].
Definition movement_type_enum : list string :=
  ["stock_in"; "stock_out"; "adjustment"; "return"; "damage"].

Definition validate_item (it : OrderItem) : bool :=
  required_string (productName it) && required_string (sku it)
  && min_ok 1 (quantity it)
  && required_string (unit it)
  && min_ok 0 (unitPrice it)
  && min_ok 0 (discount it)
  && number_ok (gstRate it) && number_ok (gstAmount it)
  && number_ok (totalAmount it).

Definition validate_order (o : Order) : bool :=
  required_string (orderNumber o)
  && required_string (c_name (customer o))
  && forallb validate_item (items o)
  && min_ok 0 (subtotal o)
  && min_ok 0 (totalDiscount o)
  && min_ok 0 (totalGst o)
  && min_ok 0 (grandTotal o)
  && enum_ok paymentMethod_enum (paymentMethod o)
  && enum_ok paymentStatus_enum (paymentStatus o)
  && min_ok 0 (amountPaid o)
  && min_ok 0 (amountDue o)
  && enum_ok status_enum (status o)
  && maxlength_ok 1000 (notes o).

Definition validate_movement (m : StockMovement) : bool :=
  enum_ok movement_type_enum (m_type m)
  && min_ok 1 (m_quantity m)
  && number_ok (previousStock m) && number_ok (newStock m)
  && opt_min_ok 0 (m_unitPrice m)
  && opt_min_ok 0 (m_totalValue m)
  && maxlength_ok 500 (m_notes m).

Definition max_ok (hi : Z) (x : Number) : bool := JS.le x (JS.of_Z hi).

Definition category_enum : list string :=
  ["steel"; "cement"; "electronics"; "paints"].

Definition validate_product_review (r : ProductReview) : bool :=
  required_string (pr_user r)
  && min_ok 1 (pr_rating r) && max_ok 5 (pr_rating r)
  && required_string (pr_comment r).

(** What the product schema checks on [save()]. *)
Definition validate_product (p : Product) : bool :=
  required_string (p_id p)
  && required_string (p_name p)
  && enum_ok category_enum (p_category p)
  && min_ok 0 (p_price p)
  && required_string (p_unit p)
  && required_string (p_image p)
  && required_string (p_description p)
  && forallb validate_product_review (p_reviews p).

(** ** Collection operations *)

Definition Product_findOne (ps : list Product) (id : string) : option Product :=
  find (fun p => String.eqb (p_id p) id) ps.

(** [product.save()] of a document read from the collection, after the
    [inStock] flag was assigned: the whole document is validated again, and
    [None] is the rejected promise. *)
Definition Product_save (p : Product) (db : DB) : option DB :=
  if validate_product p
  then Some (mkDB (map (fun q => if Nat.eqb (p__id q) (p__id p) then p else q)
                       (products db))
                  (orders db) (movements db))
  else None.

Definition Order_findById (os : list Order) (id : ObjectId) : option Order :=
  find (fun o => Nat.eqb (_id o) id) os.

(** The [_id] a new document receives. *)
Definition fresh_id (os : list Order) : ObjectId :=
  S (fold_right Nat.max 0 (map _id os)).

(** The unique index on [orderNumber] and the sparse unique index on
    [invoiceNumber]. *)
Definition index_clash (o o' : Order) : bool :=
  String.eqb (orderNumber o') (orderNumber o)
  || match invoiceNumber o, invoiceNumber o' with
     | Some a, Some b => String.eqb a b
     | _, _ => false
     end.

Definition unique_ok (o : Order) (os : list Order) : bool :=
  forallb (fun o' => Nat.eqb (_id o') (_id o) || negb (index_clash o o')) os.

Definition upsert (o : Order) (os : list Order) : list Order :=
  if existsb (fun o' => Nat.eqb (_id o') (_id o)) os
  then map (fun o' => if Nat.eqb (_id o') (_id o) then o else o') os
  else os ++ [o].

(** [order.save()]: validation, then the write under the unique indexes;
    [None] is the rejected promise. *)
Definition Order_save (o : Order) (db : DB) : option DB :=
  if validate_order o && unique_ok o (orders db)
  then Some (mkDB (products db) (upsert o (orders db)) (movements db))
  else None.

(** [movement.save()]. *)
Definition StockMovement_save (m : StockMovement) (db : DB) : option DB :=
  if validate_movement m
  then Some (mkDB (products db) (orders db) (movements db ++ [m]))
  else None.

(** ** Request validators (express-validator)

    Amounts and the quantities of order items are JSON numbers; the
    quantity of a stock request is a JSON number or a JSON string. *)

(** White space among the code units below 256: what [trim()] and the
    validators' [trim()] strip. *)
Definition is_space (c : ascii) : bool :=
  match nat_of_ascii c with
  | 9 | 10 | 11 | 12 | 13 | 32 | 160 => true
  | _ => false
  end.

Fixpoint drop_spaces (l : list ascii) : list ascii :=
  match l with
  | [] => []
  | c :: l' => if is_space c then drop_spaces l' else l
  end.

(** [.trim()]: strips white space at both ends. *)
Definition trim (s : string) : string :=
  string_of_list_ascii
    (rev (drop_spaces (rev (drop_spaces (list_ascii_of_string s))))).

Definition notEmpty (s : string) : bool := JS.truthy_string s.

(** [isInt({ min: 1 })] on a JSON number: its decimal text is a plain run
    of digits (so it is integral and below 10^21) and it is at least 1. *)
Definition isInt_min1 (q : Number) : bool :=
  match JS.to_Z q with
  | Some z => ((1 <=? z) && (z <? 10 ^ 21))%Z
  | None => false
  end.

(** [optional().isFloat({ min: 0 })] on a JSON number. *)
Definition isFloat_min0 (x : option Number) : bool :=
  match x with
  | None => true
  | Some (S754_zero _) => true
  | Some (S754_finite false _ _) => true
  | Some _ => false
  end.

(** The quantity of a stock request as the body carries it: a JSON number
    or a JSON string. *)
Inductive Quantity :=
| QNumber (n : Number)
| QString (s : string).

(** The value of a non-empty run of decimal digits. *)
Definition digits_value (s : string) : option N :=
  match s with
  | EmptyString => None
  | _ => option_map N.of_uint (NilEmpty.uint_of_string s)
  end.

(** [Number(s)] on the texts the stock routes convert: decimal digits with
    an optional sign in front denote an integer, rounded to the nearest
    binary64 value; a text with a sign after its first digit is not a
    number. *)
Definition Number_of_text (s : string) : Number :=
  match s with
  | String "+" t =>
      match digits_value t with
      | Some n => JS.of_Z (Z.of_N n)
      | None => S754_nan
      end
  | String "-" t =>
      match digits_value t with
      | Some n => SFopp (JS.of_Z (Z.of_N n))
      | None => S754_nan
      end
  | _ =>
      match digits_value s with
      | Some n => JS.of_Z (Z.of_N n)
      | None => S754_nan
      end
  end.

(** [isInt({ min: 1 })] on a JSON string: the text is made of decimal
    digits with an optional sign in front, and it compares [>= 1] as a
    number. *)
Definition isInt_min1_text (s : string) : bool :=
  match match s with
        | String "+" t | String "-" t => digits_value t
        | _ => digits_value s
        end with
  | Some _ => JS.ge (Number_of_text s) (JS.of_Z 1)
  | None => false
  end.

Definition isInt_min1_quantity (q : Quantity) : bool :=
  match q with
  | QNumber n => isInt_min1 n
  | QString s => isInt_min1_text s
  end.

(** The number a quantity stands for in arithmetic and once the schema has
    cast it. *)
Definition ToNumber (q : Quantity) : Number :=
  match q with
  | QNumber n => n
  | QString s => Number_of_text s
  end.

(** A quantity sent as a number is a binary64 value. *)
Definition quantity_wellformed (q : Quantity) : bool :=
  match q with
  | QNumber n => valid_binary JS.prec JS.emax n
  | QString _ => true
  end.

(** ** Identifier generation ([models/Order.js]) *)

Definition month_prefix (scope : string) (today : Date) : string :=
  scope ++ JS.String_of_N (getFullYear today)
        ++ JS.padStart 2 "0" (JS.String_of_N (getMonth today + 1)).

(** [countDocuments({ field: { $regex: `^${prefix}` } })]; the prefix is made
    of letters and digits only, so the pattern matches exactly the strings
    that start with it. *)
Definition count_prefixed (prefix : string) (ids : list (option string)) : nat :=
  List.length
    (filter (fun id => match id with
                       | Some s => String.prefix prefix s
                       | None => false
                       end) ids).

Definition next_identifier (prefix : string) (count : nat) : string :=
  prefix ++ JS.padStart 4 "0" (JS.String_of_N (N.of_nat count + 1)).

Definition generateOrderNumber (today : Date) (os : list Order) : string :=
  let prefix := month_prefix "ORD" today in
  let count := count_prefixed prefix (map (fun o => Some (orderNumber o)) os) in
  next_identifier prefix count.

Definition generateInvoiceNumber (today : Date) (os : list Order) : string :=
  let prefix := month_prefix "INV" today in
  let count := count_prefixed prefix (map invoiceNumber os) in
  next_identifier prefix count.

(** ** Order routes ([routes/adminOrders.js]) *)

Record OrderItemReq := mkOrderItemReq {
  productId : string;
  req_quantity : Number
}.

Record CreateOrderReq := mkCreateOrderReq {
  req_customer : Customer;
  req_items : list OrderItemReq;
  req_paymentMethod : option string;
  req_notes : option string;
  req_amountPaid : option Number
}.

Record UpdateOrderReq := mkUpdateOrderReq {
  upd_status : option string;
  upd_amountPaid : option Number;
  upd_notes : option string
}.

(** The variables the pricing loop carries. *)
Record Pricing := mkPricing {
  acc_subtotal : Number;
  acc_totalGst : Number;
  processedItems : list OrderItem
}.

Definition itemTotal_of (price qty : Number) : Number := JS.mul price qty.

Definition gst_of (itemTotal : Number) : Number :=
  JS.div (JS.mul itemTotal (JS.of_Z 18)) (JS.of_Z 100).

Definition process_item (p : Product) (item : OrderItemReq) : OrderItem :=
  let itemTotal := itemTotal_of (p_price p) (req_quantity item) in
  let gst := gst_of itemTotal in
  mkOrderItem (p__id p) (p_name p) (p_id p) (req_quantity item) (p_unit p)
              (p_price p) JS.zero (JS.of_Z 18) gst (JS.add itemTotal gst).

(** [for (const item of items) { ... }]: stops with the missing product's
    id at the first item that does not resolve. *)
Fixpoint price_items (ps : list Product) (its : list OrderItemReq)
                     (acc : Pricing) : string + Pricing :=
  match its with
  | [] => inr acc
  | item :: rest =>
      match Product_findOne ps (productId item) with
      | None => inl (productId item)
      | Some p =>
          let itemTotal := itemTotal_of (p_price p) (req_quantity item) in
          let gst := gst_of itemTotal in
          price_items ps rest
            (mkPricing (JS.add (acc_subtotal acc) itemTotal)
                       (JS.add (acc_totalGst acc) gst)
                       (processedItems acc ++ [process_item p item]))
      end
  end.

(** [paid >= grandTotal ? 'paid' : paid > 0 ? 'partial' : 'pending'] *)
Definition payment_status (paid grandTotal : Number) : string :=
  if JS.ge paid grandTotal then "paid"
  else if JS.gt paid JS.zero then "partial"
  else "pending".

Definition or_default_string (s : option string) (d : string) : string :=
  match s with
  | Some v => if JS.truthy_string v then v else d
  | None => d
  end.

(** [new Order({ ... })] once the loop has priced every item. *)
Definition new_order (today : Date) (user : ObjectId) (req : CreateOrderReq)
                     (db : DB) (acc : Pricing) : Order :=
  let grandTotal := JS.add (acc_subtotal acc) (acc_totalGst acc) in
  let paid := JS.or_default (req_amountPaid req) JS.zero in
  mkOrder (fresh_id (orders db)) (generateOrderNumber today (orders db)) None
          (mkCustomer (trim (c_name (req_customer req)))
             (c_phone (req_customer req)) (c_email (req_customer req))
             (c_address (req_customer req)) (c_gstin (req_customer req)))
          (processedItems acc) (acc_subtotal acc) JS.zero (acc_totalGst acc)
          grandTotal
          (or_default_string (req_paymentMethod req) "cash")
          (payment_status paid grandTotal)
          paid (JS.sub grandTotal paid) "confirmed"
          (req_notes req) user None.

(** POST /api/admin/orders *)
Definition create_order (today : Date) (user : ObjectId)
                        (req : CreateOrderReq) (db : DB) : Response * DB :=
  if negb (notEmpty (trim (c_name (req_customer req)))
           && Nat.leb 1 (List.length (req_items req)))
  then (mkResponse 400 BErrors, db)
  else
    match price_items (products db) (req_items req)
                      (mkPricing JS.zero JS.zero []) with
    | inl pid => (mkResponse 400 (BFail ("Product not found: " ++ pid)), db)
    | inr acc =>
        let order := new_order today user req db acc in
        match Order_save order db with
        | Some db' => (mkResponse 201 (BOrder "Order created" order), db')
        | None => (server_error, db)
        end
    end.

Definition set_status (s : string) (o : Order) : Order :=
  mkOrder (_id o) (orderNumber o) (invoiceNumber o) (customer o) (items o)
          (subtotal o) (totalDiscount o) (totalGst o) (grandTotal o)
          (paymentMethod o) (paymentStatus o) (amountPaid o) (amountDue o)
          s (notes o) (createdBy o) (processedBy o).

Definition set_payment (a : Number) (o : Order) : Order :=
  mkOrder (_id o) (orderNumber o) (invoiceNumber o) (customer o) (items o)
          (subtotal o) (totalDiscount o) (totalGst o) (grandTotal o)
          (paymentMethod o) (payment_status a (grandTotal o))
          a (JS.sub (grandTotal o) a)
          (status o) (notes o) (createdBy o) (processedBy o).

Definition set_notes (n : string) (o : Order) : Order :=
  mkOrder (_id o) (orderNumber o) (invoiceNumber o) (customer o) (items o)
          (subtotal o) (totalDiscount o) (totalGst o) (grandTotal o)
          (paymentMethod o) (paymentStatus o) (amountPaid o) (amountDue o)
          (status o) (Some n) (createdBy o) (processedBy o).

Definition set_processedBy (u : ObjectId) (o : Order) : Order :=
  mkOrder (_id o) (orderNumber o) (invoiceNumber o) (customer o) (items o)
          (subtotal o) (totalDiscount o) (totalGst o) (grandTotal o)
          (paymentMethod o) (paymentStatus o) (amountPaid o) (amountDue o)
          (status o) (notes o) (createdBy o) (Some u).

Definition set_invoiceNumber (n : string) (o : Order) : Order :=
  mkOrder (_id o) (orderNumber o) (Some n) (customer o) (items o)
          (subtotal o) (totalDiscount o) (totalGst o) (grandTotal o)
          (paymentMethod o) (paymentStatus o) (amountPaid o) (amountDue o)
          (status o) (notes o) (createdBy o) (processedBy o).

(** [if (field) order.field = field] for a string field of the body. *)
Definition assign_if_truthy (f : string -> Order -> Order)
                            (v : option string) (o : Order) : Order :=
  match v with
  | Some s => if JS.truthy_string s then f s o else o
  | None => o
  end.

(** The assignments of PUT /:id before the save. *)
Definition apply_update (user : ObjectId) (req : UpdateOrderReq)
                        (order : Order) : Order :=
  let o1 := assign_if_truthy set_status (upd_status req) order in
  let o2 := match upd_amountPaid req with
            | Some a => set_payment a o1
            | None => o1
            end in
  let o3 := assign_if_truthy set_notes (upd_notes req) o2 in
  set_processedBy user o3.

(** PUT /api/admin/orders/:id *)
Definition update_order (user : ObjectId) (id : ObjectId)
                        (req : UpdateOrderReq) (db : DB) : Response * DB :=
  match Order_findById (orders db) id with
  | None => (mkResponse 404 (BFail "Order not found"), db)
  | Some order =>
      let order' := apply_update user req order in
      match Order_save order' db with
      | Some db' => (mkResponse 200 (BOrder "Order updated" order'), db')
      | None => (server_error, db)
      end
  end.

Definition truthy_opt (s : option string) : bool :=
  match s with
  | Some v => JS.truthy_string v
  | None => false
  end.

(** POST /api/admin/orders/:id/invoice *)
Definition issue_invoice (today : Date) (id : ObjectId) (db : DB)
  : Response * DB :=
  match Order_findById (orders db) id with
  | None => (mkResponse 404 (BFail "Order not found"), db)
  | Some order =>
      if truthy_opt (invoiceNumber order)
      then (mkResponse 400 (BFail "Invoice exists"), db)
      else
        let order' :=
          set_status "completed"
            (set_invoiceNumber (generateInvoiceNumber today (orders db)) order) in
        match Order_save order' db with
        | Some db' => (mkResponse 200 (BOrder "Invoice generated" order'), db')
        | None => (server_error, db)
        end
  end.

(** ** Stock routes (adminStock.js) *)

(** The bodies of the stock requests. The quantity of a stock-in and of an
    adjustment is added to a number with [+], so a quantity sent as a
    string takes another course than one sent as a number; the stock-out
    route only subtracts and multiplies, which read a numeric string as
    its number. A unit price, when sent, is a JSON number. *)
Record StockInReq := mkStockInReq {
  in_productId : string;
  in_quantity : Quantity;
  in_unitPrice : option Number;
  in_supplierName : option string;
  in_invoiceNo : option string;
  in_notes : option string
}.

Record StockOutReq := mkStockOutReq {
  out_productId : string;
  out_quantity : Number;
  out_reason : option string;
  out_notes : option string
}.

Record AdjustmentReq := mkAdjustmentReq {
  adj_productId : string;
  adj_quantity : Quantity;
  adj_type : string;
  adj_notes : option string
}.

Definition set_inStock (b : bool) (p : Product) : Product :=
  mkProduct (p__id p) (p_id p) (p_name p) (p_price p) (p_unit p) b
            (p_category p) (p_image p) (p_description p) (p_reviews p).

Definition not_found : Response := mkResponse 404 (BFail "Product not found").

(** [notes || reason] *)
Definition or_else_string (a b : option string) : option string :=
  if truthy_opt a then a else b.

(** [product.inStock ? 1 : 0], the stock-in and adjustment routes' stand-in
    for a quantity on hand ("simplified - using inStock boolean"). *)
Definition flag_stock (p : Product) : Number :=
  if p_inStock p then JS.of_Z 1 else JS.zero.

(** [previousStock + quantity], [previousStock] being the number 1 or 0:
    the sum of two numbers; or, for a quantity sent as a string, the text
    of [previousStock] followed by the quantity, which the schema casts to
    a number when the movement is built. *)
Definition plus_quantity (p : Product) (q : Quantity) : Number :=
  match q with
  | QNumber n => JS.add (flag_stock p) n
  | QString s => Number_of_text ((if p_inStock p then "1" else "0") ++ s)
  end.

(** [new StockMovement({ ... })] of the stock-in route. *)
Definition in_movement (user : ObjectId) (req : StockInReq) (p : Product)
  : StockMovement :=
  let quantity := in_quantity req in
  let price := JS.or_default (in_unitPrice req) (p_price p) in
  mkStockMovement (p__id p) "stock_in" (ToNumber quantity) (flag_stock p)
    (plus_quantity p quantity)
    (Some price) (Some (JS.mul price (ToNumber quantity)))
    (in_supplierName req) (in_invoiceNo req) (in_notes req) user.

(** POST /api/admin/stock/in *)
Definition stock_in (user : ObjectId) (req : StockInReq) (db : DB)
  : Response * DB :=
  if negb (notEmpty (in_productId req)
           && isInt_min1_quantity (in_quantity req)
           && isFloat_min0 (in_unitPrice req))
  then (mkResponse 400 BErrors, db)
  else
    match Product_findOne (products db) (in_productId req) with
    | None => (not_found, db)
    | Some p =>
        let movement := in_movement user req p in
        match StockMovement_save movement db with
        | None => (server_error, db)
        | Some db1 =>
            match Product_save (set_inStock true p) db1 with
            | None => (server_error, db1)
            | Some db2 =>
                (mkResponse 201
                   (BMovement "Stock in recorded successfully" movement),
                 db2)
            end
        end
    end.

(** [new StockMovement({ ... })] of the stock-out route, with
    [previousStock = product.inStock ? quantity : 0] and
    [newStock = Math.max(0, previousStock - quantity)]. *)
Definition out_movement (user : ObjectId) (req : StockOutReq) (p : Product)
  : StockMovement :=
  let quantity := out_quantity req in
  let previousStock := if p_inStock p then quantity else JS.zero in
  mkStockMovement (p__id p) "stock_out" quantity previousStock
    (JS.Math_max JS.zero (JS.sub previousStock quantity))
    (Some (p_price p)) (Some (JS.mul (p_price p) quantity))
    None None (or_else_string (out_notes req) (out_reason req)) user.

(** POST /api/admin/stock/out *)
Definition stock_out (user : ObjectId) (req : StockOutReq) (db : DB)
  : Response * DB :=
  if negb (notEmpty (out_productId req) && isInt_min1 (out_quantity req))
  then (mkResponse 400 BErrors, db)
  else
    match Product_findOne (products db) (out_productId req) with
    | None => (not_found, db)
    | Some p =>
        let movement := out_movement user req p in
        match StockMovement_save movement db with
        | None => (server_error, db)
        | Some db1 =>
            if JS.le (newStock movement) JS.zero
            then match Product_save (set_inStock false p) db1 with
                 | None => (server_error, db1)
                 | Some db2 =>
                     (mkResponse 201
                        (BMovement "Stock out recorded successfully" movement),
                      db2)
                 end
            else (mkResponse 201
                    (BMovement "Stock out recorded successfully" movement),
                  db1)
        end
    end.

(** [new StockMovement({ ... })] of the adjustment route. *)
Definition adjustment_movement (user : ObjectId) (req : AdjustmentReq)
                               (p : Product) : StockMovement :=
  let quantity := adj_quantity req in
  mkStockMovement (p__id p) (adj_type req) (ToNumber quantity) (flag_stock p)
    (if String.eqb (adj_type req) "return"
     then plus_quantity p quantity
     else JS.Math_max JS.zero (JS.sub (flag_stock p) (ToNumber quantity)))
    None None None None (adj_notes req) user.

(** POST /api/admin/stock/adjustment *)
Definition stock_adjustment (user : ObjectId) (req : AdjustmentReq) (db : DB)
  : Response * DB :=
  if negb (notEmpty (adj_productId req)
           && isInt_min1_quantity (adj_quantity req)
           && enum_ok ["adjustment"; "return"; "damage"] (adj_type req))
  then (mkResponse 400 BErrors, db)
  else
    match Product_findOne (products db) (adj_productId req) with
    | None => (not_found, db)
    | Some p =>
        let movement := adjustment_movement user req p in
        match StockMovement_save movement db with
        | None => (server_error, db)
        | Some db1 =>
            match Product_save
                    (set_inStock (JS.gt (newStock movement) JS.zero) p)
                    db1 with
            | None => (server_error, db1)
            | Some db2 =>
                (mkResponse 201
                   (BMovement "Stock adjustment recorded successfully"
                              movement),
                 db2)
            end
        end
    end.

(** ** The system as a whole: requests and reachable databases *)

Inductive Request :=
| CreateOrder (today : Date) (user : ObjectId) (req : CreateOrderReq)
| UpdateOrder (user : ObjectId) (id : ObjectId) (req : UpdateOrderReq)
| IssueInvoice (today : Date) (id : ObjectId)
| StockIn (user : ObjectId) (req : StockInReq)
| StockOut (user : ObjectId) (req : StockOutReq)
| StockAdjustment (user : ObjectId) (req : AdjustmentReq).

Definition handle (r : Request) (db : DB) : Response * DB :=
  match r with
  | CreateOrder today user req => create_order today user req db
  | UpdateOrder user id req => update_order user id req db
  | IssueInvoice today id => issue_invoice today id db
  | StockIn user req => stock_in user req db
  | StockOut user req => stock_out user req db
  | StockAdjustment user req => stock_adjustment user req db
  end.

(** Databases the routes can produce from a catalogue with no orders. *)
Inductive reachable : DB -> Prop :=
| reach_init : forall ps ms, reachable (mkDB ps [] ms)
| reach_step : forall db r, reachable db -> reachable (snd (handle r db)).

(** What every stored order satisfies. *)
Definition order_ok (os : list Order) (o : Order) : Prop :=
  validate_order o = true
  /\ unique_ok o os = true
  /\ (forall n, invoiceNumber o = Some n -> n <> "").

Definition db_ok (db : DB) : Prop :=
  Forall (order_ok (orders db)) (orders db).

(** ** Definitions that follow the wording of the specification *)

(** Section 4.4: [paid] if [amountPaid >= grandTotal]; [partial] if
    [0 < amountPaid < grandTotal]; else [pending]. *)
Definition spec_payment_status (a g : Number) : string :=
  if JS.ge a g then "paid"
  else if JS.lt JS.zero a && JS.lt a g then "partial"
  else "pending".

(** The sum a JavaScript accumulation loop [acc += x] computes from 0. *)
Definition sum_numbers (l : list Number) : Number :=
  fold_left JS.add l JS.zero.



(** Section 4.4, the order status machine: the forward edges and
    cancellation from a non-terminal state. *)
Definition spec_status_edge (from to : string) : bool :=
  (String.eqb from "draft" && String.eqb to "confirmed")
  || (String.eqb from "confirmed" && String.eqb to "processing")
  || (String.eqb from "processing" && String.eqb to "completed")
  || (String.eqb to "cancelled"
      && negb (String.eqb from "completed" || String.eqb from "cancelled")).

(** Section 4.2: rounding to the smallest currency unit (1/100),
    half-up, of an exact amount. *)
Definition spec_round_half_up (q : Q) : Q :=
  (Qfloor (q * 100 + (1 # 2)) # 100)%Q.

(** An amount is a whole number of minor units. *)
Definition minor_units (x : Number) : bool :=
  match JS.to_Q x with
  | Some q => Qeq_bool (inject_Z (Qfloor (q * 100))) (q * 100)
  | None => false
  end.

(** The value a decimal string (leading zeros allowed) denotes. *)
Definition decimal_value (s : string) : option N :=
  option_map N.of_uint (NilEmpty.uint_of_string s).

Definition valid_date (d : Date) : Prop :=
  (1000 <= getFullYear d <= 9999)%N /\ (getMonth d <= 11)%N.

Definition same_month (d d' : Date) : bool :=
  N.eqb (getFullYear d) (getFullYear d') && N.eqb (getMonth d) (getMonth d').

(** ** Definitions the statements below use *)

(** A line priced as section 4.2 words it. *)
Definition line_priced (it : OrderItem) : Prop :=
  discount it = JS.zero
  /\ gstAmount it
     = JS.div (JS.mul (JS.mul (unitPrice it) (quantity it)) (JS.of_Z 18))
              (JS.of_Z 100)
  /\ totalAmount it
     = JS.add (JS.mul (unitPrice it) (quantity it)) (gstAmount it).

(** A line is the requested item at the catalogue's current price. *)
Definition resolves (ps : list Product) (item : OrderItemReq)
                    (it : OrderItem) : Prop :=
  exists p, Product_findOne ps (productId item) = Some p
            /\ it = process_item p item.

(** The catalogue and the request of the two-item scenario of section 8. *)
Definition scenario_products : list Product :=
  [ mkProduct 1 "steel-tmt-12" "TMT bar 12mm" (JS.of_Z 65000) "ton" true
              "steel" "tmt-12.jpg" "TMT bar, 12 mm" [];
    mkProduct 2 "elec-wire-1" "Copper wire" (JS.of_Z 58) "metre" true
              "electronics" "wire-1.jpg" "Copper wire, 1 sq mm" [] ].

Definition scenario_db : DB := mkDB scenario_products [] [].

Definition scenario_request : CreateOrderReq :=
  mkCreateOrderReq (mkCustomer "Ravi Traders" None None None None)
    [ mkOrderItemReq "steel-tmt-12" (JS.of_Z 2);
      mkOrderItemReq "elec-wire-1" (JS.of_Z 10) ]
    None None None.

Definition scenario_today : Date := mkDate 2026 10.

(** The database after the two-item order of the scenario is placed. *)
Definition scenario_db1 : DB :=
  snd (create_order scenario_today 7 scenario_request scenario_db).

(** The scenario order once its invoice is issued. *)
Definition scenario_db2 : DB :=
  snd (issue_invoice scenario_today 1 scenario_db1).


(** A catalogue whose single product is out of stock, and the same after
    a stock-in of 4. *)
Definition ledger_db0 : DB :=
  mkDB [mkProduct 1 "steel-tmt-12" "TMT bar 12mm" (JS.of_Z 65000) "ton" false
                  "steel" "tmt-12.jpg" "TMT bar, 12 mm" []]
       [] [].


Fixpoint range_N (start : N) (len : nat) : list N :=
  match len with
  | O => []
  | S l => start :: range_N (N.succ start) l
  end.

(** The year and month digits of a date. *)
Definition month_digits (d : Date) : string :=
  JS.String_of_N (getFullYear d)
  ++ JS.padStart 2 "0" (JS.String_of_N (getMonth d + 1)).

(** The identifier issued in scope [scope] on date [fst e] when [snd e]
    identifiers of that scope and month were on record. *)
Definition issued (scope : string) (e : Date * nat) : string :=
  next_identifier (month_prefix scope (fst e)) (snd e).

Definition in_month (today : Date) (e : option (Date * nat)) : bool :=
  match e with
  | Some x => same_month today (fst x)
  | None => false
  end.

Definition valid_entry (e : option (Date * nat)) : Prop :=
  match e with
  | Some x => valid_date (fst x)
  | None => True
  end.

(** How many entries of a record of issuances fall in the month of
    [today]. *)
Definition issued_in_month (today : Date) (hist : list (option (Date * nat)))
  : nat :=
  List.length (filter (in_month today) hist).

(** The order a response carries. *)
Definition created (r : Response) : option Order :=
  match res_body r with
  | BOrder _ o => Some o
  | _ => None
  end.

(** Section 4.2 on a line: the stored gstAmount is the exact value of
    itemTotal * 18 / 100 rounded half-up to a whole number of minor
    units. *)
Definition spec_gst_rounded (it : OrderItem) : bool :=
  match JS.to_Q (JS.mul (unitPrice it) (quantity it)),
        JS.to_Q (gstAmount it) with
  | Some qt, Some qg => Qeq_bool qg (spec_round_half_up (qt * 18 / 100))
  | _, _ => false
  end.

(** Section 4.2 on an order: every amount is a whole number of minor
    units. *)
Definition spec_minor_unit_amounts (o : Order) : bool :=
  forallb (fun it => minor_units (gstAmount it) && minor_units (totalAmount it))
          (items o)
  && minor_units (subtotal o) && minor_units (totalGst o)
  && minor_units (grandTotal o).

(** A finite number is a binary fraction: its exact value has a power of
    two as denominator. *)
Definition binary_amount (x : Number) : Prop :=
  forall q, JS.to_Q x = Some q -> exists k : N, Zpos (Qden q) = (2 ^ Z.of_N k)%Z.

(** A catalogue with one product priced 0.25, exactly 25 minor units. *)
Definition quarter_db : DB :=
  mkDB [mkProduct 1 "elec-clip" "Cable clip" (JS.dec 25 2) "piece" true
                  "electronics" "clip.jpg" "Cable clip" []]
       [] [].

Definition quarter_request : CreateOrderReq :=
  mkCreateOrderReq (mkCustomer "Ravi Traders" None None None None)
    [mkOrderItemReq "elec-clip" (JS.of_Z 1)] None None None.

Definition request_dated (r : Request) : Prop :=
  match r with
  | CreateOrder today _ _ | IssueInvoice today _ => valid_date today
  | _ => True
  end.

(** Runs of the routes whose clock shows a four-digit year. *)
Inductive dated : DB -> Prop :=
| dated_init : forall ps ms, dated (mkDB ps [] ms)
| dated_step : forall db r,
    dated db -> request_dated r -> dated (snd (handle r db)).

Definition issued_order (o : Order) : Prop :=
  (exists e, valid_entry e
             /\ Some (orderNumber o) = option_map (issued "ORD") e)
  /\ (exists e, valid_entry e
                /\ invoiceNumber o = option_map (issued "INV") e).

(** ** Sequences of requests *)

(** The database after the requests of [rs] were served one after the
    other. *)
Definition run (rs : list Request) (db : DB) : DB :=
  fold_left (fun d r => snd (handle r d)) rs db.

(** The requests of the order routes. *)
Definition is_order_request (r : Request) : bool :=
  match r with
  | CreateOrder _ _ _ | UpdateOrder _ _ _ | IssueInvoice _ _ => true
  | _ => false
  end.

(** A stored order keeps what was fixed when it was created. *)
Definition same_core (o o' : Order) : Prop :=
  _id o' = _id o
  /\ orderNumber o' = orderNumber o
  /\ customer o' = customer o
  /\ items o' = items o
  /\ subtotal o' = subtotal o
  /\ totalDiscount o' = totalDiscount o
  /\ totalGst o' = totalGst o
  /\ grandTotal o' = grandTotal o
  /\ paymentMethod o' = paymentMethod o
  /\ createdBy o' = createdBy o
  /\ (forall n, invoiceNumber o = Some n -> n <> "" ->
                invoiceNumber o' = Some n).

(** The payment fields of an order agree with one another. *)
Definition payment_consistent (o : Order) : Prop :=
  grandTotal o = JS.add (subtotal o) (totalGst o)
  /\ totalDiscount o = JS.zero
  /\ amountDue o = JS.sub (grandTotal o) (amountPaid o)
  /\ paymentStatus o = payment_status (amountPaid o) (grandTotal o)
  /\ JS.ge (amountPaid o) JS.zero = true
  /\ JS.ge (amountDue o) JS.zero = true.

(** ** Sequence numbers on record *)

(** An identifier on record was issued in some month with an ordinal that
    the count of that month's identifiers on record already covers. *)
Definition counted (scope : string) (ids : list (option string))
                   (id : option string) : Prop :=
  match id with
  | None => True
  | Some s =>
      exists d k, valid_date d /\ s = issued scope (d, k)
                  /\ k < count_prefixed (month_prefix scope d) ids
  end.

Definition sequenced (scope : string) (ids : list (option string)) : Prop :=
  Forall (counted scope ids) ids.

(** ** Signs of numbers *)

(** Zero of either sign, a positive finite number or [+Infinity]. *)
Definition is_nonneg (x : Number) : bool :=
  match x with
  | S754_zero _ => true
  | S754_finite s _ _ | S754_infinity s => negb s
  | S754_nan => false
  end.

(** Zero of either sign, a negative finite number or [-Infinity]. *)
Definition is_nonpos (x : Number) : bool :=
  match x with
  | S754_zero _ => true
  | S754_finite s _ _ | S754_infinity s => s
  | S754_nan => false
  end.

Definition is_finite_nonneg (x : Number) : bool :=
  match x with
  | S754_zero _ | S754_finite false _ _ => true
  | _ => false
  end.

Definition is_finite_pos (x : Number) : bool :=
  match x with
  | S754_finite false _ _ => true
  | _ => false
  end.

(** The sign a rounded result carries. *)
Definition has_sign (s : bool) (x : Number) : Prop :=
  match x with
  | S754_zero s' | S754_finite s' _ _ | S754_infinity s' => s' = s
  | S754_nan => False
  end.

(** ** Well-formed catalogue entries and requested items *)

(** What the product schema requires of the fields an order copies, with a
    finite price. *)
Definition product_ok (p : Product) : bool :=
  required_string (p_name p) && required_string (p_id p)
  && required_string (p_unit p) && is_finite_nonneg (p_price p).

(** A requested item that resolves to a well-formed product, for a finite
    quantity of at least 1. *)
Definition item_ok (ps : list Product) (item : OrderItemReq) : Prop :=
  exists p, Product_findOne ps (productId item) = Some p
            /\ product_ok p = true
            /\ is_finite_pos (req_quantity item) = true
            /\ min_ok 1 (req_quantity item) = true.

(** ** Accounts, tokens and roles ([middleware/auth.js]) *)

(** The account fields the middleware and the routes read. *)
Record User := mkUser {
  u__id : ObjectId;
  u_name : string;
  u_email : string;
  u_role : string;
  u_isActive : bool
}.

(** The claims of a verified token that the middleware reads. *)
Record Decoded := mkDecoded {
  userId : option ObjectId;
  d_id : option ObjectId
}.

(** [User.findById(id)], [id] possibly [undefined]. *)
Definition User_findById (users : list User) (id : option ObjectId)
  : option User :=
  match id with
  | Some i => find (fun u => Nat.eqb (u__id u) i) users
  | None => None
  end.

(** [a || b] on two ids that may be [undefined]. *)
Definition or_else_id (a b : option ObjectId) : option ObjectId :=
  match a with
  | Some i => Some i
  | None => b
  end.

(** [s.split(' ')] *)
Fixpoint split_space (s : string) : list string :=
  match s with
  | EmptyString => [EmptyString]
  | String c s' =>
      if Ascii.eqb c " "
      then EmptyString :: split_space s'
      else match split_space s' with
           | w :: ws => String c w :: ws
           | [] => [String c EmptyString]
           end
  end.

Definition startsWith (s p : string) : bool := String.prefix p s.

(** What a middleware does with a request: answer it, or call [next()]
    with [req.user] set. *)
Inductive Guard :=
| Refuse (r : Response)
| Next (user : User).

Definition refuse (code : nat) (message : string) : Guard :=
  Refuse (mkResponse code (BFail message)).

(** [authenticate]; [verify token] is [jwt.verify(token, JWT_SECRET)],
    [None] when it throws. *)
Definition authenticate (verify : string -> option Decoded)
                        (users : list User) (authorization : option string)
  : Guard :=
  match authorization with
  | None => refuse 401 "Access denied. No token provided."
  | Some authHeader =>
      if negb (JS.truthy_string authHeader)
         || negb (startsWith authHeader "Bearer ")
      then refuse 401 "Access denied. No token provided."
      else
        match nth_error (split_space authHeader) 1 with
        | None => refuse 401 "Invalid or expired token."
        | Some token =>
            match verify token with
            | None => refuse 401 "Invalid or expired token."
            | Some decoded =>
                match User_findById users
                        (or_else_id (userId decoded) (d_id decoded)) with
                | None => refuse 401 "User not found."
                | Some user =>
                    if negb (u_isActive user)
                    then refuse 401 "Account has been deactivated."
                    else Next user
                end
            end
        end
  end.

(** [authorize(...allowedRoles)], run on [req.user]. *)
Definition authorize (allowedRoles : list string) (user : option User)
  : Guard :=
  match user with
  | None => refuse 401 "Authentication required."
  | Some u =>
      if negb (existsb (String.eqb (u_role u)) allowedRoles)
      then refuse 403
             ("Access denied. This action requires one of the following roles: "
              ++ String.concat ", " allowedRoles)
      else Next u
  end.

Module ROLES.
Definition SUPER_ADMIN : string := "super_admin".
Definition ADMIN : string := "admin".
Definition STAFF : string := "staff".
Definition CUSTOMER : string := "customer".
End ROLES.

Module PERMISSIONS.
Definition MANAGE_USERS : list string := [ROLES.SUPER_ADMIN].
Definition MANAGE_PRODUCTS : list string := [ROLES.SUPER_ADMIN; ROLES.ADMIN].
Definition VIEW_PRODUCTS : list string :=
  [ROLES.SUPER_ADMIN; ROLES.ADMIN; ROLES.STAFF].
Definition MANAGE_STOCK : list string := [ROLES.SUPER_ADMIN; ROLES.ADMIN].
Definition CREATE_ORDERS : list string :=
  [ROLES.SUPER_ADMIN; ROLES.ADMIN; ROLES.STAFF].
Definition VIEW_ORDERS : list string :=
  [ROLES.SUPER_ADMIN; ROLES.ADMIN; ROLES.STAFF].
Definition VIEW_REPORTS : list string := [ROLES.SUPER_ADMIN; ROLES.ADMIN].
Definition VIEW_ALL_REPORTS : list string := [ROLES.SUPER_ADMIN].
Definition VIEW_SALES : list string := [ROLES.SUPER_ADMIN; ROLES.ADMIN].
Definition FULL_ACCESS : list string := [ROLES.SUPER_ADMIN].
End PERMISSIONS.

(** ** The guarded routes

    The admin order router and the admin stock router run [authenticate]
    first ([router.use(authenticate)]); each route then runs [authorize]
    with its permission before the validators and the handler. The routes
    of the public routers are mounted without either and are not among
    the calls below. *)

(** A request to one of the two admin routers as it arrives: the route
    and its parameters and body. *)
Inductive Call :=
| POST_orders (today : Date) (req : CreateOrderReq)
| PUT_orders_id (id : ObjectId) (req : UpdateOrderReq)
| POST_orders_id_invoice (today : Date) (id : ObjectId)
| POST_stock_in (req : StockInReq)
| POST_stock_out (req : StockOutReq)
| POST_stock_adjustment (req : AdjustmentReq).

(** The permission each route passes to [authorize]. *)
Definition allowedRoles (c : Call) : list string :=
  match c with
  | POST_orders _ _ | PUT_orders_id _ _ | POST_orders_id_invoice _ _ =>
      PERMISSIONS.CREATE_ORDERS
  | POST_stock_in _ | POST_stock_out _ | POST_stock_adjustment _ =>
      PERMISSIONS.MANAGE_STOCK
  end.

(** The handler a call reaches, with [req.user._id]. *)
Definition route (c : Call) (user : User) : Request :=
  match c with
  | POST_orders today req => CreateOrder today (u__id user) req
  | PUT_orders_id id req => UpdateOrder (u__id user) id req
  | POST_orders_id_invoice today id => IssueInvoice today id
  | POST_stock_in req => StockIn (u__id user) req
  | POST_stock_out req => StockOut (u__id user) req
  | POST_stock_adjustment req => StockAdjustment (u__id user) req
  end.

Definition serve (verify : string -> option Decoded) (users : list User)
                 (authorization : option string) (c : Call) (db : DB)
  : Response * DB :=
  match authenticate verify users authorization with
  | Refuse r => (r, db)
  | Next user =>
      match authorize (allowedRoles c) (Some user) with
      | Refuse r => (r, db)
      | Next user' => handle (route c user') db
      end
  end.

(** The database after the calls of [cs], each with its [Authorization]
    header, were served one after the other. *)
Definition serve_all (verify : string -> option Decoded) (users : list User)
                     (cs : list (option string * Call)) (db : DB) : DB :=
  fold_left (fun d hc => snd (serve verify users (fst hc) (snd hc) d)) cs db.

(** A token check and three accounts to run the guards on. *)
Definition demo_verify (token : string) : option Decoded :=
  if String.eqb token "t-admin" then Some (mkDecoded (Some 2) (Some 2))
  else if String.eqb token "t-staff" then Some (mkDecoded (Some 3) (Some 3))
  else if String.eqb token "t-left" then Some (mkDecoded (Some 4) (Some 4))
  else None.

Definition demo_users : list User :=
  [mkUser 1 "Super Admin" "superadmin@sriamman.com" "super_admin" true;
   mkUser 2 "Admin User" "admin@sriamman.com" "admin" true;
   mkUser 3 "Staff User" "staff@sriamman.com" "staff" true;
   mkUser 4 "Former Admin" "former@sriamman.com" "admin" false].

(** ** The admin product routes (adminProducts.js) *)

(** The body of a creation request; a text field that is absent reads as
    the empty string once the validators have run. *)
Record CreateProductReq := mkCreateProductReq {
  cp_name : string;
  cp_category : string;
  cp_price : option Number;
  cp_unit : string;
  cp_description : string;
  cp_image : option string;
  cp_inStock : option bool
}.

Inductive ProductBody :=
| PErrors                                        (* { success: false, errors } *)
| PFail (message : string)                       (* { success: false, message } *)
| PData (message : string) (data : Product)      (* { success: true, message, data } *)
| PDone (message : string).                      (* { success: true, message } *)

Record ProductResponse := mkProductResponse {
  pres_status : nat;
  pres_body : ProductBody
}.

(** [toUpperCase()] on the letters a to z; other characters of a category
    that passed [isIn] do not occur. *)
Definition toUpperCase_char (c : ascii) : ascii :=
  let n := nat_of_ascii c in
  if Nat.leb 97 n && Nat.leb n 122 then ascii_of_nat (n - 32) else c.

Fixpoint toUpperCase (s : string) : string :=
  match s with
  | EmptyString => EmptyString
  | String c s' => String (toUpperCase_char c) (toUpperCase s')
  end.

(** [Product.countDocuments({ category })] *)
Definition countDocuments_category (c : string) (docs : list Product)
  : nat :=
  List.length (filter (fun d => String.eqb (p_category d) c) docs).

(** The id the creation route builds: the first three letters of the
    category in upper case, then the category's count plus one on three
    digits. *)
Definition product_id (c : string) (docs : list Product) : string :=
  let prefix := toUpperCase (substring 0 3 c) in
  let count := countDocuments_category c docs in
  prefix ++ JS.padStart 3 "0" (JS.String_of_N (N.of_nat count + 1)).

Definition fresh_product_id (docs : list Product) : ObjectId :=
  S (fold_right Nat.max 0 (map (fun d => p__id d) docs)).

(** [product.save()] of a new document, under the unique index on [id]. *)
Definition Product_insert (d : Product) (docs : list Product)
  : option (list Product) :=
  if validate_product d
     && forallb (fun d' => negb (String.eqb (p_id d') (p_id d)))
                docs
  then Some (docs ++ [d])%list
  else None.

(** [isFloat({ min: 0 })] on a JSON number that has to be present. *)
Definition isFloat_min0_required (x : option Number) : bool :=
  match x with
  | None => false
  | Some _ => isFloat_min0 x
  end.

(** [image || 'https://via.placeholder.com/300'] *)
Definition image_or_placeholder (i : option string) : string :=
  match i with
  | Some s => if JS.truthy_string s then s
              else "https://via.placeholder.com/300"
  | None => "https://via.placeholder.com/300"
  end.

(** [new Product({ ... })] of the creation route; the schema trims name
    and unit. *)
Definition new_product (req : CreateProductReq) (price : Number)
                       (docs : list Product) : Product :=
  let name := trim (cp_name req) in
  let unit := trim (cp_unit req) in
  let description := trim (cp_description req) in
  mkProduct (fresh_product_id docs) (product_id (cp_category req) docs)
            (trim name) price (trim unit)
            (match cp_inStock req with Some b => b | None => true end)
            (cp_category req) (image_or_placeholder (cp_image req))
            description [].

(** POST /api/admin/products *)
Definition create_product (req : CreateProductReq) (docs : list Product)
  : ProductResponse * list Product :=
  if negb (notEmpty (trim (cp_name req))
           && enum_ok category_enum (cp_category req)
           && isFloat_min0_required (cp_price req)
           && notEmpty (trim (cp_unit req))
           && notEmpty (trim (cp_description req)))
  then (mkProductResponse 400 PErrors, docs)
  else
    match cp_price req with
    | None => (mkProductResponse 400 PErrors, docs)
    | Some price =>
        let product := new_product req price docs in
        match Product_insert product docs with
        | Some docs' =>
            (mkProductResponse 201
               (PData "Product created successfully" product), docs')
        | None => (mkProductResponse 500 (PFail "Server error"), docs)
        end
    end.

(** The collection without the first document that carries [id]. *)
Fixpoint remove_first (id : string) (docs : list Product)
  : list Product :=
  match docs with
  | [] => []
  | d :: docs' =>
      if String.eqb (p_id d) id then docs'
      else d :: remove_first id docs'
  end.

(** DELETE /api/admin/products/:id, [Product.findOneAndDelete({ id })]. *)
Definition delete_product (id : string) (docs : list Product)
  : ProductResponse * list Product :=
  match find (fun d => String.eqb (p_id d) id) docs with
  | None => (mkProductResponse 404 (PFail "Product not found"), docs)
  | Some _ =>
      (mkProductResponse 200 (PDone "Product deleted successfully"),
       remove_first id docs)
  end.

(** The catalogue after the creation requests of [reqs] were served one
    after the other. *)
Definition create_all (reqs : list CreateProductReq)
                      (docs : list Product) : list Product :=
  fold_left (fun ds req => snd (create_product req ds)) reqs docs.

(** DELETE /api/products/:id of the public products router
    ([routes/products.js]): no [authenticate], no [authorize]. *)
Definition public_delete_product (id : string) (db : DB)
  : ProductResponse * DB :=
  match Product_findOne (products db) id with
  | None => (mkProductResponse 404 (PFail "Product not found"), db)
  | Some _ =>
      (mkProductResponse 200 (PDone "Product deleted successfully"),
       mkDB (remove_first id (products db)) (orders db) (movements db))
  end.

Definition steel_request (name : string) : CreateProductReq :=
  mkCreateProductReq name "steel" (Some (JS.of_Z 65000)) "ton"
    "TMT bar" None None.

(** ** Product reviews ([models/Review.js], reviews.js)

    The fields the routes read or write; [isVerifiedPurchase],
    [isApproved] and the timestamps keep their defaults. *)

Record Review := mkReview {
  rv__id : ObjectId;
  rv_productId : string;
  rv_userId : ObjectId;
  userName : string;
  userEmail : string;
  rating : Number;
  title : string;
  comment : string;
  helpfulVotes : Number;
  helpfulVoters : list ObjectId
}.

(** The lower case of a code unit below 256: the letters A to Z and the
    accented capitals 192 to 222, the multiplication sign 215 apart. *)
Definition toLowerCase_char (c : ascii) : ascii :=
  let n := nat_of_ascii c in
  if (Nat.leb 65 n && Nat.leb n 90)
     || (Nat.leb 192 n && Nat.leb n 222 && negb (Nat.eqb n 215))
  then ascii_of_nat (n + 32) else c.

(** [toLowerCase()] *)
Fixpoint toLowerCase (s : string) : string :=
  match s with
  | EmptyString => EmptyString
  | String c s' => String (toLowerCase_char c) (toLowerCase s')
  end.

Definition minlength_ok (n : nat) (s : string) : bool :=
  Nat.leb n (String.length s).

(** What the review schema checks on [save()]. *)
Definition validate_review (r : Review) : bool :=
  required_string (rv_productId r)
  && required_string (userName r)
  && required_string (userEmail r)
  && min_ok 1 (rating r) && max_ok 5 (rating r)
  && maxlength_ok 100 (Some (title r))
  && required_string (comment r)
  && minlength_ok 10 (comment r)
  && maxlength_ok 1000 (Some (comment r)).

Inductive SaveError :=
| ValidationError
| DuplicateKey.                 (* error.code === 11000 *)

(** The compound unique index on [productId] and [userId]. *)
Definition same_subject (r r' : Review) : bool :=
  String.eqb (rv_productId r') (rv_productId r)
  && Nat.eqb (rv_userId r') (rv_userId r).

Definition Review_upsert (r : Review) (rs : list Review) : list Review :=
  if existsb (fun r' => Nat.eqb (rv__id r') (rv__id r)) rs
  then map (fun r' => if Nat.eqb (rv__id r') (rv__id r) then r else r') rs
  else (rs ++ [r])%list.

(** [review.save()] *)
Definition Review_save (r : Review) (rs : list Review)
  : SaveError + list Review :=
  if negb (validate_review r) then inl ValidationError
  else if existsb (fun r' => negb (Nat.eqb (rv__id r') (rv__id r))
                             && same_subject r r') rs
       then inl DuplicateKey
       else inr (Review_upsert r rs).

Definition Review_findById (rs : list Review) (id : ObjectId)
  : option Review :=
  find (fun r => Nat.eqb (rv__id r) id) rs.

(** [Review.findOne({ productId, userId })]; the schema trims the
    [productId] of the filter as it trims the stored one. *)
Definition Review_findOne (rs : list Review) (productId : string)
                          (user : ObjectId) : option Review :=
  find (fun r => String.eqb (rv_productId r) (trim productId)
                 && Nat.eqb (rv_userId r) user) rs.

Definition Review_findByIdAndDelete (id : ObjectId) (rs : list Review)
  : list Review :=
  filter (fun r => negb (Nat.eqb (rv__id r) id)) rs.

Definition fresh_review_id (rs : list Review) : ObjectId :=
  S (fold_right Nat.max 0 (map rv__id rs)).

Inductive ReviewBody :=
| RFail (message : string)
| RReview (message : string) (review : Review)
| RDone (message : string)
| RVote (message : string) (votes : Number) (userVoted : bool).

Record ReviewResponse := mkReviewResponse {
  rres_status : nat;
  rres_body : ReviewBody
}.

Definition review_fail (code : nat) (message : string) : ReviewResponse :=
  mkReviewResponse code (RFail message).

Inductive ReviewGuard :=
| RRefuse (r : ReviewResponse)
| RNext (user : User).

(** [authenticateToken] of the reviews router. *)
Definition authenticateToken (verify : string -> option Decoded)
                             (users : list User)
                             (authorization : option string) : ReviewGuard :=
  let token :=
    match authorization with
    | None => None
    | Some authHeader =>
        if JS.truthy_string authHeader
        then nth_error (split_space authHeader) 1
        else None
    end in
  match token with
  | None => RRefuse (review_fail 401 "Authentication required")
  | Some token =>
      if negb (JS.truthy_string token)
      then RRefuse (review_fail 401 "Authentication required")
      else
        match verify token with
        | None => RRefuse (review_fail 401 "Invalid token")
        | Some decoded =>
            match User_findById users (userId decoded) with
            | None => RRefuse (review_fail 401 "User not found")
            | Some user => RNext user
            end
        end
  end.

(** The body of a review request. *)
Record ReviewReq := mkReviewReq {
  rq_rating : option Number;
  rq_title : option string;
  rq_comment : option string
}.

(** [rating < 1 || rating > 5] *)
Definition rating_out_of_range (r : Number) : bool :=
  JS.lt r (JS.of_Z 1) || JS.gt r (JS.of_Z 5).

(** [comment.trim().length < 10] *)
Definition comment_too_short (c : string) : bool :=
  Nat.ltb (String.length (trim c)) 10.

(** [title?.trim() || ''] *)
Definition title_or_empty (t : option string) : string :=
  match t with
  | Some s => trim s
  | None => EmptyString
  end.

(** [new Review({ ... })]; the schema trims the text fields and lowers the
    case of the e-mail address. *)
Definition new_review (user : User) (productId : string)
                      (rating : Number) (title : option string)
                      (comment : string) (rs : list Review) : Review :=
  mkReview (fresh_review_id rs) (trim productId) (u__id user)
           (trim (u_name user)) (toLowerCase (trim (u_email user)))
           rating (trim (title_or_empty title)) (trim (trim comment))
           JS.zero [].

(** POST /api/reviews/:productId *)
Definition create_review (user : User) (productId : string)
                         (req : ReviewReq) (rs : list Review)
  : ReviewResponse * list Review :=
  match rq_rating req with
  | None => (review_fail 400 "Rating must be between 1 and 5", rs)
  | Some rating =>
      if negb (JS.truthy rating) || rating_out_of_range rating
      then (review_fail 400 "Rating must be between 1 and 5", rs)
      else
        match rq_comment req with
        | None => (review_fail 400 "Review must be at least 10 characters", rs)
        | Some comment =>
            if negb (JS.truthy_string comment) || comment_too_short comment
            then (review_fail 400 "Review must be at least 10 characters", rs)
            else
              match Review_findOne rs productId (u__id user) with
              | Some _ =>
                  (review_fail 400
                     "You have already reviewed this product. You can edit your existing review.",
                   rs)
              | None =>
                  let review :=
                    new_review user productId rating (rq_title req) comment rs
                  in
                  match Review_save review rs with
                  | inr rs' =>
                      (mkReviewResponse 201
                         (RReview "Review submitted successfully" review), rs')
                  | inl DuplicateKey =>
                      (review_fail 400
                         "You have already reviewed this product", rs)
                  | inl ValidationError =>
                      (review_fail 500 "Failed to submit review", rs)
                  end
              end
        end
  end.

Definition set_rating (x : Number) (r : Review) : Review :=
  mkReview (rv__id r) (rv_productId r) (rv_userId r) (userName r)
           (userEmail r) x (title r) (comment r)
           (helpfulVotes r) (helpfulVoters r).

Definition set_title (t : string) (r : Review) : Review :=
  mkReview (rv__id r) (rv_productId r) (rv_userId r) (userName r)
           (userEmail r) (rating r) (trim t) (comment r)
           (helpfulVotes r) (helpfulVoters r).

Definition set_comment (c : string) (r : Review) : Review :=
  mkReview (rv__id r) (rv_productId r) (rv_userId r) (userName r)
           (userEmail r) (rating r) (title r) (trim c)
           (helpfulVotes r) (helpfulVoters r).

Definition set_votes (v : Number) (voters : list ObjectId) (r : Review)
  : Review :=
  mkReview (rv__id r) (rv_productId r) (rv_userId r) (userName r)
           (userEmail r) (rating r) (title r) (comment r) v voters.

(** The three conditional assignments of the update route. *)
Definition apply_review_update (req : ReviewReq) (r : Review) : Review :=
  let r1 := match rq_rating req with
            | Some x => if JS.truthy x then set_rating x r else r
            | None => r
            end in
  let r2 := match rq_title req with
            | Some t => set_title (trim t) r1
            | None => r1
            end in
  match rq_comment req with
  | Some c => if JS.truthy_string c then set_comment (trim c) r2 else r2
  | None => r2
  end.

(** PUT /api/reviews/:reviewId *)
Definition update_review (user : User) (reviewId : ObjectId)
                         (req : ReviewReq) (rs : list Review)
  : ReviewResponse * list Review :=
  match Review_findById rs reviewId with
  | None => (review_fail 404 "Review not found", rs)
  | Some review =>
      if negb (Nat.eqb (rv_userId review) (u__id user))
      then (review_fail 403 "You can only edit your own reviews", rs)
      else if match rq_rating req with
              | Some x => JS.truthy x && rating_out_of_range x
              | None => false
              end
      then (review_fail 400 "Rating must be between 1 and 5", rs)
      else if match rq_comment req with
              | Some c => JS.truthy_string c && comment_too_short c
              | None => false
              end
      then (review_fail 400 "Review must be at least 10 characters", rs)
      else
        let review' := apply_review_update req review in
        match Review_save review' rs with
        | inr rs' =>
            (mkReviewResponse 200
               (RReview "Review updated successfully" review'), rs')
        | inl _ => (review_fail 500 "Failed to update review", rs)
        end
  end.

(** DELETE /api/reviews/:reviewId *)
Definition delete_review (user : User) (reviewId : ObjectId)
                         (rs : list Review)
  : ReviewResponse * list Review :=
  match Review_findById rs reviewId with
  | None => (review_fail 404 "Review not found", rs)
  | Some review =>
      if negb (Nat.eqb (rv_userId review) (u__id user))
         && negb (String.eqb (u_role user) "admin")
      then (review_fail 403 "You can only delete your own reviews", rs)
      else (mkReviewResponse 200 (RDone "Review deleted successfully"),
            Review_findByIdAndDelete reviewId rs)
  end.

(** The toggle of the helpful route. *)
Definition toggle_vote (user : User) (r : Review) : Review :=
  if existsb (Nat.eqb (u__id user)) (helpfulVoters r)
  then set_votes (JS.Math_max JS.zero (JS.sub (helpfulVotes r) (JS.of_Z 1)))
                 (filter (fun id => negb (Nat.eqb id (u__id user)))
                         (helpfulVoters r)) r
  else set_votes (JS.add (helpfulVotes r) (JS.of_Z 1))
                 (helpfulVoters r ++ [u__id user])%list r.

(** POST /api/reviews/:reviewId/helpful *)
Definition vote_helpful (user : User) (reviewId : ObjectId)
                        (rs : list Review)
  : ReviewResponse * list Review :=
  match Review_findById rs reviewId with
  | None => (review_fail 404 "Review not found", rs)
  | Some review =>
      let alreadyVoted :=
        existsb (Nat.eqb (u__id user)) (helpfulVoters review) in
      let review' := toggle_vote user review in
      match Review_save review' rs with
      | inr rs' =>
          (mkReviewResponse 200
             (RVote (if alreadyVoted then "Vote removed"
                     else "Review marked as helpful")
                    (helpfulVotes review') (negb alreadyVoted)), rs')
      | inl _ => (review_fail 500 "Failed to update vote", rs)
      end
  end.

Inductive ReviewCall :=
| POST_review (productId : string) (req : ReviewReq)
| PUT_review (reviewId : ObjectId) (req : ReviewReq)
| DELETE_review (reviewId : ObjectId)
| POST_review_helpful (reviewId : ObjectId).

Definition review_handler (user : User) (c : ReviewCall) (rs : list Review)
  : ReviewResponse * list Review :=
  match c with
  | POST_review productId req => create_review user productId req rs
  | PUT_review reviewId req => update_review user reviewId req rs
  | DELETE_review reviewId => delete_review user reviewId rs
  | POST_review_helpful reviewId => vote_helpful user reviewId rs
  end.

Definition serve_review (verify : string -> option Decoded)
                        (users : list User) (authorization : option string)
                        (c : ReviewCall) (rs : list Review)
  : ReviewResponse * list Review :=
  match authenticateToken verify users authorization with
  | RRefuse r => (r, rs)
  | RNext user => review_handler user c rs
  end.

(** Review collections the routes can produce from an empty one. *)
Inductive reviewed : list Review -> Prop :=
| reviewed_init : reviewed []
| reviewed_step : forall rs user c,
    reviewed rs -> reviewed (snd (review_handler user c rs)).

(** What a review keeps unless its author edits it. *)
Definition same_content (r r' : Review) : Prop :=
  rv__id r' = rv__id r
  /\ rv_productId r' = rv_productId r
  /\ rv_userId r' = rv_userId r
  /\ userName r' = userName r
  /\ userEmail r' = userEmail r
  /\ rating r' = rating r
  /\ title r' = title r
  /\ comment r' = comment r.

Definition review_ok (r : Review) : Prop :=
  validate_review r = true /\ is_nonneg (helpfulVotes r) = true
  /\ NoDup (helpfulVoters r).

Definition demo_reviewer : User :=
  mkUser 11 "Asha" "Asha@Example.com" "customer" true.

Definition demo_review_request : ReviewReq :=
  mkReviewReq (Some (JS.of_Z 4)) (Some " Solid ")
              (Some "Straight bars, no rust at all.").

(** What every review collection the routes produce satisfies. *)
Definition reviews_ok (rs : list Review) : Prop :=
  NoDup (map rv__id rs)
  /\ NoDup (map (fun r => (rv_productId r, rv_userId r)) rs)
  /\ Forall review_ok rs.

(** A catalogue whose single product carries a negative price, which the
    product schema does not accept. *)
Definition mispriced_db : DB :=
  mkDB [mkProduct 1 "steel-tmt-12" "TMT bar 12mm" (JS.of_Z (-5000)) "ton" false
                  "steel" "tmt-12.jpg" "TMT bar, 12 mm" []]
       [] [].

(** A positive number worth at least 1: a mantissa [m] and an exponent
    [e] with [e >= 0] or [m >= 2^(-e)], or [+Infinity]. *)
Definition at_least_one (x : Number) : Prop :=
  match x with
  | S754_finite false m e => (0 <= e)%Z \/ (2 ^ (- e) <= Zpos m)%Z
  | S754_infinity false => True
  | _ => False
  end.

(** * Properties *)

(** ** Comparison of numbers *)

Lemma SFcompare_antisym (x y : Number) :
  SFcompare y x = option_map CompOpp (SFcompare x y).
Proof.
  destruct x as [sx|sx| |sx mx ex], y as [sy|sy| |sy my ey]; simpl;
    try reflexivity;
    try (destruct sx; reflexivity);
    try (destruct sy; reflexivity);
    try (destruct sx, sy; reflexivity).
  destruct sx, sy; simpl; try reflexivity;
    rewrite (Z.compare_antisym ex ey);
    destruct (ex ?= ey)%Z eqn:E; simpl; try reflexivity;
    rewrite (Pos.compare_cont_antisym mx my Eq); reflexivity.
Qed.

Lemma ge_not_nan (x y : Number) :
  JS.ge x y = true -> JS.isNaN x = false /\ JS.isNaN y = false.
Proof.
  unfold JS.ge, SFleb. destruct x, y; simpl; try discriminate; auto.
Qed.

Lemma min_ok_not_nan (lo : Z) (x : Number) :
  min_ok lo x = true -> JS.isNaN x = false.
Proof. intros H. apply (ge_not_nan _ _ H). Qed.

Lemma gt_not_nan (x y : Number) :
  JS.gt x y = true -> JS.isNaN x = false /\ JS.isNaN y = false.
Proof.
  unfold JS.gt, SFltb. destruct x, y; simpl; try discriminate; auto.
Qed.

(** Two numbers that are not NaN are ordered. *)
Lemma not_ge_lt (x y : Number) :
  JS.isNaN x = false -> JS.isNaN y = false ->
  JS.ge x y = false -> JS.lt x y = true.
Proof.
  unfold JS.ge, JS.lt, SFleb, SFltb. intros Hx Hy.
  rewrite (SFcompare_antisym x y).
  destruct (SFcompare x y) as [[ | | ]|] eqn:E; simpl;
    try discriminate; try reflexivity.
  destruct x, y; simpl in *; discriminate.
Qed.

Lemma ge_lt_false (x y : Number) : JS.ge x y = true -> JS.lt x y = false.
Proof.
  unfold JS.ge, JS.lt, SFleb, SFltb.
  rewrite (SFcompare_antisym x y).
  destruct (SFcompare x y) as [[ | | ]|]; simpl; try discriminate; reflexivity.
Qed.

Lemma lt_ge_false (x y : Number) : JS.lt x y = true -> JS.ge x y = false.
Proof.
  intros H. destruct (JS.ge x y) eqn:E; [|reflexivity].
  rewrite (ge_lt_false _ _ E) in H. discriminate.
Qed.

Lemma of_Z_0 : JS.of_Z 0 = JS.zero.
Proof. reflexivity. Qed.

Lemma of_Z_1 : JS.of_Z 1 = S754_finite false 4503599627370496 (-52).
Proof. vm_compute. reflexivity. Qed.

(** A quantity that is zero or negative fails [min: 1]. *)
Lemma le_zero_fails_min1 (q : Number) :
  JS.le q JS.zero = true -> min_ok 1 q = false.
Proof.
  unfold min_ok. rewrite of_Z_1.
  destruct q as [s|s| |s m e]; simpl; try discriminate; try reflexivity;
    destruct s; simpl; try discriminate; reflexivity.
Qed.

(** The payment status of the code agrees with the wording of the
    specification whenever the grand total is a number. *)
Lemma payment_status_spec (a g : Number) :
  JS.isNaN g = false -> payment_status a g = spec_payment_status a g.
Proof.
  intros Hg. unfold payment_status, spec_payment_status.
  destruct (JS.ge a g) eqn:Ege; [reflexivity|].
  change (JS.lt JS.zero a) with (JS.gt a JS.zero).
  destruct (JS.gt a JS.zero) eqn:Egt; [|reflexivity].
  destruct (gt_not_nan _ _ Egt) as [Ha _].
  rewrite (not_ge_lt a g Ha Hg Ege). reflexivity.
Qed.

(** ** The orders collection *)

Lemma In_upsert (o x : Order) (os : list Order) :
  In x (upsert o os) -> x = o \/ (In x os /\ _id x <> _id o).
Proof.
  unfold upsert.
  destruct (existsb (fun o' => Nat.eqb (_id o') (_id o)) os) eqn:E.
  - clear E. induction os as [|y os IH]; simpl; [tauto|].
    intros [H|H].
    + destruct (Nat.eqb (_id y) (_id o)) eqn:Ey; [left; auto|].
      apply Nat.eqb_neq in Ey. right. subst x. auto.
    + destruct (IH H) as [?|[? ?]]; auto.
  - intros H. apply in_app_or in H. destruct H as [H|[H|[]]]; [|left; auto].
    right. split; [assumption|].
    intros Heq. apply Bool.not_true_iff_false in E. apply E.
    apply existsb_exists. exists x. split; [assumption|].
    apply Nat.eqb_eq. assumption.
Qed.

Lemma find_upsert (o : Order) (os : list Order) :
  Order_findById (upsert o os) (_id o) = Some o.
Proof.
  unfold upsert, Order_findById.
  destruct (existsb (fun o' => Nat.eqb (_id o') (_id o)) os) eqn:E.
  - induction os as [|y os IH]; simpl in *; [discriminate|].
    destruct (Nat.eqb (_id y) (_id o)) eqn:Ey; simpl.
    + rewrite Nat.eqb_refl. reflexivity.
    + rewrite Ey. apply IH. assumption.
  - induction os as [|y os IH]; simpl in *.
    + rewrite Nat.eqb_refl. reflexivity.
    + apply Bool.orb_false_iff in E. destruct E as [Ey E].
      rewrite Ey. apply IH. assumption.
Qed.

Lemma find_upsert_other (o : Order) (os : list Order) (id : ObjectId) :
  id <> _id o ->
  Order_findById (upsert o os) id = Order_findById os id.
Proof.
  intros Hne. unfold upsert, Order_findById.
  assert (Ho : Nat.eqb (_id o) id = false)
    by (apply Nat.eqb_neq; congruence).
  destruct (existsb (fun o' => Nat.eqb (_id o') (_id o)) os).
  - induction os as [|y os IH]; simpl; [reflexivity|].
    destruct (Nat.eqb (_id y) (_id o)) eqn:Ey; simpl.
    + apply Nat.eqb_eq in Ey. rewrite Ho, Ey, Ho. apply IH.
    + rewrite IH. reflexivity.
  - induction os as [|y os IH]; simpl.
    + rewrite Ho. reflexivity.
    + rewrite IH. reflexivity.
Qed.

Lemma findById_In (os : list Order) (id : ObjectId) (o : Order) :
  Order_findById os id = Some o -> In o os /\ _id o = id.
Proof.
  unfold Order_findById. intros H. apply find_some in H.
  destruct H as [H1 H2]. apply Nat.eqb_eq in H2. auto.
Qed.

Lemma Order_save_inv (o : Order) (db db' : DB) :
  Order_save o db = Some db' ->
  validate_order o = true /\ unique_ok o (orders db) = true
  /\ db' = mkDB (products db) (upsert o (orders db)) (movements db).
Proof.
  unfold Order_save.
  destruct (validate_order o) eqn:V; simpl; [|discriminate].
  destruct (unique_ok o (orders db)) eqn:U; [|discriminate].
  intros H. inversion H. auto.
Qed.

Lemma Order_save_accepts (o : Order) (db : DB) :
  validate_order o = true -> unique_ok o (orders db) = true ->
  Order_save o db
  = Some (mkDB (products db) (upsert o (orders db)) (movements db)).
Proof. unfold Order_save. intros -> ->. reflexivity. Qed.

Lemma index_clash_sym (a b : Order) : index_clash a b = index_clash b a.
Proof.
  unfold index_clash. rewrite (String.eqb_sym (orderNumber b)).
  destruct (invoiceNumber a), (invoiceNumber b); try reflexivity.
  rewrite (String.eqb_sym s). reflexivity.
Qed.

Lemma unique_ok_In (o y : Order) (os : list Order) :
  unique_ok o os = true -> In y os ->
  _id y = _id o \/ index_clash o y = false.
Proof.
  unfold unique_ok. intros H Hy.
  rewrite forallb_forall in H. specialize (H y Hy).
  apply Bool.orb_true_iff in H. destruct H as [H|H].
  - left. apply Nat.eqb_eq. assumption.
  - right. apply Bool.negb_true_iff. assumption.
Qed.

Lemma unique_ok_intro (o : Order) (os : list Order) :
  (forall y, In y os -> _id y = _id o \/ index_clash o y = false) ->
  unique_ok o os = true.
Proof.
  intros H. unfold unique_ok. apply forallb_forall. intros y Hy.
  destruct (H y Hy) as [E|E].
  - apply Nat.eqb_eq in E. rewrite E. reflexivity.
  - rewrite E. apply Bool.orb_true_r.
Qed.

(** A save keeps the collection well formed. *)
Lemma Order_save_ok (o : Order) (db db' : DB) :
  db_ok db ->
  (forall n, invoiceNumber o = Some n -> n <> "") ->
  Order_save o db = Some db' -> db_ok db'.
Proof.
  intros Hdb Hinv Hsave.
  destruct (Order_save_inv _ _ _ Hsave) as (V & U & ->).
  unfold db_ok in *. simpl. rewrite Forall_forall in *.
  intros x Hx.
  assert (Hux : forall y, In y (upsert o (orders db)) ->
                          _id y = _id x \/ index_clash x y = false).
  { intros y Hy.
    destruct (In_upsert _ _ _ Hx) as [->|[Hx1 Hx2]];
      destruct (In_upsert _ _ _ Hy) as [->|[Hy1 Hy2]].
    - left; reflexivity.
    - apply (unique_ok_In _ _ _ U Hy1).
    - destruct (unique_ok_In _ _ _ U Hx1) as [E|E]; [contradiction|].
      right. rewrite index_clash_sym. assumption.
    - destruct (Hdb x Hx1) as (_ & Ux & _).
      apply (unique_ok_In _ _ _ Ux Hy1). }
  destruct (In_upsert _ _ _ Hx) as [->|[Hx1 Hx2]].
  - repeat split; auto using unique_ok_intro.
  - destruct (Hdb x Hx1) as (Vx & _ & Ix).
    repeat split; auto using unique_ok_intro.
Qed.

(** ** What a response tells about the handler's run *)

(** The outcomes of POST /api/admin/orders. *)
Lemma create_order_cases today user req db :
  let r := create_order today user req db in
  (r = (mkResponse 400 BErrors, db))
  \/ (exists pid, r = (mkResponse 400 (BFail ("Product not found: " ++ pid)), db))
  \/ (exists acc,
        price_items (products db) (req_items req)
                    (mkPricing JS.zero JS.zero []) = inr acc
        /\ ((Order_save (new_order today user req db acc) db = None
             /\ r = (server_error, db))
            \/ (exists db',
                  Order_save (new_order today user req db acc) db = Some db'
                  /\ r = (mkResponse 201
                            (BOrder "Order created"
                                    (new_order today user req db acc)), db')))).
Proof.
  unfold create_order.
  destruct (negb _); [left; reflexivity|].
  destruct (price_items _ _ _) as [pid|acc] eqn:E.
  - right; left. exists pid. reflexivity.
  - right; right. exists acc. split; [reflexivity|]. cbv zeta.
    destruct (Order_save _ db) as [db'|] eqn:S.
    + right. exists db'. split; reflexivity.
    + left. split; reflexivity.
Qed.

Lemma create_order_created today user req db msg o db' :
  create_order today user req db = (mkResponse 201 (BOrder msg o), db') ->
  exists acc,
    price_items (products db) (req_items req)
                (mkPricing JS.zero JS.zero []) = inr acc
    /\ o = new_order today user req db acc
    /\ Order_save o db = Some db'.
Proof.
  intros H.
  destruct (create_order_cases today user req db)
    as [C|[[pid C]|[acc [P [[S C]|[db1 [S C]]]]]]];
    cbv zeta in C; rewrite C in H; try discriminate.
  inversion H; subst. exists acc. auto.
Qed.

(** The outcomes of PUT /api/admin/orders/:id. *)
Lemma update_order_updated user id req db msg o db' :
  update_order user id req db = (mkResponse 200 (BOrder msg o), db') ->
  exists order,
    Order_findById (orders db) id = Some order
    /\ o = apply_update user req order
    /\ Order_save o db = Some db'.
Proof.
  unfold update_order.
  destruct (Order_findById (orders db) id) as [order|]; [|discriminate].
  destruct (Order_save _ db) as [db1|] eqn:S; [|discriminate].
  intros H. inversion H; subst. exists order. auto.
Qed.

Lemma issue_invoice_issued today id db msg o db' :
  issue_invoice today id db = (mkResponse 200 (BOrder msg o), db') ->
  exists order,
    Order_findById (orders db) id = Some order
    /\ truthy_opt (invoiceNumber order) = false
    /\ o = set_status "completed"
             (set_invoiceNumber (generateInvoiceNumber today (orders db)) order)
    /\ Order_save o db = Some db'.
Proof.
  unfold issue_invoice.
  destruct (Order_findById (orders db) id) as [order|]; [|discriminate].
  destruct (truthy_opt (invoiceNumber order)) eqn:T; [discriminate|].
  destruct (Order_save _ db) as [db1|] eqn:S; [|discriminate].
  intros H. inversion H; subst. exists order. auto.
Qed.

Lemma apply_update_invoiceNumber user req order :
  invoiceNumber (apply_update user req order) = invoiceNumber order.
Proof.
  unfold apply_update, assign_if_truthy.
  destruct (upd_status req) as [s|]; [destruct (JS.truthy_string s)|];
    destruct (upd_amountPaid req) as [a|];
    (destruct (upd_notes req) as [n|]; [destruct (JS.truthy_string n)|]);
    reflexivity.
Qed.

Lemma apply_update_ids user req order :
  _id (apply_update user req order) = _id order
  /\ orderNumber (apply_update user req order) = orderNumber order
  /\ grandTotal (apply_update user req order) = grandTotal order.
Proof.
  unfold apply_update, assign_if_truthy.
  destruct (upd_status req) as [s|]; [destruct (JS.truthy_string s)|];
    destruct (upd_amountPaid req) as [a|];
    (destruct (upd_notes req) as [n|]; [destruct (JS.truthy_string n)|]);
    auto.
Qed.

Lemma generated_identifier_nonempty scope today count :
  scope <> "" -> next_identifier (month_prefix scope today) count <> "".
Proof.
  intros Hs. unfold next_identifier, month_prefix.
  destruct scope; [congruence|]. simpl. discriminate.
Qed.

Lemma Product_save_inv (p : Product) (db db' : DB) :
  Product_save p db = Some db' ->
  validate_product p = true
  /\ db' = mkDB (map (fun q => if Nat.eqb (p__id q) (p__id p) then p else q)
                     (products db))
                (orders db) (movements db).
Proof.
  unfold Product_save. destruct (validate_product p); [|discriminate].
  intros H. inversion H. auto.
Qed.

(** The stock routes leave the orders alone. *)
Lemma stock_routes_orders (r : Request) (db : DB) :
  match r with
  | StockIn _ _ | StockOut _ _ | StockAdjustment _ _ =>
      orders (snd (handle r db)) = orders db
  | _ => True
  end.
Proof.
  destruct r; simpl; trivial.
  - unfold stock_in. destruct (negb _); [reflexivity|].
    destruct (Product_findOne _ _); [|reflexivity].
    unfold StockMovement_save.
    destruct (validate_movement _); [|reflexivity]. cbv zeta.
    destruct (Product_save _ _) as [db2|] eqn:S; [|reflexivity].
    apply Product_save_inv in S. destruct S as [_ ->]. reflexivity.
  - unfold stock_out. destruct (negb _); [reflexivity|].
    destruct (Product_findOne _ _); [|reflexivity].
    unfold StockMovement_save.
    destruct (validate_movement _); [|reflexivity]. cbv zeta.
    destruct (JS.le _ _); [|reflexivity].
    destruct (Product_save _ _) as [db2|] eqn:S; [|reflexivity].
    apply Product_save_inv in S. destruct S as [_ ->]. reflexivity.
  - unfold stock_adjustment. destruct (negb _); [reflexivity|].
    destruct (Product_findOne _ _); [|reflexivity].
    unfold StockMovement_save.
    destruct (validate_movement _); [|reflexivity]. cbv zeta.
    destruct (Product_save _ _) as [db2|] eqn:S; [|reflexivity].
    apply Product_save_inv in S. destruct S as [_ ->]. reflexivity.
Qed.

(** Every database the routes produce is well formed: stored orders pass
    the schema, respect the unique indexes and carry a non-empty invoice
    number or none. *)
Lemma reachable_ok (db : DB) : reachable db -> db_ok db.
Proof.
  induction 1 as [ps ms|db r Hr IH].
  - constructor.
  - destruct r as [today user req|user id req|today id|user req|user req|user req].
    + simpl.
      destruct (create_order_cases today user req db)
        as [C|[[pid C]|[acc [P [[S C]|[db1 [S C]]]]]]];
        cbv zeta in C; rewrite C; simpl; try assumption.
      apply (Order_save_ok _ _ _ IH) in S; [assumption|].
      simpl. discriminate.
    + simpl. unfold update_order.
      destruct (Order_findById (orders db) id) as [order|] eqn:F;
        [|assumption].
      destruct (Order_save _ db) as [db1|] eqn:S; [|assumption]. simpl.
      apply (Order_save_ok _ _ _ IH) in S; [assumption|].
      rewrite apply_update_invoiceNumber.
      destruct (findById_In _ _ _ F) as [Hin _].
      unfold db_ok in IH. rewrite Forall_forall in IH.
      destruct (IH order Hin) as (_ & _ & I). assumption.
    + simpl. unfold issue_invoice.
      destruct (Order_findById (orders db) id) as [order|] eqn:F;
        [|assumption].
      destruct (truthy_opt (invoiceNumber order)); [assumption|].
      destruct (Order_save _ db) as [db1|] eqn:S; [|assumption]. simpl.
      apply (Order_save_ok _ _ _ IH) in S; [assumption|].
      simpl. intros n Hn. inversion Hn.
      apply generated_identifier_nonempty. discriminate.
    + unfold db_ok. rewrite (stock_routes_orders (StockIn user req) db).
      assumption.
    + unfold db_ok. rewrite (stock_routes_orders (StockOut user req) db).
      assumption.
    + unfold db_ok.
      rewrite (stock_routes_orders (StockAdjustment user req) db).
      assumption.
Qed.

(** ** Order pricing *)

Lemma process_item_priced (p : Product) (item : OrderItemReq) :
  line_priced (process_item p item).
Proof. repeat split. Qed.

Lemma price_items_spec (ps : list Product) (its : list OrderItemReq) :
  forall acc acc',
    price_items ps its acc = inr acc' ->
    exists lines,
      processedItems acc' = (processedItems acc ++ lines)%list
      /\ Forall2 (resolves ps) its lines
      /\ acc_subtotal acc'
         = fold_left JS.add
             (map (fun it => JS.mul (unitPrice it) (quantity it)) lines)
             (acc_subtotal acc)
      /\ acc_totalGst acc'
         = fold_left JS.add (map gstAmount lines) (acc_totalGst acc).
Proof.
  induction its as [|item rest IH]; intros acc acc' H; simpl in H.
  - inversion H; subst. exists []. rewrite app_nil_r.
    repeat split. constructor.
  - destruct (Product_findOne ps (productId item)) as [p|] eqn:F;
      [|discriminate].
    destruct (IH _ _ H) as (lines & Hi & Hr & Hs & Hg). clear IH H.
    exists (process_item p item :: lines). simpl in *.
    rewrite Hi, <- app_assoc. repeat split; try assumption.
    constructor; [exists p; auto|assumption].
Qed.

Lemma resolved_lines_priced ps its lines :
  Forall2 (resolves ps) its lines -> Forall line_priced lines.
Proof.
  induction 1 as [|item it its lines (p & _ & ->) _ IH]; constructor.
  - apply process_item_priced.
  - assumption.
Qed.

(** C1. Every order the create route stores is priced line by line with
    discount 0, gstAmount = (unitPrice * quantity) * 18 / 100 and
    totalAmount = unitPrice * quantity + gstAmount, each line being the
    requested quantity at the catalogue price; subtotal and totalGst are the
    sums over the lines and grandTotal = subtotal + totalGst.  For two
    items, quantity 2 at 65000 and quantity 10 at 58, the totals are 130580,
    23504.40 and 154084.40. *)
Theorem C1_order_totals today user req db msg o db' :
  create_order today user req db = (mkResponse 201 (BOrder msg o), db') ->
  (Forall2 (resolves (products db)) (req_items req) (items o)
   /\ Forall line_priced (items o)
   /\ subtotal o
      = sum_numbers (map (fun it => JS.mul (unitPrice it) (quantity it))
                         (items o))
   /\ totalGst o = sum_numbers (map gstAmount (items o))
   /\ grandTotal o = JS.add (subtotal o) (totalGst o)
   /\ Order_findById (orders db') (_id o) = Some o)
  /\ (forall i1 i2 p1 p2,
        req_items req = [i1; i2] ->
        Product_findOne (products db) (productId i1) = Some p1 ->
        Product_findOne (products db) (productId i2) = Some p2 ->
        p_price p1 = JS.of_Z 65000 -> req_quantity i1 = JS.of_Z 2 ->
        p_price p2 = JS.of_Z 58 -> req_quantity i2 = JS.of_Z 10 ->
        subtotal o = JS.of_Z 130580
        /\ totalGst o = JS.dec 2350440 2
        /\ grandTotal o = JS.dec 15408440 2).
Proof.
  intros H.
  destruct (create_order_created _ _ _ _ _ _ _ H) as (acc & P & -> & S).
  destruct (price_items_spec _ _ _ _ P) as (lines & Hi & Hr & Hs & Hg).
  simpl in Hi, Hs, Hg. subst lines.
  destruct (Order_save_inv _ _ _ S) as (_ & _ & ->).
  split.
  - simpl. repeat split; try assumption.
    + eapply resolved_lines_priced; eassumption.
    + apply (find_upsert (new_order today user req db acc)).
  - intros i1 i2 p1 p2 Hits F1 F2 P1 Q1 P2 Q2.
    rewrite Hits in Hr.
    inversion Hr as [|a it1 l l1 (q1 & G1 & E1) Hr1]; subst.
    inversion Hr1 as [|a it2 l l2 (q2 & G2 & E2) Hr2]; subst.
    inversion Hr2; subst.
    rewrite F1 in G1. rewrite F2 in G2.
    inversion G1; inversion G2; subst q1 q2.
    match goal with E : _ = processedItems acc |- _ =>
      simpl; rewrite Hs, Hg, <- E end.
    simpl. unfold gst_of, itemTotal_of.
    rewrite P1, Q1, P2, Q2.
    vm_compute. auto.
Qed.

Lemma C1_order_totals_witness :
  exists o db',
    create_order scenario_today 7 scenario_request scenario_db
    = (mkResponse 201 (BOrder "Order created" o), db')
    /\ Forall line_priced (items o)
    /\ grandTotal o = JS.add (subtotal o) (totalGst o)
    /\ subtotal o = JS.of_Z 130580
    /\ totalGst o = JS.dec 2350440 2
    /\ grandTotal o = JS.dec 15408440 2.
Proof.
  assert (H : exists o db',
             create_order scenario_today 7 scenario_request scenario_db
             = (mkResponse 201 (BOrder "Order created" o), db'))
    by (vm_compute; eauto).
  destruct H as (o & db' & H). exists o, db'.
  destruct (C1_order_totals _ _ _ _ _ _ _ H)
    as ((_ & L & _ & _ & G & _) & E).
  destruct (E (mkOrderItemReq "steel-tmt-12" (JS.of_Z 2))
              (mkOrderItemReq "elec-wire-1" (JS.of_Z 10))
              (mkProduct 1 "steel-tmt-12" "TMT bar 12mm" (JS.of_Z 65000)
                         "ton" true
                         "steel" "tmt-12.jpg" "TMT bar, 12 mm" [])
              (mkProduct 2 "elec-wire-1" "Copper wire" (JS.of_Z 58)
                         "metre" true
                         "electronics" "wire-1.jpg" "Copper wire, 1 sq mm" [])
              eq_refl eq_refl eq_refl eq_refl eq_refl eq_refl eq_refl)
    as (E1 & E2 & E3).
  repeat split; assumption.
Defined.

(** ** What the schema guarantees of a stored order *)

Lemma validate_order_inv (o : Order) :
  validate_order o = true ->
  forallb validate_item (items o) = true
  /\ min_ok 0 (subtotal o) = true
  /\ min_ok 0 (grandTotal o) = true
  /\ enum_ok paymentStatus_enum (paymentStatus o) = true
  /\ min_ok 0 (amountPaid o) = true
  /\ min_ok 0 (amountDue o) = true
  /\ enum_ok status_enum (status o) = true.
Proof.
  unfold validate_order. intros H.
  repeat (apply andb_prop in H; destruct H as [H ?]).
  repeat split; assumption.
Qed.

Lemma validate_order_amountDue (o : Order) :
  min_ok 0 (amountDue o) = false -> validate_order o = false.
Proof.
  unfold validate_order. intros ->.
  rewrite Bool.andb_false_r. reflexivity.
Qed.

Lemma validate_order_status (o : Order) :
  enum_ok status_enum (status o) = false -> validate_order o = false.
Proof.
  unfold validate_order. intros ->.
  rewrite Bool.andb_false_r. reflexivity.
Qed.

Lemma validate_order_items (o : Order) :
  forallb validate_item (items o) = false -> validate_order o = false.
Proof.
  unfold validate_order. intros ->.
  rewrite Bool.andb_false_r. reflexivity.
Qed.

Lemma validate_item_quantity (it : OrderItem) :
  min_ok 1 (quantity it) = false -> validate_item it = false.
Proof.
  unfold validate_item. intros ->.
  rewrite Bool.andb_false_r. reflexivity.
Qed.

Lemma Order_save_rejects (o : Order) (db : DB) :
  validate_order o = false -> Order_save o db = None.
Proof. unfold Order_save. intros ->. reflexivity. Qed.

Lemma negative_fails_min0 (x : Number) :
  JS.lt x JS.zero = true -> min_ok 0 x = false.
Proof. intros H. unfold min_ok. rewrite of_Z_0. apply lt_ge_false, H. Qed.

Lemma Forall2_In_l {A B} (R : A -> B -> Prop) (l : list A) (l' : list B) x :
  Forall2 R l l' -> In x l -> exists y, In y l' /\ R x y.
Proof.
  induction 1 as [|a b l l' Hab _ IH]; simpl; [tauto|].
  intros [->|Hx].
  - exists b. auto.
  - destruct (IH Hx) as (y & Hy & Hr). exists y. auto.
Qed.

(** The payment fields [apply_update] leaves on the order. *)
Lemma apply_update_payment user req order a :
  upd_amountPaid req = Some a ->
  amountPaid (apply_update user req order) = a
  /\ amountDue (apply_update user req order) = JS.sub (grandTotal order) a
  /\ paymentStatus (apply_update user req order)
     = payment_status a (grandTotal order).
Proof.
  intros Ha. unfold apply_update, assign_if_truthy. rewrite Ha.
  destruct (upd_status req) as [s|]; [destruct (JS.truthy_string s)|];
    (destruct (upd_notes req) as [n|]; [destruct (JS.truthy_string n)|]);
    auto.
Qed.

(** ** Payment status *)

(** C5, as the code has it. The payment status stored by order creation
    and by a payment update is the function of the paid amount a and the
    grand total g that section 4.4 words: paid if a >= g, partial if
    0 < a < g, pending otherwise. An overpayment is never stored as paid,
    though: every stored order has g - a >= 0, and a payment update or a
    creation whose g - a is negative is refused by the schema's minimum of
    0 on amountDue, with nothing written. Of the sample pairs (0,100) gives
    pending, (50,100) partial and (100,100) paid; for (150,100) the ternary
    computes paid, but 100 - 150 is negative, so the order is not stored. *)
Theorem C5_payment_status :
  (forall today user req db msg o db',
      create_order today user req db = (mkResponse 201 (BOrder msg o), db') ->
      amountPaid o = JS.or_default (req_amountPaid req) JS.zero
      /\ paymentStatus o = spec_payment_status (amountPaid o) (grandTotal o)
      /\ JS.ge (JS.sub (grandTotal o) (amountPaid o)) JS.zero = true
      /\ Order_findById (orders db') (_id o) = Some o)
  /\ (forall user id req db msg o db' a,
        update_order user id req db = (mkResponse 200 (BOrder msg o), db') ->
        upd_amountPaid req = Some a ->
        amountPaid o = a
        /\ paymentStatus o = spec_payment_status a (grandTotal o)
        /\ JS.ge (JS.sub (grandTotal o) a) JS.zero = true
        /\ Order_findById (orders db') id = Some o)
  /\ (forall user id req db order a,
        Order_findById (orders db) id = Some order ->
        upd_amountPaid req = Some a ->
        JS.lt (JS.sub (grandTotal order) a) JS.zero = true ->
        update_order user id req db = (server_error, db))
  /\ (forall today user req db acc,
        price_items (products db) (req_items req)
                    (mkPricing JS.zero JS.zero []) = inr acc ->
        JS.lt (JS.sub (JS.add (acc_subtotal acc) (acc_totalGst acc))
                      (JS.or_default (req_amountPaid req) JS.zero))
              JS.zero = true ->
        snd (create_order today user req db) = db
        /\ In (res_status (fst (create_order today user req db))) [400; 500])
  /\ (payment_status (JS.of_Z 0) (JS.of_Z 100) = "pending"
      /\ payment_status (JS.of_Z 50) (JS.of_Z 100) = "partial"
      /\ payment_status (JS.of_Z 100) (JS.of_Z 100) = "paid"
      /\ payment_status (JS.of_Z 150) (JS.of_Z 100) = "paid"
      /\ JS.lt (JS.sub (JS.of_Z 100) (JS.of_Z 150)) JS.zero = true).
Proof.
  split; [|split; [|split; [|split]]].
  - intros today user req db msg o db' H.
    destruct (create_order_created _ _ _ _ _ _ _ H) as (acc & _ & E & S).
    destruct (Order_save_inv _ _ _ S) as (V & _ & ->).
    apply validate_order_inv in V.
    destruct V as (_ & _ & G & _ & _ & D & _).
    apply min_ok_not_nan in G. split; [|split; [|split]].
    + subst o. reflexivity.
    + rewrite <- (payment_status_spec _ _ G). subst o. reflexivity.
    + subst o. exact D.
    + apply find_upsert.
  - intros user id req db msg o db' a H Ha.
    destruct (update_order_updated _ _ _ _ _ _ _ H) as (order & F & E & S).
    destruct (Order_save_inv _ _ _ S) as (V & _ & ->).
    apply validate_order_inv in V.
    destruct V as (_ & _ & G & _ & _ & D & _).
    apply min_ok_not_nan in G.
    destruct (apply_update_payment user req order a Ha) as (E1 & E2 & E3).
    destruct (apply_update_ids user req order) as (I1 & _ & I3).
    destruct (findById_In _ _ _ F) as [_ Hid].
    subst o. split; [|split; [|split]].
    + assumption.
    + rewrite <- (payment_status_spec _ _ G), I3. assumption.
    + rewrite I3, <- E2. exact D.
    + simpl. rewrite <- Hid, <- I1. apply find_upsert.
  - intros user id req db order a F Ha Hneg.
    unfold update_order. rewrite F.
    destruct (apply_update_payment user req order a Ha) as (_ & E2 & _).
    rewrite Order_save_rejects; [reflexivity|].
    apply validate_order_amountDue. rewrite E2.
    apply negative_fails_min0. assumption.
  - intros today user req db acc P Hneg. unfold create_order.
    destruct (negb _); [split; [reflexivity|left; reflexivity]|].
    rewrite P. cbv zeta.
    rewrite Order_save_rejects;
      [split; [reflexivity|right; left; reflexivity]|].
    apply validate_order_amountDue. apply negative_fails_min0. exact Hneg.
  - vm_compute. repeat split.
Qed.

Lemma C5_payment_status_witness :
  (exists o db',
      update_order 7 1 (mkUpdateOrderReq None (Some (JS.of_Z 50000)) None)
                   scenario_db1
      = (mkResponse 200 (BOrder "Order updated" o), db')
      /\ paymentStatus o = "partial"
      /\ paymentStatus o = spec_payment_status (JS.of_Z 50000) (grandTotal o)
      /\ Order_findById (orders db') 1 = Some o)
  /\ update_order 7 1 (mkUpdateOrderReq None (Some (JS.of_Z 200000)) None)
                  scenario_db1
     = (server_error, scenario_db1).
Proof.
  split.
  - assert (H : exists o db',
               update_order 7 1
                 (mkUpdateOrderReq None (Some (JS.of_Z 50000)) None)
                 scenario_db1
               = (mkResponse 200 (BOrder "Order updated" o), db')
               /\ paymentStatus o = "partial")
      by (vm_compute; eauto).
    destruct H as (o & db' & H & P). exists o, db'.
    destruct (proj1 (proj2 C5_payment_status) _ _ _ _ _ _ _ _ H eq_refl)
      as (_ & E & _ & F).
    repeat split; assumption.
  - eapply (proj1 (proj2 (proj2 C5_payment_status))).
    + vm_compute. reflexivity.
    + reflexivity.
    + vm_compute. reflexivity.
Defined.

(** C5 as the specification states it fails: the scenario order has a
    grand total of 154084.40 and is pending; a payment update of 200000
    has a >= g, for which the specification's function says paid, yet the
    update is answered 500 and the stored status is still pending. *)
Lemma C5_overpayment_is_not_stored_as_paid :
  option_map grandTotal (Order_findById (orders scenario_db1) 1)
  = Some (JS.dec 15408440 2)
  /\ spec_payment_status (JS.of_Z 200000) (JS.dec 15408440 2) = "paid"
  /\ fst (update_order 7 1
            (mkUpdateOrderReq None (Some (JS.of_Z 200000)) None) scenario_db1)
     = mkResponse 500 (BFail "Server error")
  /\ option_map paymentStatus
       (Order_findById
          (orders (snd (update_order 7 1
                          (mkUpdateOrderReq None (Some (JS.of_Z 200000)) None)
                          scenario_db1)))
          1)
     = Some "pending".
Proof. vm_compute. repeat split. Qed.

(** ** Amount due *)

(** C6, as the code has it. Whenever a creation or a payment update is
    stored, the stored amountDue is grandTotal - amountPaid and it is not
    negative; nothing clamps the difference, and a payment update that
    would leave a negative amountDue is refused by the schema's minimum of
    0: the update is not accepted and the database is unchanged. *)
Theorem C6_amount_due :
  (forall today user req db msg o db',
      create_order today user req db = (mkResponse 201 (BOrder msg o), db') ->
      amountDue o = JS.sub (grandTotal o) (amountPaid o)
      /\ JS.ge (amountDue o) JS.zero = true
      /\ Order_findById (orders db') (_id o) = Some o)
  /\ (forall user id req db msg o db' a,
        update_order user id req db = (mkResponse 200 (BOrder msg o), db') ->
        upd_amountPaid req = Some a ->
        amountDue o = JS.sub (grandTotal o) a
        /\ JS.ge (amountDue o) JS.zero = true
        /\ Order_findById (orders db') id = Some o)
  /\ (forall user id req db order a,
        Order_findById (orders db) id = Some order ->
        upd_amountPaid req = Some a ->
        JS.lt (JS.sub (grandTotal order) a) JS.zero = true ->
        exists res,
          update_order user id req db = (res, db) /\ res_status res <> 200).
Proof.
  split; [|split].
  - intros today user req db msg o db' H.
    destruct (create_order_created _ _ _ _ _ _ _ H) as (acc & _ & E & S).
    destruct (Order_save_inv _ _ _ S) as (V & _ & ->).
    apply validate_order_inv in V. destruct V as (_ & _ & _ & _ & _ & D & _).
    split; [|split].
    + subst o. reflexivity.
    + exact D.
    + apply find_upsert.
  - intros user id req db msg o db' a H Ha.
    destruct (update_order_updated _ _ _ _ _ _ _ H) as (order & F & E & S).
    destruct (Order_save_inv _ _ _ S) as (V & _ & ->).
    apply validate_order_inv in V. destruct V as (_ & _ & _ & _ & _ & D & _).
    destruct (apply_update_payment user req order a Ha) as (_ & E2 & _).
    destruct (apply_update_ids user req order) as (I1 & _ & I3).
    destruct (findById_In _ _ _ F) as [_ Hid].
    subst o. split; [|split].
    + rewrite I3. assumption.
    + exact D.
    + simpl. rewrite <- Hid, <- I1. apply find_upsert.
  - intros user id req db order a F Ha Hneg.
    unfold update_order. rewrite F.
    destruct (apply_update_payment user req order a Ha) as (_ & E2 & _).
    rewrite Order_save_rejects.
    + exists server_error. split; [reflexivity|discriminate].
    + apply validate_order_amountDue. rewrite E2.
      apply negative_fails_min0. assumption.
Qed.

Lemma C6_amount_due_witness :
  exists order,
    Order_findById (orders scenario_db1) 1 = Some order
    /\ exists res,
         update_order 7 1 (mkUpdateOrderReq None (Some (JS.of_Z 200000)) None)
                      scenario_db1
         = (res, scenario_db1)
         /\ res_status res <> 200.
Proof.
  eexists. split.
  - vm_compute. reflexivity.
  - eapply (proj2 (proj2 C6_amount_due)).
    + vm_compute. reflexivity.
    + reflexivity.
    + vm_compute. reflexivity.
Defined.

(** C6 as the specification states it fails: the scenario order has a
    grand total of 154084.40; a payment update of 200000 overpays it, and
    the update is neither accepted nor persisted. *)
Lemma C6_overpayment_not_persisted :
  option_map grandTotal (Order_findById (orders scenario_db1) 1)
  = Some (JS.dec 15408440 2)
  /\ JS.gt (JS.of_Z 200000) (JS.dec 15408440 2) = true
  /\ update_order 7 1 (mkUpdateOrderReq None (Some (JS.of_Z 200000)) None)
                  scenario_db1
     = (mkResponse 500 (BFail "Server error"), scenario_db1)
  /\ res_status
       (fst (create_order scenario_today 7
               (mkCreateOrderReq (mkCustomer "Ravi Traders" None None None None)
                  [mkOrderItemReq "elec-wire-1" (JS.of_Z 1)]
                  None None (Some (JS.of_Z 100)))
               scenario_db)) = 500.
Proof. vm_compute. repeat split. Qed.

(** ** Quantities that are not positive *)

(** C9, what the code does: a creation request that passes the request
    validators and whose items all resolve, with some quantity that is zero
    or negative, is answered 500 "Server error" (the schema's minimum of 1
    rejects the save and the route's catch-all reports it); no order is
    created. *)
Theorem C9_invalid_quantity_is_500 today user req db acc item :
  notEmpty (trim (c_name (req_customer req))) = true ->
  req_items req <> [] ->
  price_items (products db) (req_items req) (mkPricing JS.zero JS.zero [])
  = inr acc ->
  In item (req_items req) ->
  JS.le (req_quantity item) JS.zero = true ->
  create_order today user req db = (server_error, db).
Proof.
  intros Hname Hitems P Hin Hq.
  unfold create_order. rewrite Hname.
  destruct (req_items req) as [|i0 rest] eqn:Eits; [congruence|].
  simpl negb. cbv iota. rewrite P.
  destruct (price_items_spec _ _ _ _ P) as (lines & Hi & Hr & _).
  simpl in Hi. subst lines.
  destruct (Forall2_In_l _ _ _ _ Hr Hin) as (it & Hit & (p & _ & ->)).
  rewrite Order_save_rejects; [reflexivity|].
  apply validate_order_items. simpl.
  destruct (forallb validate_item (processedItems acc)) eqn:E; [|reflexivity].
  rewrite forallb_forall in E. specialize (E _ Hit).
  rewrite validate_item_quantity in E; [discriminate|].
  simpl. apply le_zero_fails_min1. assumption.
Qed.

Lemma C9_invalid_quantity_is_500_witness :
  create_order scenario_today 7
    (mkCreateOrderReq (mkCustomer "Ravi Traders" None None None None)
       [mkOrderItemReq "elec-wire-1" (JS.of_Z 0)] None None None)
    scenario_db
  = (mkResponse 500 (BFail "Server error"), scenario_db).
Proof.
  eapply (C9_invalid_quantity_is_500 scenario_today 7
            (mkCreateOrderReq (mkCustomer "Ravi Traders" None None None None)
               [mkOrderItemReq "elec-wire-1" (JS.of_Z 0)] None None None)
            scenario_db _ (mkOrderItemReq "elec-wire-1" (JS.of_Z 0))).
  - reflexivity.
  - discriminate.
  - vm_compute. reflexivity.
  - simpl. left. reflexivity.
  - reflexivity.
Defined.

(** ** Invoice issuance *)

Lemma unique_ok_ext (a b : Order) (os : list Order) :
  _id a = _id b -> orderNumber a = orderNumber b ->
  invoiceNumber a = invoiceNumber b ->
  unique_ok a os = unique_ok b os.
Proof.
  intros E1 E2 E3. unfold unique_ok, index_clash.
  induction os as [|y os IH]; simpl; [reflexivity|].
  rewrite IH, E1, E2, E3. reflexivity.
Qed.

Lemma validate_set_status (s : string) (o : Order) :
  validate_order o = true -> enum_ok status_enum s = true ->
  validate_order (set_status s o) = true.
Proof.
  unfold validate_order. intros H Hs.
  repeat (apply andb_prop in H; destruct H as [H ?]).
  cbn [set_status orderNumber customer items subtotal totalDiscount totalGst
       grandTotal paymentMethod paymentStatus amountPaid amountDue status
       notes].
  repeat (apply andb_true_intro; split); assumption.
Qed.

Lemma validate_set_invoiceNumber (n : string) (o : Order) :
  validate_order (set_invoiceNumber n o) = validate_order o.
Proof. reflexivity. Qed.

Lemma validate_set_processedBy (u : ObjectId) (o : Order) :
  validate_order (set_processedBy u o) = validate_order o.
Proof. reflexivity. Qed.

Lemma reachable_order_ok (db : DB) (o : Order) :
  reachable db -> In o (orders db) -> order_ok (orders db) o.
Proof.
  intros Hr Hin. apply reachable_ok in Hr.
  unfold db_ok in Hr. rewrite Forall_forall in Hr. auto.
Qed.

(** C4. Issuing an invoice for an order that already carries an invoice
    number is rejected (400 "Invoice exists") and the database, hence the
    order's invoice number and status, is unchanged.  For an order without
    an invoice number, a successful call stores the generated invoice
    number, which no other order carries, together with status completed;
    and the call does succeed whenever no other order carries the generated
    number. *)
Theorem C4_issue_invoice :
  (forall today id db order n,
      reachable db ->
      Order_findById (orders db) id = Some order ->
      invoiceNumber order = Some n ->
      issue_invoice today id db = (mkResponse 400 (BFail "Invoice exists"), db))
  /\ (forall today id db order msg o db',
        Order_findById (orders db) id = Some order ->
        invoiceNumber order = None ->
        issue_invoice today id db = (mkResponse 200 (BOrder msg o), db') ->
        invoiceNumber o = Some (generateInvoiceNumber today (orders db))
        /\ status o = "completed"
        /\ Order_findById (orders db') id = Some o
        /\ (forall o', In o' (orders db) -> _id o' <> id ->
                       invoiceNumber o' <> invoiceNumber o))
  /\ (forall today id db order,
        reachable db ->
        Order_findById (orders db) id = Some order ->
        invoiceNumber order = None ->
        (forall o', In o' (orders db) ->
                    invoiceNumber o'
                    <> Some (generateInvoiceNumber today (orders db))) ->
        exists o db',
          issue_invoice today id db
          = (mkResponse 200 (BOrder "Invoice generated" o), db')).
Proof.
  split; [|split].
  - intros today id db order n Hr F Hn.
    destruct (findById_In _ _ _ F) as [Hin _].
    destruct (reachable_order_ok _ _ Hr Hin) as (_ & _ & I).
    specialize (I n Hn).
    unfold issue_invoice. rewrite F, Hn. simpl.
    destruct n; [congruence|reflexivity].
  - intros today id db order msg o db' F Hn H.
    destruct (issue_invoice_issued _ _ _ _ _ _ H) as (order1 & F1 & _ & E & S).
    rewrite F in F1. inversion F1; subst order1. clear F1.
    destruct (findById_In _ _ _ F) as [_ Hid].
    destruct (Order_save_inv _ _ _ S) as (_ & U & ->).
    subst o. simpl. repeat split.
    + rewrite <- Hid.
      apply (find_upsert
               (set_status "completed"
                  (set_invoiceNumber (generateInvoiceNumber today (orders db))
                                     order))).
    + intros o' Hin' Hne Heq.
      destruct (unique_ok_In _ _ _ U Hin') as [E|E].
      * simpl in E. congruence.
      * unfold index_clash in E.
        cbn [set_status set_invoiceNumber invoiceNumber] in E, Heq.
        rewrite Heq, String.eqb_refl, Bool.orb_true_r in E. discriminate.
  - intros today id db order Hr F Hn Hfresh.
    destruct (findById_In _ _ _ F) as [Hin _].
    destruct (reachable_order_ok _ _ Hr Hin) as (V & U & _).
    unfold issue_invoice. rewrite F, Hn. simpl.
    rewrite Order_save_accepts; [eauto| |].
    + apply validate_set_status; [|reflexivity].
      rewrite validate_set_invoiceNumber. assumption.
    + apply unique_ok_intro. intros y Hy.
      destruct (unique_ok_In _ _ _ U Hy) as [E|E]; [left; exact E|].
      right. unfold index_clash in *.
      cbn [set_status set_invoiceNumber invoiceNumber orderNumber].
      rewrite Hn in E.
      apply Bool.orb_false_iff in E. destruct E as [E _].
      rewrite E, Bool.orb_false_l.
      destruct (invoiceNumber y) as [b|] eqn:Ey; [|reflexivity].
      apply String.eqb_neq. intros Hb. apply (Hfresh y Hy).
      rewrite Hb. exact Ey.
Qed.

Lemma scenario_db1_reachable : reachable scenario_db1.
Proof.
  exact (reach_step scenario_db
           (CreateOrder scenario_today 7 scenario_request)
           (reach_init scenario_products [])).
Qed.

Lemma scenario_db2_reachable : reachable scenario_db2.
Proof.
  exact (reach_step scenario_db1 (IssueInvoice scenario_today 1)
           scenario_db1_reachable).
Qed.

Lemma C4_issue_invoice_witness :
  (exists o,
      issue_invoice scenario_today 1 scenario_db1
      = (mkResponse 200 (BOrder "Invoice generated" o), scenario_db2)
      /\ invoiceNumber o = Some "INV2026110001"
      /\ status o = "completed")
  /\ issue_invoice scenario_today 1 scenario_db2
     = (mkResponse 400 (BFail "Invoice exists"), scenario_db2).
Proof.
  split.
  - eexists. split; [vm_compute; reflexivity|].
    split; vm_compute; reflexivity.
  - eapply (proj1 C4_issue_invoice).
    + exact scenario_db2_reachable.
    + vm_compute. reflexivity.
    + vm_compute. reflexivity.
Defined.

(** ** Order status *)

Lemma status_enum_truthy (s : string) :
  enum_ok status_enum s = true -> JS.truthy_string s = true.
Proof. destruct s; [discriminate|reflexivity]. Qed.

Lemma enum_ok_In (l : list string) (s : string) :
  enum_ok l s = true <-> In s l.
Proof.
  unfold enum_ok. rewrite existsb_exists. split.
  - intros (x & Hx & E). apply String.eqb_eq in E. subst. assumption.
  - intros H. exists s. split; [assumption|apply String.eqb_refl].
Qed.

(** C8, as the code has it. The update route performs no transition
    check: for any stored order, whatever its current status, a request
    carrying any of the five status values is accepted and stores that
    value; a non-empty value outside the five is refused by the schema (the
    update is not accepted, nothing changes), so a stored status is always
    one of the five; invoice issuance stores completed whatever the status
    was. *)
Theorem C8_status_updates :
  (forall user id db order s,
      reachable db ->
      Order_findById (orders db) id = Some order ->
      In s status_enum ->
      exists o db',
        update_order user id (mkUpdateOrderReq (Some s) None None) db
        = (mkResponse 200 (BOrder "Order updated" o), db')
        /\ status o = s
        /\ Order_findById (orders db') id = Some o)
  /\ (forall user id db order s amt nts,
        Order_findById (orders db) id = Some order ->
        s <> "" -> ~ In s status_enum ->
        exists res,
          update_order user id (mkUpdateOrderReq (Some s) amt nts) db
          = (res, db)
          /\ res_status res <> 200)
  /\ (forall db o, reachable db -> In o (orders db) -> In (status o) status_enum)
  /\ (forall today id db msg o db',
        issue_invoice today id db = (mkResponse 200 (BOrder msg o), db') ->
        status o = "completed").
Proof.
  split; [|split; [|split]].
  - intros user id db order s Hr F Hs.
    destruct (findById_In _ _ _ F) as [Hin Hid].
    destruct (reachable_order_ok _ _ Hr Hin) as (V & U & _).
    apply enum_ok_In in Hs.
    unfold update_order. rewrite F.
    unfold apply_update, assign_if_truthy.
    cbn [upd_status upd_amountPaid upd_notes].
    rewrite (status_enum_truthy _ Hs).
    rewrite Order_save_accepts.
    + eexists _, _. split; [reflexivity|]. split; [reflexivity|].
      cbn [orders]. rewrite <- Hid.
      apply (find_upsert (set_processedBy user (set_status s order))).
    + rewrite validate_set_processedBy. apply validate_set_status; assumption.
    + rewrite (unique_ok_ext _ order); auto.
  - intros user id db order s amt nts F Hne Hs.
    unfold update_order. rewrite F.
    rewrite Order_save_rejects;
      [exists server_error; split; [reflexivity|discriminate]|].
    apply validate_order_status.
    assert (E : status (apply_update user (mkUpdateOrderReq (Some s) amt nts)
                                     order) = s).
    { unfold apply_update, assign_if_truthy.
      cbn [upd_status upd_amountPaid upd_notes].
      destruct s as [|c s']; [congruence|]. cbn [JS.truthy_string].
      destruct amt as [x|];
        (destruct nts as [n|]; [destruct (JS.truthy_string n)|]);
        reflexivity. }
    rewrite E. apply Bool.not_true_iff_false. rewrite enum_ok_In. assumption.
  - intros db o Hr Hin.
    destruct (reachable_order_ok _ _ Hr Hin) as (V & _ & _).
    apply validate_order_inv in V. apply enum_ok_In. tauto.
  - intros today id db msg o db' H.
    destruct (issue_invoice_issued _ _ _ _ _ _ H) as (order & _ & _ & -> & _).
    reflexivity.
Qed.

Lemma C8_status_updates_witness :
  exists o db',
    update_order 7 1 (mkUpdateOrderReq (Some "draft") None None) scenario_db2
    = (mkResponse 200 (BOrder "Order updated" o), db')
    /\ status o = "draft"
    /\ Order_findById (orders db') 1 = Some o.
Proof.
  eapply (proj1 C8_status_updates 7 1 scenario_db2).
  - exact scenario_db2_reachable.
  - vm_compute. reflexivity.
  - simpl. left. reflexivity.
Defined.

(** C8 as the specification states it fails: the scenario order is
    completed by its invoice; an update then moves it back to draft, an
    edge the state machine of section 4.4 does not have; and an update
    completes a confirmed order without any invoice. *)
Lemma C8_completed_order_leaves_completed :
  option_map status (Order_findById (orders scenario_db2) 1) = Some "completed"
  /\ res_status
       (fst (update_order 7 1 (mkUpdateOrderReq (Some "draft") None None)
                          scenario_db2)) = 200
  /\ option_map status
       (Order_findById
          (orders (snd (update_order 7 1
                          (mkUpdateOrderReq (Some "draft") None None)
                          scenario_db2))) 1) = Some "draft"
  /\ spec_status_edge "completed" "draft" = false
  /\ option_map (fun o => (status o, invoiceNumber o))
       (Order_findById (orders scenario_db1) 1) = Some ("confirmed", None)
  /\ option_map (fun o => (status o, invoiceNumber o))
       (Order_findById
          (orders (snd (update_order 7 1
                          (mkUpdateOrderReq (Some "completed") None None)
                          scenario_db1))) 1) = Some ("completed", None)
  /\ spec_status_edge "confirmed" "completed" = false.
Proof. vm_compute. repeat split. Qed.

(** ** Stock movements *)

Lemma to_Q_negative (m : positive) (e : Z) :
  exists a b, JS.to_Q (S754_finite true m e) = Some (Qopp (Zpos a # b)).
Proof.
  unfold JS.to_Q. destruct e as [|p|p].
  - exists (m * 1)%positive, 1%positive. reflexivity.
  - exists (m * 2 ^ p)%positive, 1%positive.
    unfold inject_Z. rewrite Pos2Z.inj_mul, Pos2Z.inj_pow. reflexivity.
  - exists m, (2 ^ p)%positive. reflexivity.
Qed.

(** A quantity accepted by [isInt({ min: 1 })] is a positive finite
    number. *)
Lemma isInt_min1_finite (q : Number) :
  isInt_min1 q = true -> exists m e, q = S754_finite false m e.
Proof.
  intros H. destruct q as [s|s| |[|] m e]; try (exists m, e; reflexivity);
    exfalso.
  - destruct s; vm_compute in H; discriminate.
  - destruct s; vm_compute in H; discriminate.
  - vm_compute in H. discriminate.
  - destruct (to_Q_negative m e) as (a & b & E).
    unfold isInt_min1, JS.to_Z in H. rewrite E in H.
    assert (Hneg : (Qfloor (Qopp (Zpos a # b)) < 1)%Z).
    { simpl. apply Z.div_lt_upper_bound; lia. }
    destruct (Qeq_bool _ _); [|discriminate].
    apply andb_prop in H. destruct H as [H _].
    apply Z.leb_le in H. lia.
Qed.

(** [q - q] is [+0] for a finite [q]. *)
Lemma sub_diag_finite (m : positive) (e : Z) :
  JS.sub (S754_finite false m e) (S754_finite false m e) = JS.zero.
Proof.
  unfold JS.sub, SFsub. cbv zeta. rewrite Z.sub_diag. reflexivity.
Qed.

Lemma stock_out_recorded user req db msg m db' :
  stock_out user req db = (mkResponse 201 (BMovement msg m), db') ->
  exists p,
    Product_findOne (products db) (out_productId req) = Some p
    /\ isInt_min1 (out_quantity req) = true
    /\ m = out_movement user req p
    /\ (if JS.le (newStock m) JS.zero
        then Product_save (set_inStock false p)
               (mkDB (products db) (orders db) (movements db ++ [m]))
             = Some db'
        else db' = mkDB (products db) (orders db) (movements db ++ [m])).
Proof.
  unfold stock_out.
  destruct (notEmpty (out_productId req)); [|discriminate].
  destruct (isInt_min1 (out_quantity req)) eqn:Q; [|discriminate].
  simpl negb. cbv iota.
  destruct (Product_findOne _ _) as [p|]; [|discriminate].
  cbv zeta. unfold StockMovement_save.
  destruct (validate_movement _); [|discriminate].
  destruct (JS.le (newStock (out_movement user req p)) JS.zero) eqn:L.
  - destruct (Product_save _ _) as [db2|] eqn:S; [|discriminate].
    intros H. inversion H; subst. exists p. rewrite L. auto.
  - intros H. inversion H; subst. exists p. rewrite L. auto.
Qed.

Lemma stock_in_recorded user req db msg m db' :
  stock_in user req db = (mkResponse 201 (BMovement msg m), db') ->
  exists p,
    Product_findOne (products db) (in_productId req) = Some p
    /\ m = in_movement user req p
    /\ Product_save (set_inStock true p)
         (mkDB (products db) (orders db) (movements db ++ [m]))
       = Some db'.
Proof.
  unfold stock_in.
  destruct (negb _); [discriminate|].
  destruct (Product_findOne _ _) as [p|]; [|discriminate].
  cbv zeta. unfold StockMovement_save.
  destruct (validate_movement _); [|discriminate].
  destruct (Product_save _ _) as [db2|] eqn:S; [|discriminate].
  intros H. inversion H; subst. exists p. auto.
Qed.

Lemma stock_adjustment_recorded user req db msg m db' :
  stock_adjustment user req db = (mkResponse 201 (BMovement msg m), db') ->
  exists p,
    Product_findOne (products db) (adj_productId req) = Some p
    /\ enum_ok ["adjustment"; "return"; "damage"] (adj_type req) = true
    /\ m = adjustment_movement user req p
    /\ Product_save (set_inStock (JS.gt (newStock m) JS.zero) p)
         (mkDB (products db) (orders db) (movements db ++ [m]))
       = Some db'.
Proof.
  unfold stock_adjustment.
  destruct (notEmpty (adj_productId req)); [|discriminate].
  destruct (isInt_min1_quantity (adj_quantity req)); [|discriminate].
  destruct (enum_ok _ (adj_type req)) eqn:T; [|discriminate].
  simpl negb. cbv iota.
  destruct (Product_findOne _ _) as [p|]; [|discriminate].
  cbv zeta. unfold StockMovement_save.
  destruct (validate_movement _); [|discriminate].
  destruct (Product_save _ _) as [db2|] eqn:S; [|discriminate].
  intros H. inversion H; subst. exists p. auto.
Qed.

(** What is left of the database when [product.save()] went through. *)
Lemma movements_after_save (p : Product) (db db' : DB) :
  Product_save p db = Some db' ->
  movements db' = movements db /\ orders db' = orders db.
Proof.
  intros S. apply Product_save_inv in S. destruct S as [_ ->].
  split; reflexivity.
Qed.

(** The product a lookup by catalogue id returns after [product.save()]. *)
Lemma findOne_after_save (p p' : Product) (db db' : DB) (id : string) :
  Product_findOne (products db) id = Some p ->
  p__id p' = p__id p -> p_id p' = id ->
  Product_save p' db = Some db' ->
  Product_findOne (products db') id = Some p'.
Proof.
  intros F E1 E2 S. apply Product_save_inv in S. destruct S as [_ ->].
  unfold Product_findOne in *. cbn [products].
  rewrite E1.
  induction (products db) as [|q ps IH]; simpl in *; [discriminate|].
  destruct (String.eqb (p_id q) id) eqn:Eq.
  - inversion F; subst q. rewrite Nat.eqb_refl, E2, String.eqb_refl.
    reflexivity.
  - destruct (Nat.eqb (p__id q) (p__id p)).
    + rewrite E2, String.eqb_refl. reflexivity.
    + rewrite Eq. apply IH. assumption.
Qed.

(** C10. Every accepted stock-out on a product whose inStock flag is true
    records previousStock equal to the requested quantity itself and
    newStock 0, appends the movement to the ledger, and leaves the product
    marked out of stock, whatever the quantity. *)
Theorem C10_stock_out_in_stock user req db p msg m db' :
  Product_findOne (products db) (out_productId req) = Some p ->
  p_inStock p = true ->
  stock_out user req db = (mkResponse 201 (BMovement msg m), db') ->
  m_type m = "stock_out"
  /\ m_quantity m = out_quantity req
  /\ previousStock m = out_quantity req
  /\ newStock m = JS.zero
  /\ movements db' = (movements db ++ [m])%list
  /\ Product_findOne (products db') (out_productId req)
     = Some (set_inStock false p).
Proof.
  intros F Hin H.
  destruct (stock_out_recorded _ _ _ _ _ _ H) as (p1 & F1 & Q & E & D).
  rewrite F in F1. inversion F1; subst p1. clear F1.
  destruct (isInt_min1_finite _ Q) as (mq & eq & Eq).
  assert (N : newStock m = JS.zero).
  { subst m. unfold out_movement. cbn [newStock]. rewrite Hin, Eq.
    rewrite sub_diag_finite. reflexivity. }
  rewrite N in D. change (JS.le JS.zero JS.zero) with true in D.
  cbv iota in D.
  destruct (movements_after_save _ _ _ D) as [M _].
  repeat split; try (subst m; unfold out_movement; cbn; rewrite ?Hin;
                     reflexivity); try assumption.
  apply (findOne_after_save p (set_inStock false p)
           (mkDB (products db) (orders db) (movements db ++ [m])));
    [assumption|reflexivity| |exact D].
  unfold Product_findOne in F. apply find_some in F.
  destruct F as [_ F]. apply String.eqb_eq in F. exact F.
Qed.

Lemma C10_stock_out_in_stock_witness :
  exists m db',
    stock_out 7 (mkStockOutReq "steel-tmt-12" (JS.of_Z 10) None None)
              scenario_db
    = (mkResponse 201 (BMovement "Stock out recorded successfully" m), db')
    /\ previousStock m = JS.of_Z 10
    /\ newStock m = JS.zero
    /\ option_map p_inStock (Product_findOne (products db') "steel-tmt-12")
       = Some false.
Proof.
  assert (H : exists m db',
             stock_out 7 (mkStockOutReq "steel-tmt-12" (JS.of_Z 10) None None)
                       scenario_db
             = (mkResponse 201
                  (BMovement "Stock out recorded successfully" m), db'))
    by (vm_compute; eauto).
  destruct H as (m & db' & H). exists m, db'.
  destruct (C10_stock_out_in_stock 7
              (mkStockOutReq "steel-tmt-12" (JS.of_Z 10) None None)
              scenario_db
              (mkProduct 1 "steel-tmt-12" "TMT bar 12mm" (JS.of_Z 65000)
                         "ton" true
                         "steel" "tmt-12.jpg" "TMT bar, 12 mm" [])
              _ m db' eq_refl eq_refl H)
    as (_ & _ & P & N & _ & F).
  repeat split; try assumption.
  cbn [out_productId] in F. rewrite F. reflexivity.
Defined.




(** ** Order and invoice numbers *)

Lemma length_append (s t : string) :
  String.length (s ++ t) = String.length s + String.length t.
Proof. induction s as [|c s IH]; simpl; [reflexivity|]. rewrite IH. reflexivity. Qed.

Lemma append_assoc (s t u : string) : (s ++ t) ++ u = s ++ (t ++ u).
Proof. induction s as [|c s IH]; simpl; [reflexivity|]. rewrite IH. reflexivity. Qed.

Lemma length_repeat_char (c : ascii) (n : nat) :
  String.length (JS.repeat_char c n) = n.
Proof. induction n as [|n IH]; simpl; [reflexivity|]. rewrite IH. reflexivity. Qed.

Lemma length_padStart (n : nat) (c : ascii) (s : string) :
  String.length (JS.padStart n c s) = Nat.max n (String.length s).
Proof.
  unfold JS.padStart. rewrite length_append, length_repeat_char. lia.
Qed.

Lemma decimal_value_String_of_N (n : N) :
  decimal_value (JS.String_of_N n) = Some n.
Proof.
  unfold decimal_value, JS.String_of_N.
  rewrite NilEmpty.usu. simpl. rewrite DecimalN.Unsigned.of_to. reflexivity.
Qed.

Lemma decimal_value_zero (s : string) :
  decimal_value (String "0" s) = decimal_value s.
Proof.
  unfold decimal_value. simpl.
  destruct (NilEmpty.uint_of_string s); reflexivity.
Qed.

(** Padding with zeros keeps the value. *)
Lemma decimal_value_padStart (n : nat) (s : string) :
  decimal_value (JS.padStart n "0" s) = decimal_value s.
Proof.
  unfold JS.padStart.
  induction (n - String.length s) as [|k IH]; simpl; [reflexivity|].
  rewrite decimal_value_zero. exact IH.
Qed.

Lemma range_N_In (len : nat) :
  forall start n, (start <= n < start + N.of_nat len)%N ->
                  In n (range_N start len).
Proof.
  induction len as [|l IH]; intros start n H; [lia|].
  simpl. destruct (N.eq_dec start n) as [E|E]; [left; exact E|].
  right. apply IH. lia.
Qed.

(** A check that succeeds on every number of a range holds on the range. *)
Lemma range_N_forall (P : N -> bool) (start : N) (len : nat) :
  forallb P (range_N start len) = true ->
  forall n, (start <= n < start + N.of_nat len)%N -> P n = true.
Proof.
  intros H n Hn. rewrite forallb_forall in H.
  apply H, range_N_In, Hn.
Qed.

Lemma year_has_four_digits (y : N) :
  (1000 <= y <= 9999)%N -> String.length (JS.String_of_N y) = 4.
Proof.
  intros H. apply Nat.eqb_eq.
  apply (range_N_forall
           (fun y => Nat.eqb (String.length (JS.String_of_N y)) 4)
           1000 (N.to_nat 9000)).
  - vm_compute. reflexivity.
  - rewrite N2Nat.id. lia.
Qed.

Lemma month_has_two_digits (m : N) :
  (m <= 11)%N ->
  String.length (JS.padStart 2 "0" (JS.String_of_N (m + 1))) = 2.
Proof.
  intros H. apply Nat.eqb_eq.
  apply (range_N_forall
           (fun m => Nat.eqb (String.length
                                (JS.padStart 2 "0" (JS.String_of_N (m + 1)))) 2)
           0 12).
  - vm_compute. reflexivity.
  - simpl. lia.
Qed.

Lemma prefix_app_cancel (s a b : string) :
  String.prefix (s ++ a) (s ++ b) = String.prefix a b.
Proof.
  induction s as [|c s IH]; simpl; [reflexivity|].
  destruct (ascii_dec c c); [exact IH|congruence].
Qed.

(** A prefix test against a string that starts with as many characters
    compares the two heads. *)
Lemma prefix_same_length (a : string) :
  forall b c, String.length a = String.length b ->
              String.prefix a (b ++ c) = String.eqb a b.
Proof.
  induction a as [|x a IH]; intros [|y b] c H; simpl in *;
    try discriminate.
  - destruct c; reflexivity.
  - destruct (ascii_dec x y) as [->|Hne].
    + rewrite Ascii.eqb_refl. apply IH. congruence.
    + apply Ascii.eqb_neq in Hne. rewrite Hne. reflexivity.
Qed.

Lemma append_inj_length (a : string) :
  forall a' b b', String.length a = String.length a' ->
                  a ++ b = a' ++ b' -> a = a' /\ b = b'.
Proof.
  induction a as [|x a IH]; intros [|y a'] b b' H E; simpl in *;
    try discriminate.
  - auto.
  - inversion E; subst. destruct (IH a' b b') as [-> ->]; auto.
Qed.

Lemma month_prefix_digits (scope : string) (d : Date) :
  month_prefix scope d = scope ++ month_digits d.
Proof. reflexivity. Qed.

Lemma length_month_digits (d : Date) :
  valid_date d -> String.length (month_digits d) = 6.
Proof.
  intros [Hy Hm]. unfold month_digits.
  rewrite length_append, (year_has_four_digits _ Hy),
    (month_has_two_digits _ Hm).
  reflexivity.
Qed.

Lemma month_digits_same (d d' : Date) :
  valid_date d -> valid_date d' ->
  String.eqb (month_digits d) (month_digits d') = same_month d d'.
Proof.
  intros [Hy Hm] [Hy' Hm']. unfold same_month.
  destruct (String.eqb (month_digits d) (month_digits d')) eqn:E.
  - apply String.eqb_eq in E. unfold month_digits in E.
    apply append_inj_length in E;
      [|rewrite !year_has_four_digits; auto].
    destruct E as [E1 E2].
    apply (f_equal decimal_value) in E1, E2.
    rewrite !decimal_value_padStart, !decimal_value_String_of_N in E2.
    rewrite !decimal_value_String_of_N in E1.
    inversion E1 as [E1']. inversion E2 as [E2'].
    rewrite E1', N.eqb_refl.
    assert (Em : getMonth d = getMonth d') by lia.
    rewrite Em, N.eqb_refl. reflexivity.
  - destruct (N.eqb (getFullYear d) (getFullYear d')) eqn:Ey; [|reflexivity].
    destruct (N.eqb (getMonth d) (getMonth d')) eqn:Em; [|reflexivity].
    apply N.eqb_eq in Ey, Em. unfold month_digits in E.
    rewrite Ey, Em, String.eqb_refl in E. discriminate.
Qed.

(** The pattern of a month matches exactly the identifiers issued in that
    month. *)
Lemma prefix_issued (scope : string) (today : Date) (e : Date * nat) :
  valid_date today -> valid_date (fst e) ->
  String.prefix (month_prefix scope today) (issued scope e)
  = same_month today (fst e).
Proof.
  intros Ht He. unfold issued, next_identifier.
  rewrite !month_prefix_digits, append_assoc, prefix_app_cancel.
  rewrite prefix_same_length
    by (rewrite !length_month_digits; auto).
  apply month_digits_same; assumption.
Qed.

Lemma count_prefixed_issued (scope : string) (today : Date)
      (hist : list (option (Date * nat))) :
  valid_date today -> Forall valid_entry hist ->
  count_prefixed (month_prefix scope today)
                 (map (option_map (issued scope)) hist)
  = List.length (filter (in_month today) hist).
Proof.
  intros Ht. unfold count_prefixed.
  induction 1 as [|e hist He _ IH]; simpl; [reflexivity|].
  destruct e as [x|]; simpl.
  - rewrite (prefix_issued scope today x Ht He).
    destruct (same_month today (fst x)); simpl; rewrite IH; reflexivity.
  - exact IH.
Qed.

(** C3. When the stored order numbers and invoice numbers are the ones
    that were issued ([ohist], [ihist]: for each order, the date and count
    at which its number was generated, none for an order without invoice),
    the next order number is ORD, and the next invoice number INV, followed
    by the four digits of the year, the two digits of the zero-padded month
    and a zero-padded ordinal of at least four digits whose value is the
    number of identifiers of that scope issued in the same calendar month,
    plus one. *)
Theorem C3_identifier_format today os ohist ihist :
  valid_date today ->
  Forall valid_entry ohist ->
  map (fun o => Some (orderNumber o)) os
  = map (option_map (issued "ORD")) ohist ->
  Forall valid_entry ihist ->
  map invoiceNumber os = map (option_map (issued "INV")) ihist ->
  exists yyyy mm,
    String.length yyyy = 4
    /\ decimal_value yyyy = Some (getFullYear today)
    /\ String.length mm = 2
    /\ decimal_value mm = Some (getMonth today + 1)%N
    /\ (exists ord,
          4 <= String.length ord
          /\ decimal_value ord
             = Some (N.of_nat (issued_in_month today ohist) + 1)%N
          /\ generateOrderNumber today os = "ORD" ++ yyyy ++ mm ++ ord)
    /\ (exists ord,
          4 <= String.length ord
          /\ decimal_value ord
             = Some (N.of_nat (issued_in_month today ihist) + 1)%N
          /\ generateInvoiceNumber today os = "INV" ++ yyyy ++ mm ++ ord).
Proof.
  intros Ht Ho Eo Hi Ei.
  exists (JS.String_of_N (getFullYear today)),
         (JS.padStart 2 "0" (JS.String_of_N (getMonth today + 1))).
  destruct Ht as [Hy Hm].
  split; [apply year_has_four_digits; assumption|].
  split; [apply decimal_value_String_of_N|].
  split; [apply month_has_two_digits; assumption|].
  split; [rewrite decimal_value_padStart; apply decimal_value_String_of_N|].
  split.
  - exists (JS.padStart 4 "0"
              (JS.String_of_N (N.of_nat (issued_in_month today ohist) + 1))).
    split; [rewrite length_padStart; lia|].
    split; [rewrite decimal_value_padStart; apply decimal_value_String_of_N|].
    unfold generateOrderNumber. rewrite Eo.
    rewrite count_prefixed_issued by (try split; assumption).
    unfold next_identifier, month_prefix, issued_in_month.
    rewrite !append_assoc. reflexivity.
  - exists (JS.padStart 4 "0"
              (JS.String_of_N (N.of_nat (issued_in_month today ihist) + 1))).
    split; [rewrite length_padStart; lia|].
    split; [rewrite decimal_value_padStart; apply decimal_value_String_of_N|].
    unfold generateInvoiceNumber. rewrite Ei.
    rewrite count_prefixed_issued by (try split; assumption).
    unfold next_identifier, month_prefix, issued_in_month.
    rewrite !append_assoc. reflexivity.
Qed.

Lemma C3_identifier_format_witness :
  generateOrderNumber scenario_today (orders scenario_db2) = "ORD2026110002"
  /\ generateInvoiceNumber (mkDate 2026 11) (orders scenario_db2)
     = "INV2026120001"
  /\ exists yyyy mm,
       String.length yyyy = 4
       /\ decimal_value yyyy = Some 2026%N
       /\ String.length mm = 2
       /\ decimal_value mm = Some 11%N
       /\ (exists ord,
             4 <= String.length ord
             /\ decimal_value ord = Some 2%N
             /\ generateOrderNumber scenario_today (orders scenario_db2)
                = "ORD" ++ yyyy ++ mm ++ ord)
       /\ (exists ord,
             4 <= String.length ord
             /\ decimal_value ord = Some 2%N
             /\ generateInvoiceNumber scenario_today (orders scenario_db2)
                = "INV" ++ yyyy ++ mm ++ ord).
Proof.
  split; [vm_compute; reflexivity|].
  split; [vm_compute; reflexivity|].
  apply (C3_identifier_format scenario_today (orders scenario_db2)
           [Some (scenario_today, 0)] [Some (scenario_today, 0)]).
  - unfold valid_date. simpl. lia.
  - repeat constructor; simpl; lia.
  - vm_compute. reflexivity.
  - repeat constructor; simpl; lia.
  - vm_compute. reflexivity.
Defined.

(** ** Rounding and representation of amounts *)

Lemma to_Q_binary (x : Number) : binary_amount x.
Proof.
  intros q. destruct x as [s|s| |s m e]; simpl; try discriminate.
  - intros H. inversion H. exists 0%N. reflexivity.
  - intros H. inversion H. clear H.
    destruct e as [|p|p].
    + exists 0%N. destruct s; reflexivity.
    + exists 0%N. destruct s; reflexivity.
    + exists (Npos p). destruct s; simpl; rewrite Pos2Z.inj_pow; reflexivity.
Qed.

(** C7, as the code has it. On every created order the gstAmount of a
    line is the binary64 quotient ((unitPrice * quantity) * 18) / 100,
    stored as computed with no rounding to the currency unit; line totals,
    subtotal, totalGst and grandTotal are binary64 sums of such values, and
    every one of these amounts is a binary fraction. *)
Theorem C7_gst_unrounded_binary64 today user req db msg o db' :
  create_order today user req db = (mkResponse 201 (BOrder msg o), db') ->
  Forall (fun it =>
            gstAmount it
            = SFdiv 53 1024
                (SFmul 53 1024 (SFmul 53 1024 (unitPrice it) (quantity it))
                       (JS.of_Z 18))
                (JS.of_Z 100)
            /\ totalAmount it
               = SFadd 53 1024 (SFmul 53 1024 (unitPrice it) (quantity it))
                       (gstAmount it)
            /\ binary_amount (gstAmount it)
            /\ binary_amount (totalAmount it))
         (items o)
  /\ subtotal o
     = fold_left (SFadd 53 1024)
         (map (fun it => SFmul 53 1024 (unitPrice it) (quantity it)) (items o))
         (S754_zero false)
  /\ totalGst o
     = fold_left (SFadd 53 1024) (map gstAmount (items o)) (S754_zero false)
  /\ grandTotal o = SFadd 53 1024 (subtotal o) (totalGst o)
  /\ binary_amount (subtotal o) /\ binary_amount (totalGst o)
  /\ binary_amount (grandTotal o).
Proof.
  intros H.
  destruct (create_order_created _ _ _ _ _ _ _ H) as (acc & P & -> & _).
  destruct (price_items_spec _ _ _ _ P) as (lines & Hi & Hr & Hs & Hg).
  simpl in Hi, Hs, Hg. subst lines.
  cbn [new_order items subtotal totalGst grandTotal].
  repeat split; try apply to_Q_binary; try assumption.
  apply resolved_lines_priced in Hr.
  eapply Forall_impl; [|exact Hr].
  intros it (_ & G & T). repeat split; try apply to_Q_binary; assumption.
Qed.

Lemma C7_gst_unrounded_binary64_witness :
  exists o db',
    create_order scenario_today 7 quarter_request quarter_db
    = (mkResponse 201 (BOrder "Order created" o), db')
    /\ map gstAmount (items o) = [JS.dec 45 3]
    /\ Forall (fun it => binary_amount (gstAmount it)) (items o)
    /\ grandTotal o = SFadd 53 1024 (subtotal o) (totalGst o).
Proof.
  assert (H : exists o db',
             create_order scenario_today 7 quarter_request quarter_db
             = (mkResponse 201 (BOrder "Order created" o), db')
             /\ map gstAmount (items o) = [JS.dec 45 3])
    by (vm_compute; eauto).
  destruct H as (o & db' & H & G). exists o, db'.
  destruct (C7_gst_unrounded_binary64 _ _ _ _ _ _ _ H)
    as (L & _ & _ & T & _).
  repeat split; try assumption.
  eapply Forall_impl; [|exact L]. intros it (_ & _ & B & _). exact B.
Defined.

(** C7 as the specification states it fails. One piece at 0.25 has an
    exact tax of 0.045, which half-up rounding to the minor unit makes
    0.05; the stored gstAmount is the double nearest 0.045, not a whole
    number of minor units.  In the two-item scenario of section 8 the
    stored totalGst and grandTotal are the doubles nearest 23504.40 and
    154084.40, neither of which is a whole number of minor units. *)
Lemma C7_gst_is_not_rounded :
  option_map (fun o => map gstAmount (items o))
    (created (fst (create_order scenario_today 7 quarter_request quarter_db)))
  = Some [JS.dec 45 3]
  /\ option_map (fun o => forallb spec_gst_rounded (items o))
       (created (fst (create_order scenario_today 7 quarter_request
                                   quarter_db)))
     = Some false
  /\ Qeq_bool (spec_round_half_up ((25 # 100) * 18 / 100)) (5 # 100) = true
  /\ option_map spec_minor_unit_amounts
       (created (fst (create_order scenario_today 7 quarter_request
                                   quarter_db)))
     = Some false
  /\ option_map (fun o => (minor_units (subtotal o), minor_units (totalGst o),
                           minor_units (grandTotal o)))
       (created (fst (create_order scenario_today 7 scenario_request
                                   scenario_db)))
     = Some (true, false, false).
Proof. vm_compute. repeat split. Qed.

(** ** The stored identifiers are the issued ones *)

Lemma Forall_upsert (P : Order -> Prop) (o : Order) (os : list Order) :
  Forall P os -> P o -> Forall P (upsert o os).
Proof.
  intros Hos Ho. rewrite Forall_forall in *. intros x Hx.
  destruct (In_upsert _ _ _ Hx) as [->|[Hin _]]; auto.
Qed.

Lemma Order_save_Forall (P : Order -> Prop) (o : Order) (db db' : DB) :
  Forall P (orders db) -> P o -> Order_save o db = Some db' ->
  Forall P (orders db').
Proof.
  intros Hos Ho S. destruct (Order_save_inv _ _ _ S) as (_ & _ & ->).
  apply Forall_upsert; assumption.
Qed.

Lemma dated_issued (db : DB) : dated db -> Forall issued_order (orders db).
Proof.
  induction 1 as [ps ms|db r Hr IH Hd].
  - constructor.
  - destruct r as [today user req|user id req|today id|user req|user req|user req];
      simpl in Hd.
    + simpl.
      destruct (create_order_cases today user req db)
        as [C|[[pid C]|[acc [P [[S C]|[db1 [S C]]]]]]];
        cbv zeta in C; rewrite C; simpl; try assumption.
      apply (Order_save_Forall _ _ _ _ IH) in S; [assumption|].
      split.
      * exists (Some (today, count_prefixed (month_prefix "ORD" today)
                               (map (fun o => Some (orderNumber o))
                                    (orders db)))).
        split; [exact Hd|reflexivity].
      * exists None. split; [exact I|reflexivity].
    + simpl. unfold update_order.
      destruct (Order_findById (orders db) id) as [order|] eqn:F;
        [|assumption].
      destruct (Order_save _ db) as [db1|] eqn:S; [|assumption]. simpl.
      apply (Order_save_Forall _ _ _ _ IH) in S; [assumption|].
      destruct (findById_In _ _ _ F) as [Hin _].
      rewrite Forall_forall in IH. destruct (IH order Hin) as [Ho Hi].
      destruct (apply_update_ids user req order) as (_ & E & _).
      split.
      * rewrite E. exact Ho.
      * rewrite apply_update_invoiceNumber. exact Hi.
    + simpl. unfold issue_invoice.
      destruct (Order_findById (orders db) id) as [order|] eqn:F;
        [|assumption].
      destruct (truthy_opt (invoiceNumber order)); [assumption|].
      destruct (Order_save _ db) as [db1|] eqn:S; [|assumption]. simpl.
      apply (Order_save_Forall _ _ _ _ IH) in S; [assumption|].
      destruct (findById_In _ _ _ F) as [Hin _].
      rewrite Forall_forall in IH. destruct (IH order Hin) as [Ho _].
      split.
      * exact Ho.
      * exists (Some (today, count_prefixed (month_prefix "INV" today)
                               (map invoiceNumber (orders db)))).
        split; [exact Hd|reflexivity].
    + rewrite (stock_routes_orders (StockIn user req) db). assumption.
    + rewrite (stock_routes_orders (StockOut user req) db). assumption.
    + rewrite (stock_routes_orders (StockAdjustment user req) db). assumption.
Qed.

Lemma Forall_history {A} (f : A -> option string) (scope : string)
      (l : list A) :
  Forall (fun x => exists e, valid_entry e
                             /\ f x = option_map (issued scope) e) l ->
  exists hist, Forall valid_entry hist
               /\ map f l = map (option_map (issued scope)) hist.
Proof.
  induction 1 as [|x l (e & He & Ee) _ (hist & Hh & Eh)].
  - exists []. split; [constructor|reflexivity].
  - exists (e :: hist). split; [constructor; assumption|].
    simpl. rewrite Ee, Eh. reflexivity.
Qed.

(** In every dated run the store holds exactly identifiers the generators
    issued: the record of issuances that the statement on the identifier
    format speaks about exists. *)
Lemma dated_histories (db : DB) :
  dated db ->
  exists ohist ihist,
    Forall valid_entry ohist
    /\ map (fun o => Some (orderNumber o)) (orders db)
       = map (option_map (issued "ORD")) ohist
    /\ Forall valid_entry ihist
    /\ map invoiceNumber (orders db) = map (option_map (issued "INV")) ihist.
Proof.
  intros H. apply dated_issued in H.
  destruct (Forall_history (fun o => Some (orderNumber o)) "ORD" (orders db))
    as (ohist & Ho & Eo).
  { eapply Forall_impl; [|exact H]. intros o [Ho _]. exact Ho. }
  destruct (Forall_history invoiceNumber "INV" (orders db))
    as (ihist & Hi & Ei).
  { eapply Forall_impl; [|exact H]. intros o [_ Hi]. exact Hi. }
  exists ohist, ihist. auto.
Qed.

(** ** What the routes leave alone *)

Lemma Order_save_frame (o : Order) (db db' : DB) :
  Order_save o db = Some db' ->
  products db' = products db /\ movements db' = movements db.
Proof.
  intros S. destruct (Order_save_inv _ _ _ S) as (_ & _ & ->).
  split; reflexivity.
Qed.

(** An order request leaves the catalogue and the ledger as they were. *)
Lemma order_request_frame (r : Request) (db : DB) :
  is_order_request r = true ->
  products (snd (handle r db)) = products db
  /\ movements (snd (handle r db)) = movements db.
Proof.
  destruct r as [today user req|user id req|today id|user req|user req|user req];
    simpl; try discriminate; intros _.
  - destruct (create_order_cases today user req db)
      as [C|[[pid C]|[acc [P [[S C]|[db1 [S C]]]]]]];
      cbv zeta in C; rewrite C; simpl; auto.
    apply (Order_save_frame _ _ _ S).
  - unfold update_order.
    destruct (Order_findById (orders db) id) as [order|]; [|auto].
    destruct (Order_save _ db) as [db1|] eqn:S; [|auto].
    apply (Order_save_frame _ _ _ S).
  - unfold issue_invoice.
    destruct (Order_findById (orders db) id) as [order|]; [|auto].
    destruct (truthy_opt (invoiceNumber order)); [auto|].
    destruct (Order_save _ db) as [db1|] eqn:S; [|auto].
    apply (Order_save_frame _ _ _ S).
Qed.

Lemma run_cons (r : Request) (rs : list Request) (db : DB) :
  run (r :: rs) db = run rs (snd (handle r db)).
Proof. reflexivity. Qed.

Lemma reachable_run (rs : list Request) :
  forall db, reachable db -> reachable (run rs db).
Proof.
  induction rs as [|r rs IH]; intros db H; [exact H|].
  rewrite run_cons. apply IH. constructor. exact H.
Qed.

(** X1. Whatever sequence of order requests is served (creations, updates,
    invoice issuances, accepted or not), the product catalogue and the
    stock ledger stay exactly as they were: placing an order records no
    stock movement and changes no product's availability. *)
Theorem X1_orders_never_touch_stock (rs : list Request) (db : DB) :
  forallb is_order_request rs = true ->
  products (run rs db) = products db /\ movements (run rs db) = movements db.
Proof.
  revert db. induction rs as [|r rs IH]; intros db H; [split; reflexivity|].
  simpl in H. apply andb_prop in H. destruct H as [Hr Hrs].
  rewrite run_cons.
  destruct (IH (snd (handle r db)) Hrs) as [E1 E2].
  destruct (order_request_frame r db Hr) as [F1 F2].
  rewrite E1, E2, F1, F2. split; reflexivity.
Qed.

Lemma X1_orders_never_touch_stock_witness :
  products (run [CreateOrder scenario_today 7 scenario_request;
                 IssueInvoice scenario_today 1;
                 UpdateOrder 7 1 (mkUpdateOrderReq (Some "cancelled") None None)]
                scenario_db)
  = scenario_products
  /\ movements (run [CreateOrder scenario_today 7 scenario_request;
                     IssueInvoice scenario_today 1;
                     UpdateOrder 7 1
                       (mkUpdateOrderReq (Some "cancelled") None None)]
                    scenario_db)
     = [].
Proof.
  apply (X1_orders_never_touch_stock
           [CreateOrder scenario_today 7 scenario_request;
            IssueInvoice scenario_today 1;
            UpdateOrder 7 1 (mkUpdateOrderReq (Some "cancelled") None None)]
           scenario_db).
  reflexivity.
Defined.

(** ** Failed requests *)

Lemma validate_set_inStock (b : bool) (p : Product) :
  validate_product (set_inStock b p) = validate_product p.
Proof. reflexivity. Qed.

Lemma findOne_In (ps : list Product) (id : string) (p : Product) :
  Product_findOne ps id = Some p -> In p ps.
Proof.
  unfold Product_findOne. intros F. apply find_some in F. tauto.
Qed.

Lemma Product_save_rejects (p : Product) (db : DB) :
  Product_save p db = None -> validate_product p = false.
Proof.
  unfold Product_save. destruct (validate_product p); [discriminate|].
  reflexivity.
Qed.

(** How a stock request ends: refused with nothing written; failed after
    the movement was written, the product not passing its schema; or
    accepted. *)
Lemma stock_request_cases (r : Request) (db : DB) :
  is_order_request r = false ->
  (snd (handle r db) = db
   /\ In (res_status (fst (handle r db))) [400; 404; 500])
  \/ (exists m p,
         In p (products db) /\ validate_product p = false
         /\ validate_movement m = true
         /\ handle r db
            = (server_error,
               mkDB (products db) (orders db) (movements db ++ [m])))
  \/ (exists m msg db',
         validate_movement m = true
         /\ handle r db = (mkResponse 201 (BMovement msg m), db')
         /\ movements db' = (movements db ++ [m])%list
         /\ orders db' = orders db).
Proof.
  destruct r as [today user req|user id req|today id|user req|user req|user req];
    try discriminate; intros _; cbn [handle].
  - unfold stock_in.
    destruct (negb _); [left; split; [reflexivity|simpl; tauto]|].
    destruct (Product_findOne _ _) as [p|] eqn:F;
      [|left; split; [reflexivity|simpl; tauto]].
    cbv zeta. unfold StockMovement_save.
    destruct (validate_movement _) eqn:V;
      [|left; split; [reflexivity|simpl; tauto]].
    destruct (Product_save _ _) as [db2|] eqn:S.
    + right; right. eexists. eexists. exists db2.
      split; [exact V|]. split; [reflexivity|].
      apply (movements_after_save _ _ _ S).
    + right; left. eexists. exists p.
      split; [apply (findOne_In _ _ _ F)|].
      split; [apply (Product_save_rejects _ _ S)|].
      split; [exact V|reflexivity].
  - unfold stock_out.
    destruct (negb _); [left; split; [reflexivity|simpl; tauto]|].
    destruct (Product_findOne _ _) as [p|] eqn:F;
      [|left; split; [reflexivity|simpl; tauto]].
    cbv zeta. unfold StockMovement_save.
    destruct (validate_movement _) eqn:V;
      [|left; split; [reflexivity|simpl; tauto]].
    destruct (JS.le _ _).
    + destruct (Product_save _ _) as [db2|] eqn:S.
      * right; right. eexists. eexists. exists db2.
        split; [exact V|]. split; [reflexivity|].
        apply (movements_after_save _ _ _ S).
      * right; left. eexists. exists p.
        split; [apply (findOne_In _ _ _ F)|].
        split; [apply (Product_save_rejects _ _ S)|].
        split; [exact V|reflexivity].
    + right; right. eexists. eexists. eexists.
      split; [exact V|]. split; [reflexivity|]. split; reflexivity.
  - unfold stock_adjustment.
    destruct (negb _); [left; split; [reflexivity|simpl; tauto]|].
    destruct (Product_findOne _ _) as [p|] eqn:F;
      [|left; split; [reflexivity|simpl; tauto]].
    cbv zeta. unfold StockMovement_save.
    destruct (validate_movement _) eqn:V;
      [|left; split; [reflexivity|simpl; tauto]].
    destruct (Product_save _ _) as [db2|] eqn:S.
    + right; right. eexists. eexists. exists db2.
      split; [exact V|]. split; [reflexivity|].
      apply (movements_after_save _ _ _ S).
    + right; left. eexists. exists p.
      split; [apply (findOne_In _ _ _ F)|].
      split; [apply (Product_save_rejects _ _ S)|].
      split; [exact V|reflexivity].
Qed.

(** An order request that is not accepted writes nothing. *)
Lemma order_failure_unchanged (r : Request) (db : DB) :
  is_order_request r = true ->
  res_status (fst (handle r db)) <> 200 ->
  res_status (fst (handle r db)) <> 201 ->
  snd (handle r db) = db.
Proof.
  destruct r as [today user req|user id req|today id|user req|user req|user req];
    try discriminate; intros _; simpl.
  - destruct (create_order_cases today user req db)
      as [C|[[pid C]|[acc [P [[S C]|[db1 [S C]]]]]]];
      cbv zeta in C; rewrite C; simpl; try reflexivity.
    intros _ H. congruence.
  - unfold update_order.
    destruct (Order_findById (orders db) id) as [order|]; [|reflexivity].
    destruct (Order_save _ db) as [db1|]; [|reflexivity].
    simpl. intros H. congruence.
  - unfold issue_invoice.
    destruct (Order_findById (orders db) id) as [order|]; [|reflexivity].
    destruct (truthy_opt (invoiceNumber order)); [reflexivity|].
    destruct (Order_save _ db) as [db1|]; [|reflexivity].
    simpl. intros H. congruence.
Qed.

(** The status codes a route can answer. *)
Lemma handle_status (r : Request) (db : DB) :
  In (res_status (fst (handle r db))) [200; 201; 400; 404; 500].
Proof.
  destruct (is_order_request r) eqn:O.
  - destruct r as [today user req|user id req|today id|user req|user req|user req];
      try discriminate; simpl.
    + destruct (create_order_cases today user req db)
        as [C|[[pid C]|[acc [P [[S C]|[db1 [S C]]]]]]];
        cbv zeta in C; rewrite C; simpl; tauto.
    + unfold update_order.
      destruct (Order_findById (orders db) id) as [order|]; [|simpl; tauto].
      destruct (Order_save _ db) as [db1|]; simpl; tauto.
    + unfold issue_invoice.
      destruct (Order_findById (orders db) id) as [order|]; [|simpl; tauto].
      destruct (truthy_opt (invoiceNumber order)); [simpl; tauto|].
      destruct (Order_save _ db) as [db1|]; simpl; tauto.
  - destruct (stock_request_cases r db O)
      as [[_ S]|[(m & p & _ & _ & _ & E)|(m & msg & db' & _ & E & _)]].
    + simpl in *. tauto.
    + rewrite E. simpl. tauto.
    + rewrite E. simpl. tauto.
Qed.

(** X2. Every route answers 200, 201, 400, 404 or 500. A request answered
    400 or 404 leaves the whole database exactly as it was, and so does
    an order request answered 500. A stock request answered 500 either
    wrote nothing, or it had already appended its movement to the ledger
    when saving the product failed, the stored product not passing the
    product schema; catalogue and orders are untouched then. On a
    catalogue whose products all pass the product schema, a request
    answered 400, 404 or 500 writes nothing at all. *)
Theorem X2_what_a_failed_request_writes (r : Request) (db : DB) :
  In (res_status (fst (handle r db))) [200; 201; 400; 404; 500]
  /\ (In (res_status (fst (handle r db))) [400; 404] ->
      snd (handle r db) = db)
  /\ (res_status (fst (handle r db)) = 500 ->
      snd (handle r db) = db
      \/ (is_order_request r = false
          /\ exists m p,
               In p (products db) /\ validate_product p = false
               /\ validate_movement m = true
               /\ snd (handle r db)
                  = mkDB (products db) (orders db) (movements db ++ [m])))
  /\ (forallb validate_product (products db) = true ->
      In (res_status (fst (handle r db))) [400; 404; 500] ->
      snd (handle r db) = db).
Proof.
  split; [apply handle_status|].
  destruct (is_order_request r) eqn:O.
  - assert (U : In (res_status (fst (handle r db))) [400; 404; 500] ->
                snd (handle r db) = db).
    { intros H. apply (order_failure_unchanged r db O); intros E;
        rewrite E in H; simpl in H; intuition discriminate. }
    split; [intros H; apply U; simpl in *; tauto|].
    split; [intros H; left; apply U; rewrite H; simpl; tauto|].
    intros _. exact U.
  - destruct (stock_request_cases r db O)
      as [[U S]|[(m & p & I & Vp & Vm & E)|(m & msg & db' & _ & E & _)]].
    + split; [intros _; exact U|]. split; [intros _; left; exact U|].
      intros _ _. exact U.
    + rewrite E. cbn [fst snd server_error res_status].
      split; [intros H; simpl in H; intuition discriminate|].
      split.
      * intros _. right. split; [reflexivity|]. exists m, p. auto.
      * intros A _. exfalso. rewrite forallb_forall in A.
        rewrite (A p I) in Vp. discriminate.
    + rewrite E. cbn [fst snd res_status].
      split; [intros H; simpl in H; intuition discriminate|].
      split; [discriminate|].
      intros _ H. simpl in H. intuition discriminate.
Qed.

Lemma X2_what_a_failed_request_writes_witness :
  res_status
    (fst (handle (StockAdjustment 7
                    (mkAdjustmentReq "steel-tmt-12" (QNumber (JS.of_Z 3))
                                     "damage" None))
                 mispriced_db)) = 500
  /\ List.length
       (movements
          (snd (handle (StockAdjustment 7
                          (mkAdjustmentReq "steel-tmt-12" (QNumber (JS.of_Z 3))
                                           "damage" None))
                       mispriced_db))) = 1
  /\ snd (handle (StockOut 7 (mkStockOutReq "no-such-product" (JS.of_Z 3)
                                            None None))
                 scenario_db) = scenario_db.
Proof.
  split; [vm_compute; reflexivity|]. split.
  - destruct (proj1 (proj2 (proj2 (X2_what_a_failed_request_writes
                 (StockAdjustment 7
                    (mkAdjustmentReq "steel-tmt-12" (QNumber (JS.of_Z 3))
                                     "damage" None))
                 mispriced_db))))
      as [U|(_ & m & p & _ & _ & _ & E)].
    + vm_compute. reflexivity.
    + exfalso. apply (f_equal (fun d => List.length (movements d))) in U.
      vm_compute in U. discriminate.
    + rewrite E. reflexivity.
  - apply (proj1 (proj2 (X2_what_a_failed_request_writes
                    (StockOut 7 (mkStockOutReq "no-such-product" (JS.of_Z 3)
                                               None None)) scenario_db))).
    vm_compute. tauto.
Defined.

(** ** The ledger and the orders over time *)

Lemma handle_movements (r : Request) (db : DB) :
  movements (snd (handle r db)) = movements db
  \/ exists m, validate_movement m = true
               /\ movements (snd (handle r db)) = (movements db ++ [m])%list.
Proof.
  destruct (is_order_request r) eqn:O.
  - left. apply (order_request_frame r db O).
  - destruct (stock_request_cases r db O)
      as [[U _]|[(m & p & _ & _ & V & E)|(m & msg & db' & V & E & M & _)]].
    + left. rewrite U. reflexivity.
    + right. exists m. rewrite E. split; [exact V|reflexivity].
    + right. exists m. rewrite E. split; [exact V|exact M].
Qed.

(** X3. The stock ledger is append-only: whatever requests are served,
    the ledger afterwards is the ledger before followed by at most one new
    record per request, and every record added passed the movement schema
    (a known kind, quantity at least 1). No route rewrites or removes a
    record. *)
Theorem X3_ledger_append_only (rs : list Request) (db : DB) :
  exists added,
    movements (run rs db) = (movements db ++ added)%list
    /\ List.length added <= List.length rs
    /\ Forall (fun m => validate_movement m = true
                        /\ In (m_type m) movement_type_enum
                        /\ JS.ge (m_quantity m) (JS.of_Z 1) = true) added.
Proof.
  revert db. induction rs as [|r rs IH]; intros db.
  - exists []. rewrite app_nil_r. repeat split; constructor.
  - rewrite run_cons.
    destruct (IH (snd (handle r db))) as (added & E & L & F).
    destruct (handle_movements r db) as [H|(m & V & H)].
    + exists added. rewrite E, H. repeat split; [simpl; lia|exact F].
    + exists (m :: added). rewrite E, H, <- app_assoc.
      repeat split; [simpl; lia|].
      constructor; [|exact F].
      split; [exact V|].
      unfold validate_movement in V.
      repeat (apply andb_prop in V; destruct V as [V ?]).
      split; [apply enum_ok_In; assumption|assumption].
Qed.

Lemma fresh_id_above (os : list Order) (o : Order) :
  In o os -> _id o < fresh_id os.
Proof.
  unfold fresh_id. induction os as [|y os IH]; simpl; [tauto|].
  intros [->|H]; [lia|]. specialize (IH H). lia.
Qed.

Lemma same_core_refl (o : Order) : same_core o o.
Proof. unfold same_core. tauto. Qed.

Lemma same_core_trans (a b c : Order) :
  (forall n, invoiceNumber b = Some n -> n <> "") ->
  same_core a b -> same_core b c -> same_core a c.
Proof.
  unfold same_core. intros Hb H1 H2.
  destruct H1 as (A1 & A2 & A3 & A4 & A5 & A6 & A7 & A8 & A9 & A10 & A11).
  destruct H2 as (B1 & B2 & B3 & B4 & B5 & B6 & B7 & B8 & B9 & B10 & B11).
  repeat split; try congruence.
  intros n Hn Hne. apply B11; auto.
Qed.

Lemma apply_update_same_core user req order :
  same_core order (apply_update user req order).
Proof.
  unfold same_core, apply_update, assign_if_truthy.
  destruct (upd_status req) as [s|]; [destruct (JS.truthy_string s)|];
    destruct (upd_amountPaid req) as [a|];
    (destruct (upd_notes req) as [n|]; [destruct (JS.truthy_string n)|]);
    cbn; tauto.
Qed.

(** One request keeps every stored order, with what creation fixed. *)
Lemma handle_keeps_orders (r : Request) (db : DB) (id : ObjectId) (o : Order) :
  Order_findById (orders db) id = Some o ->
  exists o', Order_findById (orders (snd (handle r db))) id = Some o'
             /\ same_core o o'.
Proof.
  intros F.
  assert (Keep : exists o', Order_findById (orders db) id = Some o'
                            /\ same_core o o')
    by (exists o; split; [exact F|apply same_core_refl]).
  destruct (findById_In _ _ _ F) as [Hin Hid].
  destruct r as [today user req|user i req|today i|user req|user req|user req].
  - simpl.
    destruct (create_order_cases today user req db)
      as [C|[[pid C]|[acc [P [[S C]|[db1 [S C]]]]]]];
      cbv zeta in C; rewrite C; simpl; try exact Keep.
    destruct (Order_save_inv _ _ _ S) as (_ & _ & ->). simpl.
    rewrite find_upsert_other; [exact Keep|].
    simpl. apply fresh_id_above in Hin. lia.
  - simpl. unfold update_order.
    destruct (Order_findById (orders db) i) as [order|] eqn:Fi; [|exact Keep].
    destruct (Order_save _ db) as [db1|] eqn:S; [|exact Keep].
    destruct (Order_save_inv _ _ _ S) as (_ & _ & ->). simpl.
    destruct (apply_update_ids user req order) as (I1 & _).
    destruct (findById_In _ _ _ Fi) as [_ Hi].
    destruct (Nat.eq_dec id i) as [->|Hne].
    + rewrite Fi in F. inversion F; subst o.
      exists (apply_update user req order). split.
      * assert (E : i = _id (apply_update user req order)) by congruence.
        rewrite E. apply find_upsert.
      * apply apply_update_same_core.
    + rewrite find_upsert_other; [exact Keep|]. rewrite I1. congruence.
  - simpl. unfold issue_invoice.
    destruct (Order_findById (orders db) i) as [order|] eqn:Fi; [|exact Keep].
    destruct (truthy_opt (invoiceNumber order)) eqn:T; [exact Keep|].
    destruct (Order_save _ db) as [db1|] eqn:S; [|exact Keep].
    destruct (Order_save_inv _ _ _ S) as (_ & _ & ->). simpl.
    destruct (findById_In _ _ _ Fi) as [_ Hi].
    destruct (Nat.eq_dec id i) as [->|Hne].
    + rewrite Fi in F. inversion F; subst o.
      eexists. split.
      * rewrite <- Hi.
        apply (find_upsert
                 (set_status "completed"
                    (set_invoiceNumber
                       (generateInvoiceNumber today (orders db)) order))).
      * unfold same_core. cbn. repeat split.
        intros n Hn Hne. rewrite Hn in T. simpl in T.
        destruct n; [congruence|discriminate].
    + rewrite find_upsert_other; [exact Keep|]. simpl. congruence.
  - rewrite (stock_routes_orders (StockIn user req) db). exact Keep.
  - rewrite (stock_routes_orders (StockOut user req) db). exact Keep.
  - rewrite (stock_routes_orders (StockAdjustment user req) db). exact Keep.
Qed.

(** X4. No route deletes an order or rewrites what creation fixed: after
    any sequence of requests on a database the routes produced, an order
    that was stored is still found under its id with the same order number,
    customer, items, subtotal, total discount, total tax, grand total,
    payment method and creator; and an invoice number, once set, never
    changes. *)
Theorem X4_orders_persist (rs : list Request) :
  forall db id o,
    reachable db ->
    Order_findById (orders db) id = Some o ->
    exists o', Order_findById (orders (run rs db)) id = Some o'
               /\ _id o' = _id o
               /\ orderNumber o' = orderNumber o
               /\ customer o' = customer o
               /\ items o' = items o
               /\ subtotal o' = subtotal o
               /\ totalDiscount o' = totalDiscount o
               /\ totalGst o' = totalGst o
               /\ grandTotal o' = grandTotal o
               /\ paymentMethod o' = paymentMethod o
               /\ createdBy o' = createdBy o
               /\ (forall n, invoiceNumber o = Some n ->
                             invoiceNumber o' = Some n).
Proof.
  assert (G : forall db id o,
             reachable db ->
             Order_findById (orders db) id = Some o ->
             exists o', Order_findById (orders (run rs db)) id = Some o'
                        /\ same_core o o').
  { induction rs as [|r rs IH]; intros db id o Hr F.
    - exists o. split; [exact F|apply same_core_refl].
    - rewrite run_cons.
      destruct (handle_keeps_orders r db id o F) as (o1 & F1 & C1).
      assert (Hr1 : reachable (snd (handle r db))) by (constructor; exact Hr).
      destruct (IH _ _ _ Hr1 F1) as (o2 & F2 & C2).
      exists o2. split; [exact F2|].
      apply (same_core_trans o o1 o2); try assumption.
      destruct (findById_In _ _ _ F1) as [Hin _].
      apply (reachable_order_ok _ _ Hr1 Hin). }
  intros db id o Hr F.
  destruct (G db id o Hr F) as (o' & F' & C). exists o'.
  split; [exact F'|].
  destruct (findById_In _ _ _ F) as [Hin _].
  destruct (reachable_order_ok _ _ Hr Hin) as (_ & _ & I).
  unfold same_core in C.
  destruct C as (A1 & A2 & A3 & A4 & A5 & A6 & A7 & A8 & A9 & A10 & A11).
  repeat split; try assumption.
  intros n Hn. apply A11; [exact Hn|]. apply (I n Hn).
Qed.

Lemma X4_orders_persist_witness :
  exists o',
    Order_findById
      (orders (run [UpdateOrder 7 1
                      (mkUpdateOrderReq (Some "cancelled")
                                        (Some (JS.of_Z 100)) (Some "late"));
                    IssueInvoice (mkDate 2027 0) 1;
                    StockOut 7 (mkStockOutReq "steel-tmt-12" (JS.of_Z 1)
                                              None None)]
                   scenario_db2)) 1 = Some o'
    /\ orderNumber o' = "ORD2026110001"
    /\ grandTotal o' = JS.dec 15408440 2
    /\ invoiceNumber o' = Some "INV2026110001".
Proof.
  assert (F : exists o, Order_findById (orders scenario_db2) 1 = Some o
                        /\ orderNumber o = "ORD2026110001"
                        /\ grandTotal o = JS.dec 15408440 2
                        /\ invoiceNumber o = Some "INV2026110001")
    by (vm_compute; eauto).
  destruct F as (o & F & N & G & I).
  destruct (X4_orders_persist
              [UpdateOrder 7 1
                 (mkUpdateOrderReq (Some "cancelled") (Some (JS.of_Z 100))
                                   (Some "late"));
               IssueInvoice (mkDate 2027 0) 1;
               StockOut 7 (mkStockOutReq "steel-tmt-12" (JS.of_Z 1) None None)]
              scenario_db2 1 o scenario_db2_reachable F)
    as (o' & F' & _ & N' & _ & _ & _ & _ & _ & G' & _ & _ & I').
  exists o'. repeat split; try congruence. apply I'. exact I.
Defined.

(** ** Identity of stored orders *)

Lemma NoDup_snoc {A} (l : list A) (a : A) :
  NoDup l -> ~ In a l -> NoDup (l ++ [a]).
Proof.
  induction l as [|x l IH]; simpl; intros H Hn.
  - constructor; [tauto|constructor].
  - inversion H as [|? ? Hx Hl]; subst. constructor.
    + intros Hin. apply in_app_or in Hin. simpl in Hin.
      destruct Hin as [Hin|[E|[]]]; [tauto|]. apply Hn. left. symmetry.
      exact E.
    + apply IH; [exact Hl|]. tauto.
Qed.

Lemma map_id_upsert (o : Order) (os : list Order) :
  NoDup (map _id os) -> NoDup (map _id (upsert o os)).
Proof.
  unfold upsert. intros H.
  destruct (existsb (fun o' => Nat.eqb (_id o') (_id o)) os) eqn:E.
  - assert (Em : map _id (map (fun o' => if Nat.eqb (_id o') (_id o)
                                        then o else o') os) = map _id os).
    { clear. induction os as [|y os IH]; simpl; [reflexivity|].
      rewrite IH. destruct (Nat.eqb (_id y) (_id o)) eqn:Ey; [|reflexivity].
      apply Nat.eqb_eq in Ey. congruence. }
    rewrite Em. exact H.
  - rewrite map_app. simpl. apply NoDup_snoc; [exact H|].
    intros Hin. apply in_map_iff in Hin. destruct Hin as (y & Ey & Hy).
    apply Bool.not_true_iff_false in E. apply E.
    apply existsb_exists. exists y. split; [exact Hy|].
    apply Nat.eqb_eq. exact Ey.
Qed.

Lemma reachable_ids (db : DB) : reachable db -> NoDup (map _id (orders db)).
Proof.
  induction 1 as [ps ms|db r Hr IH].
  - constructor.
  - destruct r as [today user req|user id req|today id|user req|user req|user req].
    + simpl.
      destruct (create_order_cases today user req db)
        as [C|[[pid C]|[acc [P [[S C]|[db1 [S C]]]]]]];
        cbv zeta in C; rewrite C; simpl; try assumption.
      destruct (Order_save_inv _ _ _ S) as (_ & _ & ->). simpl.
      apply map_id_upsert. assumption.
    + simpl. unfold update_order.
      destruct (Order_findById (orders db) id) as [order|]; [|assumption].
      destruct (Order_save _ db) as [db1|] eqn:S; [|assumption].
      destruct (Order_save_inv _ _ _ S) as (_ & _ & ->). simpl.
      apply map_id_upsert. assumption.
    + simpl. unfold issue_invoice.
      destruct (Order_findById (orders db) id) as [order|]; [|assumption].
      destruct (truthy_opt (invoiceNumber order)); [assumption|].
      destruct (Order_save _ db) as [db1|] eqn:S; [|assumption].
      destruct (Order_save_inv _ _ _ S) as (_ & _ & ->). simpl.
      apply map_id_upsert. assumption.
    + rewrite (stock_routes_orders (StockIn user req) db). assumption.
    + rewrite (stock_routes_orders (StockOut user req) db). assumption.
    + rewrite (stock_routes_orders (StockAdjustment user req) db). assumption.
Qed.

Lemma NoDup_map_transfer {A B C} (f : A -> B) (g : A -> C) (l : list A) :
  NoDup (map f l) ->
  (forall x y, In x l -> In y l -> f x <> f y -> g x <> g y) ->
  NoDup (map g l).
Proof.
  induction l as [|a l IH]; simpl; intros H T; [constructor|].
  inversion H as [|? ? Hn Hd]; subst. constructor.
  - intros Hin. apply in_map_iff in Hin. destruct Hin as (y & Ey & Hy).
    apply (T y a); auto. intros Ef. apply Hn. rewrite <- Ef.
    apply in_map. exact Hy.
  - apply IH; [exact Hd|]. intros x y Hx Hy. apply T; auto.
Qed.

(** X5. In every database the routes produce, stored orders have pairwise
    distinct ids and pairwise distinct order numbers, and no two orders
    carry the same invoice number. *)
Theorem X5_order_identifiers_unique (db : DB) :
  reachable db ->
  NoDup (map _id (orders db))
  /\ NoDup (map orderNumber (orders db))
  /\ (forall o1 o2 n,
        In o1 (orders db) -> In o2 (orders db) ->
        invoiceNumber o1 = Some n -> invoiceNumber o2 = Some n ->
        o1 = o2).
Proof.
  intros Hr. pose proof (reachable_ids db Hr) as Hid.
  assert (Sep : forall o1 o2, In o1 (orders db) -> In o2 (orders db) ->
                              _id o1 <> _id o2 -> index_clash o1 o2 = false).
  { intros o1 o2 H1 H2 Hne.
    destruct (reachable_order_ok _ _ Hr H1) as (_ & U & _).
    destruct (unique_ok_In _ _ _ U H2) as [E|E]; congruence. }
  assert (Same : forall o1 o2, In o1 (orders db) -> In o2 (orders db) ->
                               _id o1 = _id o2 -> o1 = o2).
  { clear Sep Hr. induction (orders db) as [|a l IH]; simpl; [tauto|].
    inversion Hid as [|? ? Hn Hd]; subst.
    intros o1 o2 [->|H1] [->|H2] E; auto.
    - exfalso. apply Hn. rewrite E. apply in_map. exact H2.
    - exfalso. apply Hn. rewrite <- E. apply in_map. exact H1. }
  split; [exact Hid|]. split.
  - apply (NoDup_map_transfer _id orderNumber _ Hid).
    intros x y Hx Hy Hne Heq.
    pose proof (Sep x y Hx Hy Hne) as C. unfold index_clash in C.
    rewrite Heq, String.eqb_refl in C. discriminate.
  - intros o1 o2 n H1 H2 I1 I2.
    destruct (Nat.eq_dec (_id o1) (_id o2)) as [E|Hne]; [auto|].
    pose proof (Sep o1 o2 H1 H2 Hne) as C. unfold index_clash in C.
    rewrite I1, I2, String.eqb_refl, Bool.orb_true_r in C. discriminate.
Qed.

Lemma X5_order_identifiers_unique_witness :
  NoDup (map orderNumber
             (orders (run [CreateOrder scenario_today 8 scenario_request;
                           CreateOrder (mkDate 2026 11) 8 scenario_request]
                          scenario_db2))).
Proof.
  apply (X5_order_identifiers_unique
           (run [CreateOrder scenario_today 8 scenario_request;
                 CreateOrder (mkDate 2026 11) 8 scenario_request]
                scenario_db2)).
  apply reachable_run. exact scenario_db2_reachable.
Defined.

(** ** Payment fields over time *)

Lemma apply_update_consistent user req order :
  payment_consistent order ->
  validate_order (apply_update user req order) = true ->
  payment_consistent (apply_update user req order).
Proof.
  intros (C1 & C2 & C3 & C4 & C5 & C6) V.
  apply validate_order_inv in V.
  destruct V as (_ & _ & _ & _ & VP & VD & _).
  unfold min_ok in VP, VD. rewrite of_Z_0 in VP, VD.
  revert VP VD.
  unfold payment_consistent, apply_update, assign_if_truthy.
  destruct (upd_status req) as [s|]; [destruct (JS.truthy_string s)|];
    destruct (upd_amountPaid req) as [a|];
    (destruct (upd_notes req) as [n|]; [destruct (JS.truthy_string n)|]);
    cbn; intros VP VD; repeat split; assumption.
Qed.

Lemma reachable_consistent (db : DB) :
  reachable db -> Forall payment_consistent (orders db).
Proof.
  induction 1 as [ps ms|db r Hr IH].
  - constructor.
  - destruct r as [today user req|user id req|today id|user req|user req|user req].
    + simpl.
      destruct (create_order_cases today user req db)
        as [C|[[pid C]|[acc [P [[S C]|[db1 [S C]]]]]]];
        cbv zeta in C; rewrite C; simpl; try assumption.
      destruct (Order_save_inv _ _ _ S) as (V & _ & _).
      apply (Order_save_Forall _ _ _ _ IH) in S; [assumption|].
      apply validate_order_inv in V.
      destruct V as (_ & _ & _ & _ & VP & VD & _).
      unfold min_ok in VP, VD. rewrite of_Z_0 in VP, VD.
      repeat split; assumption.
    + simpl. unfold update_order.
      destruct (Order_findById (orders db) id) as [order|] eqn:F;
        [|assumption].
      destruct (Order_save _ db) as [db1|] eqn:S; [|assumption]. simpl.
      destruct (Order_save_inv _ _ _ S) as (V & _ & _).
      apply (Order_save_Forall _ _ _ _ IH) in S; [assumption|].
      apply apply_update_consistent; [|exact V].
      destruct (findById_In _ _ _ F) as [Hin _].
      rewrite Forall_forall in IH. auto.
    + simpl. unfold issue_invoice.
      destruct (Order_findById (orders db) id) as [order|] eqn:F;
        [|assumption].
      destruct (truthy_opt (invoiceNumber order)); [assumption|].
      destruct (Order_save _ db) as [db1|] eqn:S; [|assumption]. simpl.
      apply (Order_save_Forall _ _ _ _ IH) in S; [assumption|].
      destruct (findById_In _ _ _ F) as [Hin _].
      rewrite Forall_forall in IH. apply (IH order Hin).
    + rewrite (stock_routes_orders (StockIn user req) db). assumption.
    + rewrite (stock_routes_orders (StockOut user req) db). assumption.
    + rewrite (stock_routes_orders (StockAdjustment user req) db). assumption.
Qed.

(** X6. In every database the routes produce, each stored order's payment
    fields agree with one another, whatever creations, updates and invoice
    issuances led to it: grandTotal = subtotal + totalGst with no discount,
    amountDue = grandTotal - amountPaid, paymentStatus is the status the
    route's rule gives for (amountPaid, grandTotal), and neither amountPaid
    nor amountDue is negative; in particular a stored order is never
    overpaid into a negative balance. *)
Theorem X6_payment_fields_consistent (db : DB) (o : Order) :
  reachable db -> In o (orders db) ->
  grandTotal o = JS.add (subtotal o) (totalGst o)
  /\ totalDiscount o = JS.zero
  /\ amountDue o = JS.sub (grandTotal o) (amountPaid o)
  /\ paymentStatus o = payment_status (amountPaid o) (grandTotal o)
  /\ paymentStatus o = spec_payment_status (amountPaid o) (grandTotal o)
  /\ JS.ge (amountPaid o) JS.zero = true
  /\ JS.ge (amountDue o) JS.zero = true
  /\ JS.lt (amountDue o) JS.zero = false.
Proof.
  intros Hr Hin.
  pose proof (reachable_consistent db Hr) as H.
  rewrite Forall_forall in H.
  destruct (H o Hin) as (C1 & C2 & C3 & C4 & C5 & C6).
  destruct (reachable_order_ok _ _ Hr Hin) as (V & _ & _).
  apply validate_order_inv in V. destruct V as (_ & _ & G & _).
  apply min_ok_not_nan in G.
  repeat split; try assumption.
  - rewrite <- (payment_status_spec _ _ G). exact C4.
  - destruct (JS.lt (amountDue o) JS.zero) eqn:E; [|reflexivity].
    apply lt_ge_false in E. congruence.
Qed.

Lemma X6_payment_fields_consistent_witness :
  Forall (fun o => amountDue o = JS.sub (grandTotal o) (amountPaid o)
                   /\ paymentStatus o
                      = payment_status (amountPaid o) (grandTotal o))
         (orders (run [UpdateOrder 7 1
                         (mkUpdateOrderReq None (Some (JS.of_Z 50000)) None);
                       UpdateOrder 7 1
                         (mkUpdateOrderReq (Some "processing") None None)]
                      scenario_db2)).
Proof.
  apply Forall_forall. intros o Hin.
  destruct (X6_payment_fields_consistent
              (run [UpdateOrder 7 1
                      (mkUpdateOrderReq None (Some (JS.of_Z 50000)) None);
                    UpdateOrder 7 1
                      (mkUpdateOrderReq (Some "processing") None None)]
                   scenario_db2) o
              (reachable_run _ _ scenario_db2_reachable) Hin)
    as (_ & _ & D & P & _).
  split; assumption.
Defined.

(** ** Sequence numbers are never handed out twice *)

Lemma count_prefixed_app (p : string) (a b : list (option string)) :
  count_prefixed p (a ++ b) = count_prefixed p a + count_prefixed p b.
Proof.
  unfold count_prefixed. rewrite filter_app, length_app. reflexivity.
Qed.

Lemma prefix_append (p s : string) : String.prefix p (p ++ s) = true.
Proof.
  induction p as [|c p IH]; simpl; [destruct s; reflexivity|].
  destruct (ascii_dec c c); [exact IH|congruence].
Qed.

Lemma count_prefixed_issued_one (scope : string) (d : Date) (k : nat) :
  count_prefixed (month_prefix scope d) [Some (issued scope (d, k))] = 1.
Proof.
  unfold count_prefixed, issued, next_identifier. simpl.
  rewrite prefix_append. reflexivity.
Qed.

Lemma counted_mono (scope : string) (ids ids' : list (option string)) id :
  (forall p, count_prefixed p ids <= count_prefixed p ids') ->
  counted scope ids id -> counted scope ids' id.
Proof.
  intros M. destruct id as [s|]; [|trivial]. unfold counted.
  intros (d & k & Hd & E & L). exists d, k.
  split; [exact Hd|]. split; [exact E|].
  eapply Nat.lt_le_trans; [exact L|apply M].
Qed.

Lemma next_identifier_inj (p : string) (k k' : nat) :
  next_identifier p k = next_identifier p k' -> k = k'.
Proof.
  unfold next_identifier. intros E.
  apply append_inj_length in E; [|reflexivity]. destruct E as [_ E].
  apply (f_equal decimal_value) in E.
  rewrite !decimal_value_padStart, !decimal_value_String_of_N in E.
  inversion E. lia.
Qed.

Lemma same_month_prefix (scope : string) (d d' : Date) :
  same_month d d' = true -> month_prefix scope d = month_prefix scope d'.
Proof.
  unfold same_month. intros H. apply andb_prop in H. destruct H as [Hy Hm].
  apply N.eqb_eq in Hy, Hm. unfold month_prefix. rewrite Hy, Hm. reflexivity.
Qed.

Lemma same_month_refl (d : Date) : same_month d d = true.
Proof. unfold same_month. rewrite !N.eqb_refl. reflexivity. Qed.

Lemma issued_same_month (scope : string) (d d' : Date) (k k' : nat) :
  valid_date d -> valid_date d' ->
  issued scope (d, k) = issued scope (d', k') ->
  same_month d d' = true /\ k = k'.
Proof.
  intros Hd Hd' E.
  assert (S : same_month d d' = true).
  { pose proof (prefix_issued scope d (d', k') Hd Hd') as P1.
    pose proof (prefix_issued scope d (d, k) Hd Hd) as P2.
    cbn [fst] in P1, P2. rewrite <- E, P2, same_month_refl in P1.
    symmetry. exact P1. }
  split; [exact S|].
  unfold issued in E. simpl in E.
  rewrite <- (same_month_prefix scope d d' S) in E.
  apply next_identifier_inj in E. exact E.
Qed.

(** The identifier generated next is not on record. *)
Lemma sequenced_fresh (scope : string) (ids : list (option string)) (d : Date) :
  sequenced scope ids -> valid_date d ->
  ~ In (Some (next_identifier (month_prefix scope d)
                (count_prefixed (month_prefix scope d) ids))) ids.
Proof.
  intros Hs Hd Hin. unfold sequenced in Hs. rewrite Forall_forall in Hs.
  destruct (Hs _ Hin) as (d' & k' & Hd' & E & L).
  change (next_identifier (month_prefix scope d)
            (count_prefixed (month_prefix scope d) ids))
    with (issued scope (d, count_prefixed (month_prefix scope d) ids)) in E.
  destruct (issued_same_month scope d d' _ _ Hd Hd' E) as [S K].
  rewrite <- (same_month_prefix scope d d' S) in L. lia.
Qed.

(** Recording the identifier generated next keeps the record in
    sequence, wherever it is inserted in place of an empty entry. *)
Lemma sequenced_insert (scope : string) (a b : list (option string))
      (d : Date) :
  sequenced scope (a ++ None :: b) -> valid_date d ->
  sequenced scope
    (a ++ Some (next_identifier (month_prefix scope d)
                  (count_prefixed (month_prefix scope d) (a ++ None :: b)))
       :: b).
Proof.
  intros Hs Hd. unfold sequenced in *.
  set (ids := (a ++ None :: b)%list) in *.
  set (new := next_identifier (month_prefix scope d)
                (count_prefixed (month_prefix scope d) ids)).
  assert (M : forall p, count_prefixed p ids
                        <= count_prefixed p (a ++ Some new :: b)).
  { intros p. unfold ids. rewrite !count_prefixed_app.
    change (None :: b) with ([@None string] ++ b)%list.
    change (Some new :: b) with ([Some new] ++ b)%list.
    rewrite !count_prefixed_app.
    change (count_prefixed p [None]) with 0. lia. }
  rewrite Forall_forall in *. intros x Hx.
  apply in_app_or in Hx. destruct Hx as [Hx|[<-|Hx]].
  - apply (counted_mono scope ids _ x M). apply Hs. unfold ids.
    apply in_or_app. left. exact Hx.
  - simpl. exists d, (count_prefixed (month_prefix scope d) ids).
    split; [exact Hd|]. split; [reflexivity|].
    rewrite count_prefixed_app.
    change (Some new :: b) with ([Some new] ++ b)%list.
    rewrite count_prefixed_app.
    unfold new at 1.
    change (next_identifier (month_prefix scope d)
              (count_prefixed (month_prefix scope d) ids))
      with (issued scope (d, count_prefixed (month_prefix scope d) ids)).
    rewrite count_prefixed_issued_one.
    unfold ids. rewrite count_prefixed_app.
    change (None :: b) with ([@None string] ++ b)%list.
    rewrite count_prefixed_app.
    change (count_prefixed (month_prefix scope d) [None]) with 0. lia.
  - apply (counted_mono scope ids _ x M). apply Hs. unfold ids.
    apply in_or_app. right. right. exact Hx.
Qed.

Lemma map_upsert_other (o' : Order) (l : list Order) :
  (forall x, In x l -> _id x <> _id o') ->
  map (fun y => if Nat.eqb (_id y) (_id o') then o' else y) l = l.
Proof.
  induction l as [|y l IH]; simpl; intros H; [reflexivity|].
  rewrite IH by auto.
  destruct (Nat.eqb (_id y) (_id o')) eqn:E; [|reflexivity].
  apply Nat.eqb_eq in E. exfalso. apply (H y); auto.
Qed.

(** With distinct ids, a save of a stored document replaces it in
    place. *)
Lemma upsert_split (o' order : Order) (os : list Order) :
  NoDup (map _id os) -> In order os -> _id o' = _id order ->
  exists l1 l2, os = (l1 ++ order :: l2)%list
                /\ upsert o' os = (l1 ++ o' :: l2)%list.
Proof.
  intros Hn Hin E.
  destruct (in_split _ _ Hin) as (l1 & l2 & ->). exists l1, l2.
  split; [reflexivity|].
  rewrite map_app in Hn. simpl in Hn.
  pose proof (NoDup_remove_2 _ _ _ Hn) as Hout.
  unfold upsert.
  assert (Ex : existsb (fun y => Nat.eqb (_id y) (_id o'))
                       (l1 ++ order :: l2) = true).
  { apply existsb_exists. exists order. split; [exact Hin|].
    apply Nat.eqb_eq. congruence. }
  rewrite Ex, map_app. simpl.
  assert (Eo : Nat.eqb (_id order) (_id o') = true)
    by (apply Nat.eqb_eq; congruence).
  rewrite Eo.
  rewrite !map_upsert_other; [reflexivity| |];
    intros x Hx Hid; apply Hout; apply in_or_app;
    rewrite <- E, <- Hid;
    solve [left; apply in_map; exact Hx | right; apply in_map; exact Hx].
Qed.

Lemma upsert_fresh (o : Order) (os : list Order) :
  (forall x, In x os -> _id x <> _id o) -> upsert o os = (os ++ [o])%list.
Proof.
  intros H. unfold upsert.
  destruct (existsb (fun y => Nat.eqb (_id y) (_id o)) os) eqn:E;
    [|reflexivity].
  apply existsb_exists in E. destruct E as (x & Hx & Ex).
  apply Nat.eqb_eq in Ex. exfalso. apply (H x Hx Ex).
Qed.

Lemma dated_reachable (db : DB) : dated db -> reachable db.
Proof. induction 1; constructor; assumption. Qed.

Lemma sequenced_snoc_none (scope : string) (ids : list (option string)) :
  sequenced scope ids -> sequenced scope (ids ++ [None]).
Proof.
  unfold sequenced. intros H. rewrite Forall_forall in *.
  intros x Hx. apply in_app_or in Hx. destruct Hx as [Hx|[<-|[]]].
  - apply (counted_mono scope ids); [|auto].
    intros p. rewrite count_prefixed_app. lia.
  - exact I.
Qed.

Lemma sequenced_snoc_next (scope : string) (ids : list (option string))
      (d : Date) :
  sequenced scope ids -> valid_date d ->
  sequenced scope
    (ids ++ [Some (next_identifier (month_prefix scope d)
                     (count_prefixed (month_prefix scope d) ids))]).
Proof.
  intros Hs Hd.
  pose proof (sequenced_insert scope ids [] d (sequenced_snoc_none _ _ Hs) Hd)
    as H.
  rewrite count_prefixed_app in H.
  change (count_prefixed (month_prefix scope d) [None]) with 0 in H.
  rewrite Nat.add_0_r in H. exact H.
Qed.

Lemma dated_sequenced (db : DB) :
  dated db ->
  sequenced "ORD" (map (fun o => Some (orderNumber o)) (orders db))
  /\ sequenced "INV" (map invoiceNumber (orders db)).
Proof.
  induction 1 as [ps ms|db r Hdb IH Hd].
  - split; constructor.
  - destruct IH as [IHo IHi].
    pose proof (reachable_ids db (dated_reachable db Hdb)) as Hn.
    destruct r as [today user req|user id req|today id|user req|user req|user req];
      simpl in Hd.
    + simpl.
      destruct (create_order_cases today user req db)
        as [C|[[pid C]|[acc [P [[S C]|[db1 [S C]]]]]]];
        cbv zeta in C; rewrite C; simpl; try (split; assumption).
      destruct (Order_save_inv _ _ _ S) as (_ & _ & ->). simpl.
      rewrite upsert_fresh.
      * rewrite !map_app. simpl. split.
        -- apply (sequenced_snoc_next "ORD" _ today IHo Hd).
        -- apply sequenced_snoc_none. exact IHi.
      * intros x Hx. simpl. apply fresh_id_above in Hx. lia.
    + simpl. unfold update_order.
      destruct (Order_findById (orders db) id) as [order|] eqn:F;
        [|split; assumption].
      destruct (Order_save _ db) as [db1|] eqn:S; [|split; assumption].
      destruct (Order_save_inv _ _ _ S) as (_ & _ & ->). simpl.
      destruct (findById_In _ _ _ F) as [Hin _].
      destruct (apply_update_ids user req order) as (I1 & I2 & _).
      destruct (upsert_split (apply_update user req order) order _ Hn Hin I1)
        as (l1 & l2 & E1 & E2).
      rewrite E2. rewrite E1 in IHo, IHi.
      rewrite !map_app in *. cbn [map] in *.
      rewrite I2, apply_update_invoiceNumber. split; assumption.
    + simpl. unfold issue_invoice.
      destruct (Order_findById (orders db) id) as [order|] eqn:F;
        [|split; assumption].
      destruct (truthy_opt (invoiceNumber order)) eqn:T; [split; assumption|].
      destruct (Order_save _ db) as [db1|] eqn:S; [|split; assumption].
      destruct (Order_save_inv _ _ _ S) as (_ & _ & ->). simpl.
      destruct (findById_In _ _ _ F) as [Hin _].
      destruct (reachable_order_ok _ _ (dated_reachable db Hdb) Hin)
        as (_ & _ & W).
      assert (Enone : invoiceNumber order = None).
      { destruct (invoiceNumber order) as [n|] eqn:En; [|reflexivity].
        specialize (W n eq_refl). destruct n; [congruence|discriminate]. }
      destruct (upsert_split
                  (set_status "completed"
                     (set_invoiceNumber
                        (generateInvoiceNumber today (orders db)) order))
                  order _ Hn Hin eq_refl)
        as (l1 & l2 & E1 & E2).
      rewrite E2. unfold generateInvoiceNumber. rewrite E1 in *.
      rewrite !map_app in *.
      cbn [map set_status set_invoiceNumber invoiceNumber orderNumber] in *.
      rewrite Enone in *.
      split; [exact IHo|].
      apply (sequenced_insert "INV" _ _ today IHi Hd).
    + rewrite (stock_routes_orders (StockIn user req) db). split; assumption.
    + rewrite (stock_routes_orders (StockOut user req) db). split; assumption.
    + rewrite (stock_routes_orders (StockAdjustment user req) db).
      split; assumption.
Qed.

Lemma issue_invoice_accepts today id db order :
  reachable db ->
  Order_findById (orders db) id = Some order ->
  invoiceNumber order = None ->
  ~ In (Some (generateInvoiceNumber today (orders db)))
       (map invoiceNumber (orders db)) ->
  exists o db',
    issue_invoice today id db
    = (mkResponse 200 (BOrder "Invoice generated" o), db')
    /\ invoiceNumber o = Some (generateInvoiceNumber today (orders db))
    /\ Order_findById (orders db') id = Some o.
Proof.
  intros Hr F Hn Hfresh.
  destruct (findById_In _ _ _ F) as [Hin Hid].
  destruct (reachable_order_ok _ _ Hr Hin) as (V & U & _).
  unfold issue_invoice. rewrite F, Hn. simpl.
  rewrite Order_save_accepts.
  - eexists _, _. split; [reflexivity|]. split; [reflexivity|].
    cbn [orders]. rewrite <- Hid.
    apply (find_upsert
             (set_status "completed"
                (set_invoiceNumber (generateInvoiceNumber today (orders db))
                                   order))).
  - apply validate_set_status; [|reflexivity].
    rewrite validate_set_invoiceNumber. assumption.
  - apply unique_ok_intro. intros y Hy.
    destruct (unique_ok_In _ _ _ U Hy) as [E|E]; [left; exact E|].
    right. unfold index_clash in *.
    cbn [set_status set_invoiceNumber invoiceNumber orderNumber].
    rewrite Hn in E.
    apply Bool.orb_false_iff in E. destruct E as [E _].
    rewrite E, Bool.orb_false_l.
    destruct (invoiceNumber y) as [b|] eqn:Ey; [|reflexivity].
    apply String.eqb_neq. intros Hb. apply Hfresh.
    rewrite Hb, <- Ey. apply in_map. exact Hy.
Qed.

(** X7. When requests are served one after the other (with a clock in
    years 1000 to 9999), the order number and the invoice number generated
    next are carried by no stored order, so the count-based numbering never
    hands out a number twice and never trips the unique indexes; in
    particular issuing an invoice for a stored order that has none always
    succeeds. *)
Theorem X7_sequence_numbers_fresh (db : DB) (today : Date) :
  dated db -> valid_date today ->
  (forall o, In o (orders db) ->
             orderNumber o <> generateOrderNumber today (orders db))
  /\ (forall o, In o (orders db) ->
                invoiceNumber o
                <> Some (generateInvoiceNumber today (orders db)))
  /\ (forall id order,
        Order_findById (orders db) id = Some order ->
        invoiceNumber order = None ->
        exists o db',
          issue_invoice today id db
          = (mkResponse 200 (BOrder "Invoice generated" o), db')
          /\ invoiceNumber o = Some (generateInvoiceNumber today (orders db))
          /\ Order_findById (orders db') id = Some o).
Proof.
  intros Hd Ht. destruct (dated_sequenced db Hd) as [So Si].
  pose proof (sequenced_fresh "ORD" _ today So Ht) as Fo.
  pose proof (sequenced_fresh "INV" _ today Si Ht) as Fi.
  split; [|split].
  - intros o Hin E. apply Fo.
    change (next_identifier _ _) with (generateOrderNumber today (orders db)).
    rewrite <- E.
    apply (in_map (fun o => Some (orderNumber o))). exact Hin.
  - intros o Hin E. apply Fi.
    change (next_identifier _ _) with (generateInvoiceNumber today (orders db)).
    rewrite <- E. apply in_map. exact Hin.
  - intros id order F Hn.
    apply (issue_invoice_accepts today id db order
             (dated_reachable db Hd) F Hn).
    exact Fi.
Qed.

Lemma scenario_db1_dated : dated scenario_db1.
Proof.
  refine (dated_step scenario_db
            (CreateOrder scenario_today 7 scenario_request)
            (dated_init scenario_products []) _).
  unfold request_dated, valid_date. simpl. lia.
Qed.

Lemma X7_sequence_numbers_fresh_witness :
  generateOrderNumber scenario_today (orders scenario_db1) = "ORD2026110002"
  /\ (forall o, In o (orders scenario_db1) ->
                orderNumber o
                <> generateOrderNumber scenario_today (orders scenario_db1))
  /\ exists o db',
       issue_invoice scenario_today 1 scenario_db1
       = (mkResponse 200 (BOrder "Invoice generated" o), db')
       /\ invoiceNumber o
          = Some (generateInvoiceNumber scenario_today (orders scenario_db1))
       /\ Order_findById (orders db') 1 = Some o.
Proof.
  assert (Ht : valid_date scenario_today)
    by (unfold valid_date; simpl; lia).
  destruct (X7_sequence_numbers_fresh scenario_db1 scenario_today
              scenario_db1_dated Ht) as (Fo & _ & Fi).
  split; [vm_compute; reflexivity|]. split; [exact Fo|].
  assert (F : exists order,
             Order_findById (orders scenario_db1) 1 = Some order
             /\ invoiceNumber order = None)
    by (vm_compute; eauto).
  destruct F as (order & F & N). exact (Fi 1 order F N).
Defined.

(** ** Signs of computed amounts *)

Lemma iter_pos_invariant {A} (f : A -> A) (P : A -> Prop) :
  (forall x, P x -> P (f x)) ->
  forall n x, P x -> P (SpecFloat.iter_pos f n x).
Proof.
  intros Hf. induction n as [n IH|n IH|]; intros x Hx; simpl; auto.
Qed.

Lemma shr_1_nonneg (mrs : shr_record) :
  (0 <= shr_m mrs)%Z -> (0 <= shr_m (shr_1 mrs))%Z.
Proof.
  destruct mrs as [m r s]. simpl.
  destruct m as [|[p|p|]|[p|p|]]; simpl; intros H; lia.
Qed.

Lemma shr_nonneg (mrs : shr_record) (e n : Z) :
  (0 <= shr_m mrs)%Z -> (0 <= shr_m (fst (shr mrs e n)))%Z.
Proof.
  intros H. unfold shr. destruct n as [|p|p]; simpl; try exact H.
  apply (iter_pos_invariant shr_1 (fun x => (0 <= shr_m x)%Z));
    [exact shr_1_nonneg|exact H].
Qed.

Lemma shr_fexp_nonneg (m e : Z) (l : location) :
  (0 <= m)%Z -> (0 <= shr_m (fst (shr_fexp JS.prec JS.emax m e l)))%Z.
Proof.
  intros H. unfold shr_fexp. apply shr_nonneg.
  destruct l as [|[ | | ]]; exact H.
Qed.

Lemma round_nearest_even_nonneg (m : Z) (l : location) :
  (0 <= m)%Z -> (0 <= round_nearest_even m l)%Z.
Proof.
  intros H. destruct l as [|[ | | ]]; simpl; try exact H; try lia.
  destruct (Z.even m); lia.
Qed.

(** Rounding keeps the sign it is given. *)
Lemma binary_round_aux_sign (s : bool) (m e : Z) (l : location) :
  (0 <= m)%Z -> has_sign s (binary_round_aux JS.prec JS.emax s m e l).
Proof.
  intros H. unfold binary_round_aux.
  pose proof (shr_fexp_nonneg m e l H) as H1.
  destruct (shr_fexp JS.prec JS.emax m e l) as [mrs' e'].
  simpl in H1.
  pose proof (shr_fexp_nonneg _ e' loc_Exact
                (round_nearest_even_nonneg _ (loc_of_shr_record mrs') H1))
    as H2.
  destruct (shr_fexp JS.prec JS.emax _ e' loc_Exact) as [mrs'' e''].
  simpl in H2.
  destruct (shr_m mrs'') as [|p|p]; simpl.
  - reflexivity.
  - destruct (_ <=? _)%Z; simpl; reflexivity.
  - lia.
Qed.

Lemma binary_round_sign (s : bool) (m : positive) (e : Z) :
  has_sign s (binary_round JS.prec JS.emax s m e).
Proof.
  unfold binary_round.
  destruct (shl_align m e _) as [mz ez].
  apply binary_round_aux_sign. lia.
Qed.

Lemma has_sign_nonneg (x : Number) : has_sign false x -> is_nonneg x = true.
Proof. destruct x as [s|s| |s m e]; simpl; try tauto; intros ->; reflexivity. Qed.

Lemma has_sign_nonpos (x : Number) : has_sign true x -> is_nonpos x = true.
Proof. destruct x as [s|s| |s m e]; simpl; try tauto; intros ->; reflexivity. Qed.

Lemma mul_nonneg (x y : Number) :
  is_nonneg x = true -> is_finite_pos y = true -> is_nonneg (JS.mul x y) = true.
Proof.
  destruct y as [sy|sy| |[|] my ey]; simpl; try discriminate. intros Hx _.
  destruct x as [sx|[|]| |[|] mx ex]; simpl in *; try discriminate;
    try reflexivity.
  apply has_sign_nonneg. unfold JS.mul, SFmul.
  apply binary_round_aux_sign. lia.
Qed.

Lemma div_nonneg (x y : Number) :
  is_nonneg x = true -> is_finite_pos y = true -> is_nonneg (JS.div x y) = true.
Proof.
  destruct y as [sy|sy| |[|] my ey]; simpl; try discriminate. intros Hx _.
  destruct x as [sx|[|]| |[|] mx ex]; simpl in *; try discriminate;
    try reflexivity.
  apply has_sign_nonneg. unfold JS.div, SFdiv.
  destruct (SFdiv_core_binary JS.prec JS.emax (Z.pos mx) ex (Z.pos my) ey)
    as [[mz ez] lz] eqn:E.
  apply binary_round_aux_sign.
  unfold SFdiv_core_binary in E. cbv zeta in E.
  match type of E with
  | (let '(q, r) := Z.div_eucl ?a ?b in _) = _ =>
      pose proof (Z_div_mod a b) as D;
      assert (Ha : (0 <= a)%Z);
      [|destruct (Z.div_eucl a b) as [q r]]
  end.
  - destruct (ex - ey - _)%Z; try lia. apply Z.shiftl_nonneg. lia.
  - inversion E; subst. specialize (D ltac:(lia)). nia.
Qed.

Lemma add_nonneg (x y : Number) :
  is_nonneg x = true -> is_nonneg y = true -> is_nonneg (JS.add x y) = true.
Proof.
  destruct x as [sx|[|]| |[|] mx ex], y as [sy|[|]| |[|] my ey]; simpl;
    try discriminate; try reflexivity; intros _ _.
  - destruct sx, sy; reflexivity.
  - apply has_sign_nonneg. unfold JS.add, SFadd. cbv zeta. simpl cond_Zopp.
    unfold binary_normalize. apply binary_round_sign.
Qed.

Lemma nonneg_min_ok (x : Number) : is_nonneg x = true -> min_ok 0 x = true.
Proof.
  unfold min_ok. rewrite of_Z_0.
  destruct x as [s|[|]| |[|] m e]; simpl; try discriminate; reflexivity.
Qed.

Lemma nonneg_number_ok (x : Number) : is_nonneg x = true -> number_ok x = true.
Proof. destruct x; simpl; try discriminate; reflexivity. Qed.

Lemma finite_nonneg_nonneg (x : Number) :
  is_finite_nonneg x = true -> is_nonneg x = true.
Proof. destruct x as [s|s| |[|] m e]; simpl; try discriminate; reflexivity. Qed.

Lemma sub_zero_nonneg (x : Number) :
  is_nonneg x = true -> is_nonneg (JS.sub x JS.zero) = true.
Proof.
  destruct x as [s|[|]| |[|] m e]; simpl; try discriminate; try reflexivity.
  destruct s; reflexivity.
Qed.

(** ** When an order is accepted *)

Lemma gst_of_nonneg (t : Number) :
  is_nonneg t = true -> is_nonneg (gst_of t) = true.
Proof.
  intros H. unfold gst_of.
  apply div_nonneg; [|reflexivity]. apply mul_nonneg; [exact H|reflexivity].
Qed.

Lemma itemTotal_nonneg (p : Product) (item : OrderItemReq) :
  product_ok p = true -> is_finite_pos (req_quantity item) = true ->
  is_nonneg (itemTotal_of (p_price p) (req_quantity item)) = true.
Proof.
  intros Hp Hq. unfold itemTotal_of. apply mul_nonneg; [|exact Hq].
  unfold product_ok in Hp. apply andb_prop in Hp. destruct Hp as [_ Hp].
  apply finite_nonneg_nonneg. exact Hp.
Qed.

Lemma validate_item_process (p : Product) (item : OrderItemReq) :
  product_ok p = true ->
  is_finite_pos (req_quantity item) = true ->
  min_ok 1 (req_quantity item) = true ->
  validate_item (process_item p item) = true.
Proof.
  intros Hp Hq Hm.
  pose proof (itemTotal_nonneg p item Hp Hq) as Ht.
  pose proof (gst_of_nonneg _ Ht) as Hg.
  unfold product_ok in Hp.
  repeat (apply andb_prop in Hp; destruct Hp as [Hp ?]).
  unfold validate_item, process_item.
  cbn [productName sku quantity unit unitPrice discount gstRate gstAmount
       totalAmount].
  repeat (apply andb_true_intro; split); try assumption.
  - apply nonneg_min_ok, finite_nonneg_nonneg. assumption.
  - reflexivity.
  - reflexivity.
  - apply nonneg_number_ok. exact Hg.
  - apply nonneg_number_ok, add_nonneg; assumption.
Qed.

Lemma price_items_accepts (ps : list Product) (its : list OrderItemReq) :
  Forall (item_ok ps) its ->
  forall acc,
    is_nonneg (acc_subtotal acc) = true ->
    is_nonneg (acc_totalGst acc) = true ->
    forallb validate_item (processedItems acc) = true ->
    exists acc',
      price_items ps its acc = inr acc'
      /\ is_nonneg (acc_subtotal acc') = true
      /\ is_nonneg (acc_totalGst acc') = true
      /\ forallb validate_item (processedItems acc') = true.
Proof.
  induction 1 as [|item its (p & F & Hp & Hq & Hm) _ IH]; intros acc Hs Hg Hv.
  - exists acc. simpl. auto.
  - simpl. rewrite F.
    pose proof (itemTotal_nonneg p item Hp Hq) as Ht.
    apply IH; cbn [acc_subtotal acc_totalGst processedItems].
    + apply add_nonneg; assumption.
    + apply add_nonneg; [assumption|apply gst_of_nonneg; assumption].
    + rewrite forallb_app, Hv. simpl.
      rewrite (validate_item_process p item Hp Hq Hm). reflexivity.
Qed.

Lemma payment_status_enum (a g : Number) :
  enum_ok paymentStatus_enum (payment_status a g) = true.
Proof.
  unfold payment_status.
  destruct (JS.ge a g); [reflexivity|]. destruct (JS.gt a JS.zero); reflexivity.
Qed.

(** Under the stated conditions the schema leaves only the two payment
    fields to decide. *)
Lemma validate_new_order today user req db acc :
  notEmpty (trim (c_name (req_customer req))) = true ->
  is_nonneg (acc_subtotal acc) = true ->
  is_nonneg (acc_totalGst acc) = true ->
  forallb validate_item (processedItems acc) = true ->
  enum_ok paymentMethod_enum
          (or_default_string (req_paymentMethod req) "cash") = true ->
  maxlength_ok 1000 (req_notes req) = true ->
  validate_order (new_order today user req db acc)
  = min_ok 0 (amountPaid (new_order today user req db acc))
    && min_ok 0 (amountDue (new_order today user req db acc)).
Proof.
  intros Hn Hs Hg Hv Hm Hl.
  assert (Hnum : required_string (generateOrderNumber today (orders db)) = true).
  { pose proof (generated_identifier_nonempty "ORD" today
                  (count_prefixed (month_prefix "ORD" today)
                     (map (fun o => Some (orderNumber o)) (orders db)))) as G.
    unfold generateOrderNumber. cbv zeta.
    destruct (next_identifier _ _); [exfalso; apply G; [discriminate|reflexivity]|].
    reflexivity. }
  unfold validate_order, new_order.
  cbn [orderNumber customer c_name items subtotal totalDiscount totalGst
       grandTotal paymentMethod paymentStatus amountPaid amountDue status
       notes].
  unfold notEmpty in Hn. unfold required_string at 2.
  rewrite Hnum, Hn, Hv, (nonneg_min_ok _ Hs), (nonneg_min_ok _ Hg),
    (nonneg_min_ok _ (add_nonneg _ _ Hs Hg)), Hm, payment_status_enum, Hl.
  change (min_ok 0 JS.zero) with true.
  change (enum_ok status_enum "confirmed") with true.
  cbn [andb]. rewrite !Bool.andb_true_r. reflexivity.
Qed.

Lemma unique_new_order today user req db acc :
  dated db -> valid_date today ->
  unique_ok (new_order today user req db acc) (orders db) = true.
Proof.
  intros Hd Ht. destruct (dated_sequenced db Hd) as [So _].
  pose proof (sequenced_fresh "ORD" _ today So Ht) as Fo.
  apply unique_ok_intro. intros y Hy. right.
  unfold index_clash, new_order. cbn [orderNumber invoiceNumber].
  rewrite Bool.orb_false_r. apply String.eqb_neq. intros E. apply Fo.
  change (next_identifier _ _) with (generateOrderNumber today (orders db)).
  rewrite <- E. apply (in_map (fun o => Some (orderNumber o))). exact Hy.
Qed.

(** X8. When requests are served one after the other, a creation request
    whose customer name is not blank (not empty once its white space, the
    no-break space included, is trimmed), whose items (at least one) all
    resolve to well-formed products with finite prices and carry finite
    quantities of at least 1, whose payment method is absent or one of the
    five known ones and whose notes fit in 1000 characters is priced, and
    it is stored
    (201) exactly when the paid amount and the resulting amount due are
    both at least 0; otherwise it is answered 500 and nothing is stored.
    Without advance payment it is always stored, appended to the orders with
    status confirmed and payment status pending or paid. *)
Theorem X8_valid_order_is_accepted today user req db :
  dated db -> valid_date today ->
  notEmpty (trim (c_name (req_customer req))) = true ->
  req_items req <> [] ->
  Forall (item_ok (products db)) (req_items req) ->
  enum_ok paymentMethod_enum
          (or_default_string (req_paymentMethod req) "cash") = true ->
  maxlength_ok 1000 (req_notes req) = true ->
  exists acc,
    price_items (products db) (req_items req) (mkPricing JS.zero JS.zero [])
    = inr acc
    /\ (min_ok 0 (amountPaid (new_order today user req db acc))
        && min_ok 0 (amountDue (new_order today user req db acc)) = true ->
        create_order today user req db
        = (mkResponse 201
             (BOrder "Order created" (new_order today user req db acc)),
           mkDB (products db)
                (orders db ++ [new_order today user req db acc])
                (movements db)))
    /\ (min_ok 0 (amountPaid (new_order today user req db acc))
        && min_ok 0 (amountDue (new_order today user req db acc)) = false ->
        create_order today user req db = (server_error, db))
    /\ (JS.or_default (req_amountPaid req) JS.zero = JS.zero ->
        create_order today user req db
        = (mkResponse 201
             (BOrder "Order created" (new_order today user req db acc)),
           mkDB (products db)
                (orders db ++ [new_order today user req db acc])
                (movements db))
        /\ status (new_order today user req db acc) = "confirmed"
        /\ amountDue (new_order today user req db acc)
           = JS.sub (grandTotal (new_order today user req db acc)) JS.zero
        /\ In (paymentStatus (new_order today user req db acc))
              ["pending"; "paid"]).
Proof.
  intros Hd Ht Hn Hne Hits Hm Hl.
  destruct (price_items_accepts _ _ Hits (mkPricing JS.zero JS.zero [])
              eq_refl eq_refl eq_refl) as (acc & P & Hs & Hg & Hv).
  exists acc. split; [exact P|].
  pose proof (validate_new_order today user req db acc Hn Hs Hg Hv Hm Hl) as V.
  pose proof (unique_new_order today user req db acc Hd Ht) as U.
  assert (Run : create_order today user req db
                = match Order_save (new_order today user req db acc) db with
                  | Some db' =>
                      (mkResponse 201
                         (BOrder "Order created"
                                 (new_order today user req db acc)), db')
                  | None => (server_error, db)
                  end).
  { unfold create_order. rewrite Hn.
    destruct (req_items req) as [|i0 rest] eqn:Eits; [congruence|].
    simpl negb. cbv iota. rewrite P. reflexivity. }
  assert (Ok : min_ok 0 (amountPaid (new_order today user req db acc))
               && min_ok 0 (amountDue (new_order today user req db acc)) = true ->
               create_order today user req db
               = (mkResponse 201
                    (BOrder "Order created" (new_order today user req db acc)),
                  mkDB (products db)
                       (orders db ++ [new_order today user req db acc])
                       (movements db))).
  { intros E. rewrite Run, Order_save_accepts; [|rewrite V; exact E|exact U].
    rewrite upsert_fresh; [reflexivity|].
    intros x Hx. simpl. apply fresh_id_above in Hx. lia. }
  split; [exact Ok|]. split.
  - intros E. rewrite Run, Order_save_rejects; [reflexivity|].
    rewrite V. exact E.
  - intros Ep. split; [|split; [reflexivity|split]].
    + apply Ok. unfold new_order. cbn [amountPaid amountDue]. rewrite Ep.
      change (min_ok 0 JS.zero) with true. cbn [andb].
      apply nonneg_min_ok, sub_zero_nonneg, add_nonneg; assumption.
    + unfold new_order. cbn [amountDue grandTotal]. rewrite Ep. reflexivity.
    + unfold new_order. cbn [paymentStatus]. rewrite Ep.
      unfold payment_status.
      destruct (JS.ge JS.zero _); simpl; tauto.
Qed.

Lemma X8_valid_order_is_accepted_witness :
  exists o,
    create_order (mkDate 2026 11) 9 scenario_request scenario_db1
    = (mkResponse 201 (BOrder "Order created" o),
       mkDB (products scenario_db1) (orders scenario_db1 ++ [o])
            (movements scenario_db1))
    /\ status o = "confirmed".
Proof.
  assert (Hi : Forall (item_ok (products scenario_db1))
                      (req_items scenario_request)).
  { repeat constructor.
    - exists (mkProduct 1 "steel-tmt-12" "TMT bar 12mm" (JS.of_Z 65000)
                        "ton" true
                         "steel" "tmt-12.jpg" "TMT bar, 12 mm" []).
      repeat split; vm_compute; reflexivity.
    - exists (mkProduct 2 "elec-wire-1" "Copper wire" (JS.of_Z 58)
                        "metre" true
                         "electronics" "wire-1.jpg" "Copper wire, 1 sq mm" []).
      repeat split; vm_compute; reflexivity. }
  assert (Ht : valid_date (mkDate 2026 11))
    by (unfold valid_date; simpl; lia).
  destruct (X8_valid_order_is_accepted (mkDate 2026 11) 9 scenario_request
              scenario_db1 scenario_db1_dated Ht eq_refl
              ltac:(discriminate) Hi eq_refl eq_refl)
    as (acc & _ & _ & _ & A).
  destruct (A eq_refl) as (C & S & _).
  eexists. split; [exact C|exact S].
Defined.

(** ** Adjustments and damage *)

Lemma pos_iter_xO (m d : positive) :
  Zpos (Pos.iter xO m d) = (Zpos m * 2 ^ Zpos d)%Z.
Proof.
  induction d as [|d IH] using Pos.peano_ind.
  - simpl. lia.
  - rewrite Pos.iter_succ, Pos2Z.inj_xO, IH, Pos2Z.inj_succ, Z.pow_succ_r; lia.
Qed.

Lemma shl_align_value (m : positive) (e ez : Z) :
  (ez <= e)%Z ->
  Zpos (fst (shl_align m e ez)) = (Zpos m * 2 ^ (e - ez))%Z.
Proof.
  intros H. unfold shl_align.
  destruct (ez - e)%Z as [|d|d] eqn:E.
  - replace (e - ez)%Z with 0%Z by lia. simpl. lia.
  - lia.
  - replace (e - ez)%Z with (Zpos d) by lia. simpl fst. apply pos_iter_xO.
Qed.

(** A quantity accepted by [isInt({ min: 1 })] is worth at least 1. *)
Lemma isInt_min1_value (m p : positive) :
  isInt_min1 (S754_finite false m (Zneg p)) = true ->
  (2 ^ Zpos p <= Zpos m)%Z.
Proof.
  unfold isInt_min1, JS.to_Z, JS.to_Q.
  destruct (Qeq_bool _ _); [|discriminate].
  intros H. apply andb_prop in H. destruct H as [H _]. apply Z.leb_le in H.
  unfold Qfloor in H. rewrite Pos2Z.inj_pow in H.
  destruct (Z_lt_le_dec (Zpos m) (2 ^ Zpos p)) as [L|L]; [|exact L].
  rewrite Z.div_small in H; lia.
Qed.

Lemma isInt_min1_at_least_one (q : Number) :
  isInt_min1 q = true -> at_least_one q.
Proof.
  intros Hq. destruct (isInt_min1_finite q Hq) as (m & e & ->).
  destruct e as [|p|p]; cbn [at_least_one].
  - left. lia.
  - left. lia.
  - right. apply (isInt_min1_value m p Hq).
Qed.

(** Taking a number worth at least 1 from 1 or from 0 leaves nothing
    above zero. *)
Lemma minus_at_least_one (x : Number) :
  at_least_one x ->
  JS.Math_max JS.zero (JS.sub (JS.of_Z 1) x) = JS.zero
  /\ JS.Math_max JS.zero (JS.sub JS.zero x) = JS.zero.
Proof.
  destruct x as [s|[|]| |[|] m e]; cbn [at_least_one]; try tauto;
    intros W; split; try reflexivity.
  rewrite of_Z_1. unfold JS.sub, SFsub. cbv zeta. simpl cond_Zopp.
  set (ez := Z.min (-52) e).
  assert (Hle : (Zpos (fst (shl_align 4503599627370496 (-52) ez))
                 <= Zpos (fst (shl_align m e ez)))%Z).
  { rewrite !shl_align_value by (unfold ez; lia).
    change (Zpos 4503599627370496) with (2 ^ 52)%Z.
    rewrite <- Z.pow_add_r by (unfold ez; lia).
    replace (52 + (-52 - ez))%Z with (- ez)%Z by lia.
    assert (P : (0 < 2 ^ (e - ez))%Z)
      by (apply Z.pow_pos_nonneg; unfold ez; lia).
    destruct W as [W|W].
    - apply Z.le_trans with (1 * 2 ^ (e - ez))%Z; [|nia].
      rewrite Z.mul_1_l. apply Z.pow_le_mono_r; unfold ez; lia.
    - destruct (Z_le_gt_dec 0 e) as [G|G].
      + apply Z.le_trans with (1 * 2 ^ (e - ez))%Z; [|nia].
        rewrite Z.mul_1_l. apply Z.pow_le_mono_r; unfold ez; lia.
      + apply Z.le_trans with (2 ^ (- e) * 2 ^ (e - ez))%Z; [|nia].
        rewrite <- Z.pow_add_r by (unfold ez; lia).
        apply Z.pow_le_mono_r; unfold ez; lia. }
  destruct (Zpos (fst (shl_align 4503599627370496 (-52) ez))
            - Zpos (fst (shl_align m e ez)))%Z as [|d|d] eqn:D.
  - reflexivity.
  - lia.
  - unfold binary_normalize.
    pose proof (binary_round_sign true d ez) as S.
    destruct (binary_round JS.prec JS.emax true d ez) as [s|s| |s m' e'];
      simpl in S; try tauto; subst s; reflexivity.
Qed.

(** *** Integers read from a text are rounded to numbers worth as much *)

Lemma iter_pos_nat {A} (f : A -> A) (n : positive) (x : A) :
  SpecFloat.iter_pos f n x = Nat.iter (Pos.to_nat n) f x.
Proof.
  revert x. induction n as [n IH|n IH|]; intros x; cbn [SpecFloat.iter_pos].
  - rewrite !IH, Pos2Nat.inj_xI. cbn [Nat.mul]. rewrite Nat.add_0_r.
    rewrite Nat.iter_succ_r, Nat.iter_add. reflexivity.
  - rewrite !IH, Pos2Nat.inj_xO. cbn [Nat.mul]. rewrite Nat.add_0_r.
    rewrite Nat.iter_add. reflexivity.
  - reflexivity.
Qed.

Lemma shr_1_half (mrs : shr_record) :
  (0 <= shr_m mrs)%Z -> shr_m (shr_1 mrs) = (shr_m mrs / 2)%Z.
Proof.
  destruct mrs as [m r s]. cbn [shr_m]. intros H.
  destruct m as [|[p|p|]|p]; cbn [shr_1 shr_m];
    try (rewrite <- Z.div2_div; reflexivity); lia.
Qed.

Lemma worth_half (m e : Z) :
  (0 <= m)%Z ->
  (0 <= e)%Z \/ (2 ^ (- e) <= m)%Z ->
  (0 <= e + 1)%Z \/ (2 ^ (- (e + 1)) <= m / 2)%Z.
Proof.
  intros Hm [H|H]; [left; lia|].
  destruct (Z_le_gt_dec 0 (e + 1)) as [G|G]; [left; lia|right].
  apply Z.div_le_lower_bound; [lia|].
  replace (- e)%Z with (Z.succ (- (e + 1))) in H by lia.
  rewrite Z.pow_succ_r in H by lia. lia.
Qed.

Lemma iter_shr_worth (k : nat) (mrs : shr_record) (e : Z) :
  (0 <= shr_m mrs)%Z ->
  (0 <= e)%Z \/ (2 ^ (- e) <= shr_m mrs)%Z ->
  (0 <= shr_m (Nat.iter k shr_1 mrs))%Z
  /\ ((0 <= e + Z.of_nat k)%Z
      \/ (2 ^ (- (e + Z.of_nat k)) <= shr_m (Nat.iter k shr_1 mrs))%Z).
Proof.
  intros Hm W. induction k as [|k [IH1 IH2]].
  - change (Nat.iter 0 shr_1 mrs) with mrs. rewrite Z.add_0_r. auto.
  - rewrite Nat.iter_succ, (shr_1_half _ IH1). split.
    + apply Z.div_pos; lia.
    + replace (e + Z.of_nat (S k))%Z with (e + Z.of_nat k + 1)%Z by lia.
      apply worth_half; assumption.
Qed.

Lemma shr_fexp_worth (m e : Z) (l : location) :
  (0 <= m)%Z ->
  (0 <= e)%Z \/ (2 ^ (- e) <= m)%Z ->
  (0 <= shr_m (fst (shr_fexp JS.prec JS.emax m e l)))%Z
  /\ ((0 <= snd (shr_fexp JS.prec JS.emax m e l))%Z
      \/ (2 ^ (- snd (shr_fexp JS.prec JS.emax m e l))
          <= shr_m (fst (shr_fexp JS.prec JS.emax m e l)))%Z).
Proof.
  intros Hm W. unfold shr_fexp, shr.
  assert (E : shr_m (shr_record_of_loc m l) = m)
    by (destruct l as [|[]]; reflexivity).
  destruct (fexp JS.prec JS.emax (Zdigits2 m + e) - e)%Z as [|n|n];
    cbn [fst snd]; rewrite ?E; auto.
  rewrite iter_pos_nat, <- (positive_nat_Z n).
  apply iter_shr_worth; rewrite E; assumption.
Qed.

Lemma round_nearest_even_above (m : Z) (l : location) :
  (m <= round_nearest_even m l)%Z.
Proof.
  destruct l as [|[]]; cbn [round_nearest_even]; try lia.
  destruct (Z.even m); lia.
Qed.

Lemma binary_round_aux_worth (s : bool) (m e : Z) (l : location) :
  (0 <= m)%Z ->
  (0 <= e)%Z \/ (2 ^ (- e) <= m)%Z ->
  forall s' m' e',
    binary_round_aux JS.prec JS.emax s m e l = S754_finite s' m' e' ->
    (0 <= e')%Z \/ (2 ^ (- e') <= Zpos m')%Z.
Proof.
  intros Hm W s' m' e'. unfold binary_round_aux.
  destruct (shr_fexp_worth m e l Hm W) as [P1 W1].
  destruct (shr_fexp JS.prec JS.emax m e l) as [mrs1 e1]. cbn [fst snd] in *.
  set (m2 := round_nearest_even (shr_m mrs1) (loc_of_shr_record mrs1)).
  assert (G : (shr_m mrs1 <= m2)%Z) by apply round_nearest_even_above.
  assert (P2 : (0 <= m2)%Z) by lia.
  assert (W2 : (0 <= e1)%Z \/ (2 ^ (- e1) <= m2)%Z)
    by (destruct W1; [left; assumption|right; lia]).
  destruct (shr_fexp_worth m2 e1 loc_Exact P2 W2) as [P3 W3].
  destruct (shr_fexp JS.prec JS.emax m2 e1 loc_Exact) as [mrs3 e3].
  cbn [fst snd] in *.
  destruct (shr_m mrs3) as [|q|q]; try discriminate.
  destruct (e3 <=? _)%Z; [|discriminate].
  intros H. inversion H; subst. exact W3.
Qed.

Lemma of_Z_worth (p : positive) (s : bool) (m : positive) (e : Z) :
  JS.of_Z (Zpos p) = S754_finite s m e ->
  (0 <= e)%Z \/ (2 ^ (- e) <= Zpos m)%Z.
Proof.
  unfold JS.of_Z, binary_normalize, binary_round.
  set (ez := fexp JS.prec JS.emax (Zpos (digits2_pos p) + 0)).
  unfold shl_align.
  destruct (ez - 0)%Z as [|d|d] eqn:D.
  - apply binary_round_aux_worth; [lia|left; lia].
  - apply binary_round_aux_worth; [lia|left; lia].
  - apply binary_round_aux_worth; [lia|right].
    rewrite pos_iter_xO. replace ez with (Zneg d) by lia. cbn [Z.opp].
    assert (0 < 2 ^ Zpos d)%Z by (apply Z.pow_pos_nonneg; lia). nia.
Qed.

Lemma of_N_at_least_one (n : N) :
  JS.ge (JS.of_Z (Z.of_N n)) (JS.of_Z 1) = true ->
  at_least_one (JS.of_Z (Z.of_N n)).
Proof.
  destruct n as [|p]; [vm_compute; discriminate|]. cbn [Z.of_N].
  pose proof (of_Z_worth p) as Wp.
  pose proof (binary_round_sign false p 0) as S.
  change (binary_round JS.prec JS.emax false p 0) with (JS.of_Z (Zpos p)) in S.
  destruct (JS.of_Z (Zpos p)) as [s|s| |s m e]; cbn [has_sign] in S;
    try tauto; subst s; intros G.
  - vm_compute in G. discriminate.
  - exact I.
  - cbn [at_least_one]. apply (Wp false m e eq_refl).
Qed.

Lemma opp_below_one (n : N) :
  JS.ge (SFopp (JS.of_Z (Z.of_N n))) (JS.of_Z 1) = false.
Proof.
  destruct n as [|p]; [vm_compute; reflexivity|]. cbn [Z.of_N].
  pose proof (binary_round_sign false p 0) as S.
  change (binary_round JS.prec JS.emax false p 0) with (JS.of_Z (Zpos p)) in S.
  destruct (JS.of_Z (Zpos p)) as [s|s| |s m e]; cbn [has_sign] in S;
    try tauto; subst s; reflexivity.
Qed.

Lemma Number_of_text_shape (s : string) :
  Number_of_text s = S754_nan
  \/ (exists n, Number_of_text s = JS.of_Z (Z.of_N n))
  \/ (exists n, Number_of_text s = SFopp (JS.of_Z (Z.of_N n))).
Proof.
  unfold Number_of_text. destruct s as [|c t].
  - cbn [digits_value]. left. reflexivity.
  - destruct c as [[|] [|] [|] [|] [|] [|] [|] [|]];
      match goal with
      | |- context [digits_value ?x] =>
          destruct (digits_value x) as [n|]; eauto
      end.
Qed.

Lemma isInt_min1_text_ge (s : string) :
  isInt_min1_text s = true -> JS.ge (Number_of_text s) (JS.of_Z 1) = true.
Proof.
  unfold isInt_min1_text.
  destruct (match s with
            | String "+" t | String "-" t => digits_value t
            | _ => digits_value s
            end); [tauto|discriminate].
Qed.

(** The number a validated quantity stands for is worth at least 1. *)
Lemma quantity_at_least_one (q : Quantity) :
  isInt_min1_quantity q = true -> at_least_one (ToNumber q).
Proof.
  destruct q as [n|s]; cbn [isInt_min1_quantity ToNumber].
  - apply isInt_min1_at_least_one.
  - intros H. apply isInt_min1_text_ge in H.
    destruct (Number_of_text_shape s) as [E|[[n E]|[n E]]]; rewrite E in *.
    + vm_compute in H. discriminate.
    + apply of_N_at_least_one. exact H.
    + rewrite opp_below_one in H. discriminate.
Qed.

Lemma stock_adjustment_quantity user req db msg m db' :
  stock_adjustment user req db = (mkResponse 201 (BMovement msg m), db') ->
  isInt_min1_quantity (adj_quantity req) = true.
Proof.
  unfold stock_adjustment.
  destruct (notEmpty (adj_productId req)); [|discriminate].
  destruct (isInt_min1_quantity (adj_quantity req));
    [reflexivity|discriminate].
Qed.

(** X9. Every accepted adjustment of kind adjustment or damage records
    newStock 0 (previousStock being 1 or 0 by the inStock flag, and the
    quantity at least 1) and leaves the product marked out of stock,
    whatever the quantity. *)
Theorem X9_adjustment_empties_stock user req db p msg m db' :
  Product_findOne (products db) (adj_productId req) = Some p ->
  adj_type req <> "return" ->
  stock_adjustment user req db = (mkResponse 201 (BMovement msg m), db') ->
  In (m_type m) ["adjustment"; "damage"]
  /\ previousStock m = (if p_inStock p then JS.of_Z 1 else JS.zero)
  /\ newStock m = JS.zero
  /\ movements db' = (movements db ++ [m])%list
  /\ Product_findOne (products db') (adj_productId req)
     = Some (set_inStock false p).
Proof.
  intros F Hk H.
  pose proof (stock_adjustment_quantity _ _ _ _ _ _ H) as Q.
  apply quantity_at_least_one, minus_at_least_one in Q.
  destruct Q as [Q1 Q0].
  destruct (stock_adjustment_recorded _ _ _ _ _ _ H) as (p1 & F1 & T & E & D).
  rewrite F in F1. inversion F1; subst p1. clear F1.
  assert (N : newStock m = JS.zero).
  { subst m. unfold adjustment_movement. cbn [newStock].
    apply String.eqb_neq in Hk. rewrite Hk. unfold flag_stock.
    destruct (p_inStock p); assumption. }
  rewrite N in D. change (JS.gt JS.zero JS.zero) with false in D.
  destruct (movements_after_save _ _ _ D) as [M _].
  split; [|split; [|split; [|split]]].
  - subst m. cbn [adjustment_movement m_type].
    apply enum_ok_In in T. simpl in T. simpl.
    destruct T as [T|[T|[T|[]]]]; try (exfalso; congruence); auto.
  - subst m. reflexivity.
  - exact N.
  - exact M.
  - apply (findOne_after_save p (set_inStock false p)
             (mkDB (products db) (orders db) (movements db ++ [m])));
      [assumption|reflexivity| |exact D].
    unfold Product_findOne in F. apply find_some in F.
    destruct F as [_ F]. apply String.eqb_eq in F. exact F.
Qed.

Lemma X9_adjustment_empties_stock_witness :
  exists m db',
    stock_adjustment 7
      (mkAdjustmentReq "steel-tmt-12" (QNumber (JS.of_Z 1)) "damage" None) scenario_db
    = (mkResponse 201
         (BMovement "Stock adjustment recorded successfully" m), db')
    /\ previousStock m = JS.of_Z 1
    /\ newStock m = JS.zero
    /\ option_map p_inStock (Product_findOne (products db') "steel-tmt-12")
       = Some false.
Proof.
  assert (H : exists m db',
             stock_adjustment 7
               (mkAdjustmentReq "steel-tmt-12" (QNumber (JS.of_Z 1)) "damage" None)
               scenario_db
             = (mkResponse 201
                  (BMovement "Stock adjustment recorded successfully" m), db'))
    by (vm_compute; eauto).
  destruct H as (m & db' & H). exists m, db'.
  destruct (X9_adjustment_empties_stock 7
              (mkAdjustmentReq "steel-tmt-12" (QNumber (JS.of_Z 1)) "damage" None)
              scenario_db
              (mkProduct 1 "steel-tmt-12" "TMT bar 12mm" (JS.of_Z 65000)
                         "ton" true
                         "steel" "tmt-12.jpg" "TMT bar, 12 mm" [])
              _ m db' eq_refl ltac:(discriminate) H)
    as (_ & P & N & _ & F).
  repeat split; try assumption.
  cbn [adj_productId] in F. rewrite F. reflexivity.
Defined.
(** ** Stock-in followed by stock-out *)

Lemma findOne_id (ps : list Product) (id : string) (p : Product) :
  Product_findOne ps id = Some p -> p_id p = id.
Proof.
  unfold Product_findOne. intros F. apply find_some in F.
  destruct F as [_ F]. apply String.eqb_eq in F. exact F.
Qed.

(** X10. An accepted stock-in followed by an accepted stock-out of the same
    product leaves the product marked out of stock whatever the two
    quantities are: the stock-out records its own quantity as previousStock
    and 0 as newStock, the quantity received just before playing no part.
    The ledger gains the two records in order and the orders are left
    alone. *)
Theorem X10_stock_in_then_out u1 req1 u2 req2 db msg1 m1 db1 msg2 m2 db2 :
  out_productId req2 = in_productId req1 ->
  stock_in u1 req1 db = (mkResponse 201 (BMovement msg1 m1), db1) ->
  stock_out u2 req2 db1 = (mkResponse 201 (BMovement msg2 m2), db2) ->
  exists p,
    Product_findOne (products db) (in_productId req1) = Some p
    /\ Product_findOne (products db1) (in_productId req1)
       = Some (set_inStock true p)
    /\ previousStock m2 = out_quantity req2
    /\ newStock m2 = JS.zero
    /\ movements db2 = (movements db ++ [m1; m2])%list
    /\ orders db2 = orders db
    /\ Product_findOne (products db2) (in_productId req1)
       = Some (set_inStock false p).
Proof.
  intros Eid H1 H2.
  destruct (stock_in_recorded _ _ _ _ _ _ H1) as (p & F & E1 & D1).
  pose proof (findOne_id _ _ _ F) as Pid.
  assert (F1 : Product_findOne (products db1) (in_productId req1)
               = Some (set_inStock true p)).
  { apply (findOne_after_save p (set_inStock true p)
             (mkDB (products db) (orders db) (movements db ++ [m1])));
      [exact F|reflexivity|exact Pid|exact D1]. }
  destruct (movements_after_save _ _ _ D1) as [M1 O1].
  destruct (stock_out_recorded _ _ _ _ _ _ H2) as (p1 & F2 & Q & E2 & D2).
  rewrite Eid, F1 in F2. inversion F2; subst p1. clear F2.
  destruct (isInt_min1_finite _ Q) as (mq & eq & Eq).
  assert (N : newStock m2 = JS.zero).
  { rewrite E2. unfold out_movement. cbn [newStock set_inStock p_inStock].
    rewrite Eq. rewrite sub_diag_finite. reflexivity. }
  rewrite N in D2. change (JS.le JS.zero JS.zero) with true in D2.
  cbv iota in D2.
  destruct (movements_after_save _ _ _ D2) as [M2 O2].
  cbn [movements orders] in M1, O1, M2, O2.
  exists p. split; [exact F|]. split; [exact F1|].
  split; [rewrite E2; reflexivity|]. split; [exact N|].
  split; [|split].
  - rewrite M2, M1, <- app_assoc. reflexivity.
  - rewrite O2, O1. reflexivity.
  - apply (findOne_after_save (set_inStock true p)
             (set_inStock false (set_inStock true p))
             (mkDB (products db1) (orders db1) (movements db1 ++ [m2])));
      [exact F1|reflexivity|exact Pid|exact D2].
Qed.

Lemma X10_stock_in_then_out_witness :
  exists m1 db1 m2 db2,
    stock_in 7 (mkStockInReq "steel-tmt-12" (QNumber (JS.of_Z 100)) None None None None)
             scenario_db
    = (mkResponse 201 (BMovement "Stock in recorded successfully" m1), db1)
    /\ stock_out 7 (mkStockOutReq "steel-tmt-12" (JS.of_Z 1) None None) db1
       = (mkResponse 201 (BMovement "Stock out recorded successfully" m2), db2)
    /\ newStock m1 = JS.of_Z 101
    /\ previousStock m2 = JS.of_Z 1
    /\ newStock m2 = JS.zero
    /\ option_map p_inStock (Product_findOne (products db2) "steel-tmt-12")
       = Some false.
Proof.
  assert (H1 : exists m1 db1,
             stock_in 7 (mkStockInReq "steel-tmt-12" (QNumber (JS.of_Z 100))
                                      None None None None) scenario_db
             = (mkResponse 201
                  (BMovement "Stock in recorded successfully" m1), db1)
             /\ newStock m1 = JS.of_Z 101
             /\ exists m2 db2,
                 stock_out 7 (mkStockOutReq "steel-tmt-12" (JS.of_Z 1)
                                            None None) db1
                 = (mkResponse 201
                      (BMovement "Stock out recorded successfully" m2), db2)).
  { eexists. eexists. split; [vm_compute; reflexivity|].
    split; [vm_compute; reflexivity|].
    eexists. eexists. vm_compute. reflexivity. }
  destruct H1 as (m1 & db1 & H1 & N1 & m2 & db2 & H2).
  exists m1, db1, m2, db2.
  destruct (X10_stock_in_then_out 7
              (mkStockInReq "steel-tmt-12" (QNumber (JS.of_Z 100)) None None None None)
              7 (mkStockOutReq "steel-tmt-12" (JS.of_Z 1) None None)
              scenario_db _ m1 db1 _ m2 db2 eq_refl H1 H2)
    as (p & _ & _ & P2 & N2 & _ & _ & F).
  repeat split; try assumption.
  cbn [in_productId] in F. rewrite F. reflexivity.
Defined.

(** ** When a stock request is accepted *)

Lemma digits2_pos_bound (m : positive) :
  (Zpos m < 2 ^ Zpos (digits2_pos m))%Z.
Proof.
  induction m as [m IH|m IH|]; cbn [digits2_pos].
  - rewrite Pos2Z.inj_succ, Z.pow_succ_r by lia. lia.
  - rewrite Pos2Z.inj_succ, Z.pow_succ_r by lia. lia.
  - reflexivity.
Qed.

(** A binary64 quantity accepted by [isInt({ min: 1 })] passes the schema's
    [min: 1]. *)
Lemma quantity_min_ok (q : Number) :
  valid_binary JS.prec JS.emax q = true ->
  isInt_min1 q = true -> min_ok 1 q = true.
Proof.
  intros V Q.
  destruct (isInt_min1_finite _ Q) as (m & e & ->).
  unfold min_ok, JS.ge, JS.le, SFleb.
  change (JS.of_Z 1) with (S754_finite false 4503599627370496 (-52)).
  cbn [SFcompare].
  destruct e as [|p|p]; try reflexivity.
  pose proof (isInt_min1_value m p Q) as B.
  pose proof (digits2_pos_bound m) as D.
  cbn [valid_binary] in V. unfold bounded, canonical_mantissa in V.
  apply andb_prop in V. destruct V as [V _].
  apply Z.eqb_eq in V. unfold fexp, emin, JS.prec, JS.emax in V.
  assert (P : (Zpos p < Zpos (digits2_pos m))%Z).
  { apply (Z.pow_lt_mono_r_iff 2); lia. }
  assert (L : (Zpos p <= 52)%Z) by lia.
  destruct (Z.compare_spec (-52) (Zneg p)) as [E|E|E]; try reflexivity.
  - inversion E; subst p.
    change (Pos.compare_cont Eq 4503599627370496 m)
      with (Pos.compare 4503599627370496 m).
    destruct (Pos.compare_spec 4503599627370496 m) as [E'|E'|E'];
      try reflexivity.
    exfalso.
    assert (K : (2 ^ 52 = 4503599627370496)%Z) by reflexivity.
    rewrite K in B. apply Pos2Z.pos_lt_pos in E'. lia.
  - exfalso. lia.
Qed.

Lemma flag_stock_nonneg (p : Product) : is_nonneg (flag_stock p) = true.
Proof. unfold flag_stock. destruct (p_inStock p); reflexivity. Qed.

Lemma finite_pos_nonneg (x : Number) :
  is_finite_pos x = true -> is_nonneg x = true.
Proof. destruct x as [| | |[|] ? ?]; simpl; congruence. Qed.

Lemma isInt_min1_finite_pos (q : Number) :
  isInt_min1 q = true -> is_finite_pos q = true.
Proof.
  intros Q. destruct (isInt_min1_finite _ Q) as (m & e & ->). reflexivity.
Qed.

Lemma unit_price_nonneg (x : option Number) (d : Number) :
  isFloat_min0 x = true -> is_nonneg d = true ->
  is_nonneg (JS.or_default x d) = true.
Proof.
  intros H D. destruct x as [[s|s| |[|] m e]|]; simpl in *;
    try discriminate; assumption || reflexivity.
Qed.

Lemma min_ok_0_nonneg (x : Number) : min_ok 0 x = true -> is_nonneg x = true.
Proof.
  unfold min_ok, JS.ge, JS.le, SFleb. rewrite of_Z_0.
  destruct x as [s|[|]| |[|] m e]; simpl; congruence.
Qed.

Lemma validate_product_price (p : Product) :
  validate_product p = true -> is_nonneg (p_price p) = true.
Proof.
  unfold validate_product. intros V.
  repeat (apply andb_prop in V; destruct V as [V ?]).
  apply min_ok_0_nonneg. assumption.
Qed.

Lemma validate_in_movement user req p n :
  is_nonneg (p_price p) = true ->
  in_quantity req = QNumber n ->
  isInt_min1 n = true ->
  valid_binary JS.prec JS.emax n = true ->
  isFloat_min0 (in_unitPrice req) = true ->
  validate_movement (in_movement user req p)
  = maxlength_ok 500 (in_notes req).
Proof.
  intros P E Q V U. unfold validate_movement, in_movement. cbv zeta.
  cbn [m_type m_quantity previousStock newStock m_unitPrice m_totalValue
       m_notes opt_min_ok].
  rewrite E. cbn [ToNumber plus_quantity].
  pose proof (isInt_min1_finite_pos _ Q) as Fq.
  pose proof (unit_price_nonneg _ _ U P) as Pr.
  change (enum_ok movement_type_enum "stock_in") with true.
  rewrite (quantity_min_ok _ V Q).
  rewrite (nonneg_number_ok _ (flag_stock_nonneg p)).
  rewrite (nonneg_number_ok _
             (add_nonneg _ _ (flag_stock_nonneg p) (finite_pos_nonneg _ Fq))).
  rewrite (nonneg_min_ok _ Pr).
  rewrite (nonneg_min_ok _ (mul_nonneg _ _ Pr Fq)).
  reflexivity.
Qed.

Lemma out_newStock_zero user req p :
  isInt_min1 (out_quantity req) = true ->
  newStock (out_movement user req p) = JS.zero.
Proof.
  intros Q. unfold out_movement. cbv zeta. cbn [newStock].
  destruct (p_inStock p).
  - destruct (isInt_min1_finite _ Q) as (m & e & ->).
    rewrite sub_diag_finite. reflexivity.
  - apply (minus_at_least_one _ (isInt_min1_at_least_one _ Q)).
Qed.

Lemma validate_out_movement user req p :
  is_nonneg (p_price p) = true ->
  isInt_min1 (out_quantity req) = true ->
  valid_binary JS.prec JS.emax (out_quantity req) = true ->
  validate_movement (out_movement user req p)
  = maxlength_ok 500 (or_else_string (out_notes req) (out_reason req)).
Proof.
  intros P Q V. unfold validate_movement.
  rewrite (out_newStock_zero user req p Q).
  unfold out_movement. cbv zeta.
  cbn [m_type m_quantity previousStock m_unitPrice m_totalValue
       m_notes opt_min_ok].
  pose proof (isInt_min1_finite_pos _ Q) as Fq.
  change (enum_ok movement_type_enum "stock_out") with true.
  rewrite (quantity_min_ok _ V Q).
  assert (Pv : number_ok (if p_inStock p then out_quantity req else JS.zero)
               = true).
  { destruct (p_inStock p); [|reflexivity].
    apply nonneg_number_ok, finite_pos_nonneg, Fq. }
  rewrite Pv.
  change (number_ok JS.zero) with true.
  rewrite (nonneg_min_ok _ P).
  rewrite (nonneg_min_ok _ (mul_nonneg _ _ P Fq)).
  reflexivity.
Qed.

Lemma validate_adjustment_movement user req p n :
  adj_quantity req = QNumber n ->
  isInt_min1 n = true ->
  valid_binary JS.prec JS.emax n = true ->
  enum_ok ["adjustment"; "return"; "damage"] (adj_type req) = true ->
  validate_movement (adjustment_movement user req p)
  = maxlength_ok 500 (adj_notes req).
Proof.
  intros E Q V T. unfold validate_movement, adjustment_movement. cbv zeta.
  cbn [m_type m_quantity previousStock newStock m_unitPrice m_totalValue
       m_notes opt_min_ok].
  rewrite E. cbn [ToNumber plus_quantity].
  pose proof (isInt_min1_finite_pos _ Q) as Fq.
  rewrite (quantity_min_ok _ V Q).
  rewrite (nonneg_number_ok _ (flag_stock_nonneg p)).
  assert (K : enum_ok movement_type_enum (adj_type req) = true).
  { apply enum_ok_In in T. simpl in T.
    destruct T as [<-|[<-|[<-|[]]]]; reflexivity. }
  rewrite K.
  assert (N : number_ok
                (if String.eqb (adj_type req) "return"
                 then JS.add (flag_stock p) n
                 else JS.Math_max JS.zero (JS.sub (flag_stock p) n)) = true).
  { destruct (String.eqb (adj_type req) "return").
    - apply nonneg_number_ok, add_nonneg;
        [apply flag_stock_nonneg|apply finite_pos_nonneg, Fq].
    - destruct (minus_at_least_one _ (isInt_min1_at_least_one _ Q))
        as [Q1 Q0].
      unfold flag_stock. destruct (p_inStock p).
      + rewrite Q1. reflexivity.
      + rewrite Q0. reflexivity. }
  rewrite N. reflexivity.
Qed.

Lemma Product_save_accepts (b : bool) (p : Product) (db : DB) :
  validate_product p = true ->
  Product_save (set_inStock b p) db
  = Some (mkDB (map (fun q => if Nat.eqb (p__id q) (p__id p)
                              then set_inStock b p else q) (products db))
               (orders db) (movements db)).
Proof.
  intros V. unfold Product_save. rewrite validate_set_inStock, V.
  reflexivity.
Qed.

(** X11. For a product found in the catalogue that passes the product
    schema, a stock request that passes the request validators, its
    quantity (and unit price, if any) sent as a JSON number, is refused
    for one reason only: notes
    longer than 500 characters, which the movement schema rejects (500,
    nothing written). Otherwise it is answered 201 with the movement the
    route builds, the ledger gains that movement, and the product is
    stored with its flag set: in stock after a stock-in, out of stock
    after a stock-out. *)
Theorem X11_stock_request_outcome (user : ObjectId) (db : DB) (p : Product) :
  validate_product p = true ->
  (forall req n,
      Product_findOne (products db) (in_productId req) = Some p ->
      notEmpty (in_productId req) = true ->
      in_quantity req = QNumber n ->
      isInt_min1 n = true ->
      valid_binary JS.prec JS.emax n = true ->
      isFloat_min0 (in_unitPrice req) = true ->
      stock_in user req db
      = if maxlength_ok 500 (in_notes req)
        then (mkResponse 201 (BMovement "Stock in recorded successfully"
                                        (in_movement user req p)),
              mkDB (map (fun q => if Nat.eqb (p__id q) (p__id p)
                                  then set_inStock true p else q)
                        (products db))
                   (orders db)
                   (movements db ++ [in_movement user req p]))
        else (server_error, db))
  /\ (forall req,
         Product_findOne (products db) (out_productId req) = Some p ->
         notEmpty (out_productId req) = true ->
         isInt_min1 (out_quantity req) = true ->
         valid_binary JS.prec JS.emax (out_quantity req) = true ->
         stock_out user req db
         = if maxlength_ok 500 (or_else_string (out_notes req) (out_reason req))
           then (mkResponse 201 (BMovement "Stock out recorded successfully"
                                           (out_movement user req p)),
                 mkDB (map (fun q => if Nat.eqb (p__id q) (p__id p)
                                     then set_inStock false p else q)
                           (products db))
                      (orders db)
                      (movements db ++ [out_movement user req p]))
           else (server_error, db))
  /\ (forall req n,
         Product_findOne (products db) (adj_productId req) = Some p ->
         notEmpty (adj_productId req) = true ->
         adj_quantity req = QNumber n ->
         isInt_min1 n = true ->
         valid_binary JS.prec JS.emax n = true ->
         enum_ok ["adjustment"; "return"; "damage"] (adj_type req) = true ->
         fst (stock_adjustment user req db)
         = (if maxlength_ok 500 (adj_notes req)
            then mkResponse 201
                   (BMovement "Stock adjustment recorded successfully"
                              (adjustment_movement user req p))
            else server_error)
         /\ (maxlength_ok 500 (adj_notes req) = false ->
             snd (stock_adjustment user req db) = db)).
Proof.
  intros Vp. pose proof (validate_product_price p Vp) as P.
  split; [|split].
  - intros req n F N E Q V U. unfold stock_in.
    rewrite N, E. cbn [isInt_min1_quantity]. rewrite Q, U, F.
    cbn [andb negb]. cbv zeta. unfold StockMovement_save.
    rewrite (validate_in_movement user req p n P E Q V U).
    destruct (maxlength_ok 500 (in_notes req)); [|reflexivity].
    rewrite (Product_save_accepts true p _ Vp). reflexivity.
  - intros req F N Q V. unfold stock_out. rewrite N, Q, F.
    cbn [andb negb]. cbv zeta. unfold StockMovement_save.
    rewrite (validate_out_movement user req p P Q V).
    destruct (maxlength_ok 500 _); [|reflexivity].
    rewrite (out_newStock_zero user req p Q).
    change (JS.le JS.zero JS.zero) with true. cbv iota.
    rewrite (Product_save_accepts false p _ Vp). reflexivity.
  - intros req n F N E Q V T. unfold stock_adjustment.
    rewrite N, E. cbn [isInt_min1_quantity]. rewrite Q, T, F.
    cbn [andb negb]. cbv zeta. unfold StockMovement_save.
    rewrite (validate_adjustment_movement user req p n E Q V T).
    destruct (maxlength_ok 500 (adj_notes req)).
    + rewrite (Product_save_accepts _ p _ Vp). split; [reflexivity|].
      discriminate.
    + split; reflexivity.
Qed.

Lemma X11_stock_request_outcome_witness :
  res_status
    (fst (stock_in 7 (mkStockInReq "steel-tmt-12" (QNumber (JS.of_Z 100))
                                   None None None None) scenario_db))
  = 201
  /\ option_map p_inStock
       (Product_findOne
          (products
             (snd (stock_in 7 (mkStockInReq "steel-tmt-12"
                                            (QNumber (JS.of_Z 100))
                                            None None None None)
                            ledger_db0)))
          "steel-tmt-12")
     = Some true.
Proof.
  split.
  - rewrite (proj1 (X11_stock_request_outcome 7 scenario_db
                (mkProduct 1 "steel-tmt-12" "TMT bar 12mm" (JS.of_Z 65000)
                           "ton" true
                           "steel" "tmt-12.jpg" "TMT bar, 12 mm" [])
                eq_refl)
                (mkStockInReq "steel-tmt-12" (QNumber (JS.of_Z 100))
                              None None None None) (JS.of_Z 100)
                eq_refl eq_refl eq_refl eq_refl eq_refl eq_refl).
    reflexivity.
  - rewrite (proj1 (X11_stock_request_outcome 7 ledger_db0
                (mkProduct 1 "steel-tmt-12" "TMT bar 12mm" (JS.of_Z 65000)
                           "ton" false
                           "steel" "tmt-12.jpg" "TMT bar, 12 mm" [])
                eq_refl)
                (mkStockInReq "steel-tmt-12" (QNumber (JS.of_Z 100))
                              None None None None) (JS.of_Z 100)
                eq_refl eq_refl eq_refl eq_refl eq_refl eq_refl).
    reflexivity.
Defined.

(** ** The guards in front of the routes *)

Lemma authenticate_refuse verify users authorization r :
  authenticate verify users authorization = Refuse r -> res_status r = 401.
Proof.
  unfold authenticate, refuse.
  destruct authorization as [h|]; [|intros H; inversion H; reflexivity].
  destruct (negb (JS.truthy_string h) || negb (startsWith h "Bearer "));
    [intros H; inversion H; reflexivity|].
  destruct (nth_error (split_space h) 1) as [token|];
    [|intros H; inversion H; reflexivity].
  destruct (verify token) as [decoded|];
    [|intros H; inversion H; reflexivity].
  destruct (User_findById users _) as [user|];
    [|intros H; inversion H; reflexivity].
  destruct (negb (u_isActive user)); intros H; inversion H; reflexivity.
Qed.

Lemma authenticate_next verify users authorization user :
  authenticate verify users authorization = Next user ->
  exists header token decoded,
    authorization = Some header
    /\ startsWith header "Bearer " = true
    /\ nth_error (split_space header) 1 = Some token
    /\ verify token = Some decoded
    /\ In user users
    /\ or_else_id (userId decoded) (d_id decoded) = Some (u__id user)
    /\ u_isActive user = true.
Proof.
  unfold authenticate, refuse.
  destruct authorization as [h|]; [|discriminate].
  destruct (JS.truthy_string h); [|discriminate].
  destruct (startsWith h "Bearer ") eqn:B; [|discriminate].
  cbn [negb orb].
  destruct (nth_error (split_space h) 1) as [token|] eqn:T; [|discriminate].
  destruct (verify token) as [decoded|] eqn:V; [|discriminate].
  destruct (User_findById users _) as [u|] eqn:F; [|discriminate].
  destruct (u_isActive u) eqn:A; [|discriminate].
  cbn [negb]. intros H. inversion H; subst u.
  exists h, token, decoded. repeat split; try assumption.
  - unfold User_findById in F.
    destruct (or_else_id _ _); [|discriminate].
    apply find_some in F. tauto.
  - unfold User_findById in F.
    destruct (or_else_id _ _) as [i|]; [|discriminate].
    apply find_some in F. destruct F as [_ F].
    apply Nat.eqb_eq in F. congruence.
Qed.

Lemma authorize_cases (allowedRoles : list string) (u : User) :
  (authorize allowedRoles (Some u) = Next u /\ In (u_role u) allowedRoles)
  \/ (exists r, authorize allowedRoles (Some u) = Refuse r
                /\ res_status r = 403 /\ ~ In (u_role u) allowedRoles).
Proof.
  unfold authorize, refuse.
  destruct (existsb (String.eqb (u_role u)) allowedRoles) eqn:E.
  - left. split; [reflexivity|].
    apply existsb_exists in E. destruct E as (x & I & E).
    apply String.eqb_eq in E. congruence.
  - right. eexists. split; [reflexivity|]. split; [reflexivity|].
    intros I. assert (X : existsb (String.eqb (u_role u)) allowedRoles = true).
    { apply existsb_exists. exists (u_role u). split; [exact I|].
      apply String.eqb_refl. }
    congruence.
Qed.

(** X12. A call to an order or stock route is either refused with 401 or
    403 and nothing written, or it reaches its handler: then the header
    started with the Bearer scheme, its second space-separated word passed
    token verification, and the id the token names is that of a stored,
    active account whose role is among those the route allows; the handler
    runs on behalf of that account. *)
Theorem X12_guarded_routes
  (verify : string -> option Decoded) (users : list User)
  (authorization : option string) (c : Call) (db : DB) :
  (exists r, serve verify users authorization c db = (r, db)
             /\ (res_status r = 401 \/ res_status r = 403))
  \/ (exists header token decoded user,
         authorization = Some header
         /\ startsWith header "Bearer " = true
         /\ nth_error (split_space header) 1 = Some token
         /\ verify token = Some decoded
         /\ In user users
         /\ or_else_id (userId decoded) (d_id decoded) = Some (u__id user)
         /\ u_isActive user = true
         /\ In (u_role user) (allowedRoles c)
         /\ serve verify users authorization c db = handle (route c user) db
         /\ In (res_status (fst (serve verify users authorization c db)))
               [200; 201; 400; 404; 500]).
Proof.
  unfold serve.
  destruct (authenticate verify users authorization) as [r|user] eqn:A.
  - left. exists r. split; [reflexivity|]. left.
    apply (authenticate_refuse _ _ _ _ A).
  - destruct (authorize_cases (allowedRoles c) user)
      as [[Z I]|(r & Z & S & _)]; rewrite Z.
    + right.
      destruct (authenticate_next _ _ _ _ A)
        as (h & token & decoded & E & B & T & V & U & D & Act).
      exists h, token, decoded, user.
      repeat split; try assumption. apply handle_status.
    + left. exists r. split; [reflexivity|]. right. exact S.
Qed.

Lemma serve_frame verify users authorization c db :
  (forall user, authenticate verify users authorization = Next user ->
                u_role user <> "super_admin" /\ u_role user <> "admin") ->
  products (snd (serve verify users authorization c db)) = products db
  /\ movements (snd (serve verify users authorization c db)) = movements db.
Proof.
  intros H. unfold serve.
  destruct (authenticate verify users authorization) as [r|user];
    [split; reflexivity|].
  destruct (H user eq_refl) as [H1 H2].
  destruct (authorize_cases (allowedRoles c) user)
    as [[Z I]|(r & Z & _)]; rewrite Z; [|split; reflexivity].
  destruct c; cbn [allowedRoles route] in *;
    try (apply order_request_frame; reflexivity);
    exfalso;
    unfold PERMISSIONS.MANAGE_STOCK, ROLES.SUPER_ADMIN, ROLES.ADMIN in I;
    simpl in I; intuition congruence.
Qed.

Lemma remove_first_length id docs d :
  find (fun d' => String.eqb (p_id d') id) docs = Some d ->
  S (List.length (remove_first id docs)) = List.length docs.
Proof.
  induction docs as [|x docs IH]; cbn [find remove_first]; [discriminate|].
  destruct (String.eqb (p_id x) id); [reflexivity|].
  intros F. cbn [List.length]. rewrite (IH F). reflexivity.
Qed.

(** X13. Of the admin order and stock routers: calls to their routes made
    without the token of an active admin or super admin (by staff, by
    other roles, by deactivated accounts, with no or a bad token) change
    neither the catalogue nor the stock ledger, however many such calls
    are made: the stock routes refuse them, and the order routes open to
    staff do not touch stock. The guard stands in front of these routers
    only: DELETE /api/products/:id of the public products router asks for
    no token and removes a stored product from the catalogue, orders and
    ledger left as they are. *)
Theorem X13_admin_routers_guard_stock
  (verify : string -> option Decoded) (users : list User)
  (cs : list (option string * Call)) (db : DB) :
  (forall h c user,
      In (h, c) cs -> authenticate verify users h = Next user ->
      u_role user <> "super_admin" /\ u_role user <> "admin") ->
  products (serve_all verify users cs db) = products db
  /\ movements (serve_all verify users cs db) = movements db
  /\ (forall id p,
         Product_findOne (products db) id = Some p ->
         public_delete_product id db
         = (mkProductResponse 200 (PDone "Product deleted successfully"),
            mkDB (remove_first id (products db)) (orders db) (movements db))
         /\ S (List.length (products (snd (public_delete_product id db))))
            = List.length (products db)).
Proof.
  intros H.
  assert (K : products (serve_all verify users cs db) = products db
              /\ movements (serve_all verify users cs db) = movements db).
  { revert db H. induction cs as [|[h c] cs IH]; intros db H;
      [split; reflexivity|].
    unfold serve_all. cbn [fold_left fst snd].
    fold (serve_all verify users cs (snd (serve verify users h c db))).
    destruct (IH (snd (serve verify users h c db))) as [P M].
    { intros h' c' user I. apply (H h' c' user). right. exact I. }
    destruct (serve_frame verify users h c db) as [P0 M0].
    { intros user. apply (H h c user). left. reflexivity. }
    split; congruence. }
  destruct K as [P M]. split; [exact P|]. split; [exact M|].
  intros id p F. unfold public_delete_product. rewrite F.
  split; [reflexivity|]. cbn [snd products].
  apply (remove_first_length id (products db) p F).
Qed.

Lemma X13_admin_routers_guard_stock_witness :
  let cs :=
    [(Some "Bearer t-staff",
      POST_stock_in (mkStockInReq "steel-tmt-12" (QNumber (JS.of_Z 100))
                                  None None None None));
     (Some "Bearer t-left",
      POST_stock_out (mkStockOutReq "steel-tmt-12" (JS.of_Z 1) None None));
     (Some "Bearer t-staff", POST_orders scenario_today scenario_request);
     (None,
      POST_stock_adjustment
        (mkAdjustmentReq "steel-tmt-12" (QNumber (JS.of_Z 1)) "damage"
                         None))] in
  products (serve_all demo_verify demo_users cs scenario_db)
  = products scenario_db
  /\ movements (serve_all demo_verify demo_users cs scenario_db)
     = movements scenario_db
  /\ List.length (orders (serve_all demo_verify demo_users cs scenario_db))
     = 1
  /\ S (List.length
          (products (snd (public_delete_product "steel-tmt-12" scenario_db))))
     = List.length (products scenario_db).
Proof.
  intros cs.
  destruct (X13_admin_routers_guard_stock demo_verify demo_users cs
                                          scenario_db)
    as (P & M & D).
  { intros h c user I A. subst cs.
    destruct I as [I|[I|[I|[I|[]]]]]; inversion I; subst h c;
      vm_compute in A; inversion A; subst user; split; discriminate. }
  split; [exact P|]. split; [exact M|]. split; [vm_compute; reflexivity|].
  destruct (Product_findOne (products scenario_db) "steel-tmt-12")
    as [p|] eqn:F; [|vm_compute in F; discriminate].
  exact (proj2 (D "steel-tmt-12" p F)).
Defined.

(** ** The Authorization header *)

Lemma split_space_word (w rest : string) :
  (forall c, In c (list_ascii_of_string w) -> c <> " "%char) ->
  split_space (w ++ String " " rest) = w :: split_space rest
  /\ split_space w = [w].
Proof.
  induction w as [|c w IH]; intros H.
  - split; reflexivity.
  - assert (C : Ascii.eqb c " " = false).
    { apply Ascii.eqb_neq. apply H. left. reflexivity. }
    destruct IH as [I1 I2].
    { intros c' I. apply H. right. exact I. }
    cbn [append split_space]. rewrite C, I1, I2. split; reflexivity.
Qed.

(** X14. The token checked is the text between the first and the second
    space of the header: for a token without spaces, whatever follows a
    space after it is ignored, and the account comes from the token's
    userId, or from its id when it has no userId. A header that does not
    start with the Bearer scheme is refused with 401 whatever the token
    check would say. *)
Theorem X14_bearer_token
  (verify : string -> option Decoded) (users : list User)
  (token rest : string) :
  (forall c, In c (list_ascii_of_string token) -> c <> " "%char) ->
  authenticate verify users (Some ("Bearer " ++ token ++ String " " rest))
  = authenticate verify users (Some ("Bearer " ++ token))
  /\ authenticate verify users (Some ("Bearer " ++ token))
     = match verify token with
       | None => refuse 401 "Invalid or expired token."
       | Some decoded =>
           match User_findById users
                   (or_else_id (userId decoded) (d_id decoded)) with
           | None => refuse 401 "User not found."
           | Some user =>
               if u_isActive user then Next user
               else refuse 401 "Account has been deactivated."
           end
       end
  /\ authenticate verify users (Some ("bearer " ++ token))
     = refuse 401 "Access denied. No token provided."
  /\ authenticate verify users (Some token)
     = refuse 401 "Access denied. No token provided.".
Proof.
  intros H.
  destruct (split_space_word token rest H) as [S1 S2].
  assert (A : forall x,
             nth_error (split_space x) 0 = Some token ->
             authenticate verify users (Some ("Bearer " ++ x))
             = match verify token with
               | None => refuse 401 "Invalid or expired token."
               | Some decoded =>
                   match User_findById users
                           (or_else_id (userId decoded) (d_id decoded)) with
                   | None => refuse 401 "User not found."
                   | Some user =>
                       if u_isActive user then Next user
                       else refuse 401 "Account has been deactivated."
                   end
               end).
  { intros x N. unfold authenticate.
    change (JS.truthy_string ("Bearer " ++ x)) with true.
    assert (P : startsWith ("Bearer " ++ x) "Bearer " = true).
    { unfold startsWith. cbn. destruct x; reflexivity. }
    rewrite P. cbn [negb orb].
    change (split_space ("Bearer " ++ x)) with ("Bearer" :: split_space x).
    change (nth_error ("Bearer" :: split_space x) 1)
      with (nth_error (split_space x) 0).
    rewrite N.
    destruct (verify token) as [d|]; [|reflexivity].
    destruct (User_findById users _) as [u|]; [|reflexivity].
    destruct (u_isActive u); reflexivity. }
  split; [|split; [|split]].
  - rewrite (A (token ++ String " " rest)), (A token);
      [reflexivity|rewrite S2; reflexivity|rewrite S1; reflexivity].
  - apply A. rewrite S2. reflexivity.
  - reflexivity.
  - unfold authenticate.
    destruct (JS.truthy_string token); [|reflexivity].
    assert (P : startsWith token "Bearer " = false).
    { unfold startsWith.
      destruct (String.prefix "Bearer " token) eqn:E; [|reflexivity].
      exfalso. apply prefix_correct in E.
      destruct token as [|c0 [|c1 [|c2 [|c3 [|c4 [|c5 [|c6 t]]]]]]];
        try discriminate.
      cbn in E. inversion E; subst.
      apply (H " "%char); [|reflexivity]. cbn. tauto. }
    rewrite P. reflexivity.
Qed.

Lemma X14_bearer_token_witness :
  authenticate demo_verify demo_users (Some "Bearer t-admin trailing words")
  = Next (mkUser 2 "Admin User" "admin@sriamman.com" "admin" true).
Proof.
  destruct (X14_bearer_token demo_verify demo_users "t-admin" "trailing words")
    as (E1 & E2 & _).
  { intros c I. cbn in I.
    repeat (destruct I as [<-|I]; [discriminate|]). destruct I. }
  change ("Bearer " ++ "t-admin" ++ String " " "trailing words")
    with "Bearer t-admin trailing words" in E1.
  rewrite E1, E2. reflexivity.
Defined.
(** ** Product ids after a deletion *)

Lemma create_product_created req docs msg d docs' :
  create_product req docs = (mkProductResponse 201 (PData msg d), docs') ->
  p_id d = product_id (cp_category req) docs
  /\ p_category d = cp_category req
  /\ docs' = (docs ++ [d])%list
  /\ forallb (fun d' => negb (String.eqb (p_id d') (p_id d)))
             docs = true.
Proof.
  unfold create_product.
  destruct (negb _); [discriminate|].
  destruct (cp_price req) as [price|]; [|discriminate].
  cbv zeta. unfold Product_insert.
  destruct (validate_product _); [|discriminate].
  destruct (forallb _ docs) eqn:U; [|discriminate].
  cbn [andb]. intros H. inversion H; subst. auto.
Qed.

Lemma create_product_clash req docs :
  In (product_id (cp_category req) docs) (map (fun d => p_id d) docs) ->
  snd (create_product req docs) = docs
  /\ In (pres_status (fst (create_product req docs))) [400; 500].
Proof.
  intros I. unfold create_product.
  destruct (negb _); [split; [reflexivity|left; reflexivity]|].
  destruct (cp_price req) as [price|];
    [|split; [reflexivity|left; reflexivity]].
  cbv zeta. unfold Product_insert.
  assert (U : forallb
                (fun d' => negb (String.eqb (p_id d')
                                   (p_id (new_product req price docs))))
                docs = false).
  { apply in_map_iff in I. destruct I as (d & E & I).
    apply not_true_is_false. intros A.
    rewrite forallb_forall in A. specialize (A d I).
    cbn [new_product p_id] in A. rewrite E, String.eqb_refl in A.
    discriminate. }
  rewrite U, andb_false_r. split; [reflexivity|right; left; reflexivity].
Qed.

Lemma remove_first_fresh id docs d rest :
  forallb (fun d' => negb (String.eqb (p_id d') id)) docs = true ->
  p_id d = id ->
  remove_first id (docs ++ d :: rest) = (docs ++ rest)%list
  /\ find (fun d' => String.eqb (p_id d') id) (docs ++ d :: rest)
     = Some d.
Proof.
  intros U E. induction docs as [|x docs IH]; cbn [app remove_first find].
  - rewrite E, String.eqb_refl. split; reflexivity.
  - cbn [forallb] in U. apply andb_prop in U. destruct U as [X U].
    apply negb_true_iff in X. rewrite X.
    destruct (IH U) as [I1 I2]. rewrite I1, I2. split; reflexivity.
Qed.

Lemma countDocuments_category_app c docs docs' :
  countDocuments_category c (docs ++ docs')
  = countDocuments_category c docs + countDocuments_category c docs'.
Proof.
  unfold countDocuments_category. rewrite filter_app, length_app.
  reflexivity.
Qed.

Lemma countDocuments_category_one c d :
  p_category d = c -> countDocuments_category c [d] = 1.
Proof.
  intros E. unfold countDocuments_category. cbn [filter].
  rewrite E, String.eqb_refl. reflexivity.
Qed.

Lemma create_all_stuck reqs docs c :
  In (product_id c docs) (map (fun d => p_id d) docs) ->
  Forall (fun req => cp_category req = c) reqs ->
  create_all reqs docs = docs.
Proof.
  intros I F. induction F as [|req reqs E F IH]; [reflexivity|].
  unfold create_all. cbn [fold_left].
  rewrite <- E in I. destruct (create_product_clash req docs I) as [S _].
  rewrite S. rewrite E in I. exact (IH).
Qed.

(** X15. Product ids are built from the number of products the category
    has, so a deletion makes them collide: once two products of a category
    were created one after the other and the first is deleted, the next id
    is the one the second product carries. From then on every creation in
    that category is refused (400 or 500) and the catalogue stays as it
    is, however many creations are attempted. *)
Theorem X15_product_ids_collide_after_delete
  (docs docs1 docs2 : list Product) (req1 req2 : CreateProductReq)
  (msg1 msg2 : string) (d1 d2 : Product) :
  create_product req1 docs
  = (mkProductResponse 201 (PData msg1 d1), docs1) ->
  create_product req2 docs1
  = (mkProductResponse 201 (PData msg2 d2), docs2) ->
  cp_category req2 = cp_category req1 ->
  delete_product (p_id d1) docs2
  = (mkProductResponse 200 (PDone "Product deleted successfully"),
     (docs ++ [d2])%list)
  /\ product_id (cp_category req1) (docs ++ [d2]) = p_id d2
  /\ (forall req,
         cp_category req = cp_category req1 ->
         snd (create_product req (docs ++ [d2])) = (docs ++ [d2])%list
         /\ In (pres_status (fst (create_product req (docs ++ [d2]))))
               [400; 500])
  /\ (forall reqs,
         Forall (fun req => cp_category req = cp_category req1) reqs ->
         create_all reqs (docs ++ [d2]) = (docs ++ [d2])%list).
Proof.
  intros H1 H2 C.
  destruct (create_product_created _ _ _ _ _ H1) as (I1 & C1 & D1 & U1).
  destruct (create_product_created _ _ _ _ _ H2) as (I2 & C2 & D2 & U2).
  destruct (remove_first_fresh (p_id d1) docs d1 [d2] U1 eq_refl)
    as [R F].
  assert (N : product_id (cp_category req1) (docs ++ [d2]) = p_id d2).
  { rewrite I2, C, D1. unfold product_id. cbv zeta.
    rewrite !countDocuments_category_app.
    rewrite (countDocuments_category_one _ d1 C1).
    rewrite (countDocuments_category_one _ d2) by congruence.
    reflexivity. }
  assert (M : In (product_id (cp_category req1) (docs ++ [d2]))
                 (map (fun d => p_id d) (docs ++ [d2]))).
  { rewrite N, map_app. apply in_or_app. right. left. reflexivity. }
  split; [|split; [exact N|split]].
  - unfold delete_product. subst docs2 docs1. rewrite <- app_assoc.
    cbn [app]. rewrite F, R. reflexivity.
  - intros req E. apply create_product_clash. rewrite E. exact M.
  - intros reqs Fa. apply (create_all_stuck reqs _ (cp_category req1) M Fa).
Qed.

Lemma X15_product_ids_collide_after_delete_witness :
  exists d1 d2,
    p_id d1 = "STE001" /\ p_id d2 = "STE002"
    /\ delete_product "STE001" [d1; d2]
       = (mkProductResponse 200 (PDone "Product deleted successfully"), [d2])
    /\ create_product (steel_request "TMT bar 16mm") [d2]
       = (mkProductResponse 500 (PFail "Server error"), [d2]).
Proof.
  assert (H : exists d1 d2,
             create_product (steel_request "TMT bar 8mm") []
             = (mkProductResponse 201
                  (PData "Product created successfully" d1), [d1])
             /\ create_product (steel_request "TMT bar 12mm") [d1]
                = (mkProductResponse 201
                     (PData "Product created successfully" d2), [d1; d2])
             /\ p_id d1 = "STE001" /\ p_id d2 = "STE002").
  { eexists. eexists. split; [vm_compute; reflexivity|].
    split; [vm_compute; reflexivity|]. split; reflexivity. }
  destruct H as (d1 & d2 & H1 & H2 & I1 & I2). exists d1, d2.
  destruct (X15_product_ids_collide_after_delete
              [] [d1] [d1; d2] (steel_request "TMT bar 8mm")
              (steel_request "TMT bar 12mm") _ _ d1 d2 H1 H2 eq_refl)
    as (D & N & S & _).
  rewrite I1 in D. cbn [app] in D, S.
  split; [exact I1|]. split; [exact I2|]. split; [exact D|].
  destruct (S (steel_request "TMT bar 16mm") eq_refl) as [S1 S2].
  destruct (create_product (steel_request "TMT bar 16mm") [d2])
    as [r ds] eqn:E.
  cbn [fst snd] in S1, S2. subst ds.
  assert (R : r = mkProductResponse 500 (PFail "Server error")).
  { unfold create_product in E.
    change (negb (notEmpty (trim (cp_name (steel_request "TMT bar 16mm")))
                  && enum_ok category_enum
                       (cp_category (steel_request "TMT bar 16mm"))
                  && isFloat_min0_required
                       (cp_price (steel_request "TMT bar 16mm"))
                  && notEmpty (trim (cp_unit (steel_request "TMT bar 16mm")))
                  && notEmpty
                       (trim (cp_description (steel_request "TMT bar 16mm")))))
      with false in E.
    cbn [cp_price steel_request] in E. cbv zeta in E.
    destruct (Product_insert _ _) as [ds|]; inversion E; subst.
    - exfalso. cbn in S2. intuition discriminate.
    - reflexivity. }
  rewrite R. reflexivity.
Defined.

(** ** Reviews: the collection *)

(** Deleting a review keeps what was distinct distinct. *)
Lemma NoDup_map_delete {B} (f : Review -> B) (id : ObjectId)
                       (rs : list Review) :
  NoDup (map f rs) -> NoDup (map f (Review_findByIdAndDelete id rs)).
Proof.
  unfold Review_findByIdAndDelete.
  induction rs as [|x rs IH]; intros H; cbn [filter map]; [constructor|].
  cbn [map] in H. apply NoDup_cons_iff in H. destruct H as [Hn Hd].
  destruct (negb (Nat.eqb (rv__id x) id)); [|exact (IH Hd)].
  cbn [map]. apply NoDup_cons_iff. split; [|exact (IH Hd)].
  intros I. apply Hn. apply in_map_iff in I. destruct I as (y & E & I).
  apply filter_In in I. apply in_map_iff. exists y. tauto.
Qed.

Lemma NoDup_map_In_eq {A B} (f : A -> B) (l : list A) (x y : A) :
  NoDup (map f l) -> In x l -> In y l -> f x = f y -> x = y.
Proof.
  induction l as [|a l IH]; simpl; intros H Ix Iy E; [tauto|].
  inversion H as [|? ? Hn Hd]; subst.
  destruct Ix as [->|Ix], Iy as [->|Iy]; auto.
  - exfalso. apply Hn. rewrite E. apply in_map. exact Iy.
  - exfalso. apply Hn. rewrite <- E. apply in_map. exact Ix.
Qed.

Lemma Review_findById_In (rs : list Review) (id : ObjectId) (r : Review) :
  Review_findById rs id = Some r -> In r rs /\ rv__id r = id.
Proof.
  unfold Review_findById. intros F. apply find_some in F.
  destruct F as [I E]. apply Nat.eqb_eq in E. auto.
Qed.

Lemma Review_findById_unique (rs : list Review) (r : Review) :
  NoDup (map rv__id rs) -> In r rs -> Review_findById rs (rv__id r) = Some r.
Proof.
  intros N I. destruct (Review_findById rs (rv__id r)) as [r'|] eqn:F.
  - destruct (Review_findById_In _ _ _ F) as [I' E].
    f_equal. apply (NoDup_map_In_eq rv__id rs); assumption.
  - exfalso. unfold Review_findById in F.
    pose proof (find_none _ _ F r I) as X. cbv beta in X.
    rewrite Nat.eqb_refl in X. discriminate.
Qed.

Lemma fresh_review_id_above (rs : list Review) (r : Review) :
  In r rs -> rv__id r < fresh_review_id rs.
Proof.
  unfold fresh_review_id. induction rs as [|y rs IH]; simpl; [tauto|].
  intros [->|H]; [lia|]. specialize (IH H). lia.
Qed.

Lemma Review_upsert_fresh (r : Review) (rs : list Review) :
  (forall r', In r' rs -> rv__id r' <> rv__id r) ->
  Review_upsert r rs = (rs ++ [r])%list.
Proof.
  intros H. unfold Review_upsert.
  destruct (existsb _ rs) eqn:E; [|reflexivity].
  apply existsb_exists in E. destruct E as (r' & I & E).
  apply Nat.eqb_eq in E. exfalso. apply (H r' I E).
Qed.

Lemma Review_upsert_stored (r r0 : Review) (rs : list Review) :
  In r0 rs -> rv__id r0 = rv__id r ->
  Review_upsert r rs
  = map (fun r' => if Nat.eqb (rv__id r') (rv__id r) then r else r') rs.
Proof.
  intros I E. unfold Review_upsert.
  destruct (existsb _ rs) eqn:X; [reflexivity|].
  exfalso. assert (Y : existsb (fun r' => Nat.eqb (rv__id r') (rv__id r)) rs
                       = true).
  { apply existsb_exists. exists r0. split; [exact I|].
    apply Nat.eqb_eq. exact E. }
  congruence.
Qed.

Lemma replace_map {B} (f : Review -> B) (r : Review) (rs : list Review) :
  (forall r', In r' rs -> rv__id r' = rv__id r -> f r' = f r) ->
  map f (map (fun r' => if Nat.eqb (rv__id r') (rv__id r) then r else r') rs)
  = map f rs.
Proof.
  induction rs as [|x rs IH]; intros H; [reflexivity|].
  cbn [map]. rewrite IH by (intros r' I; apply H; right; exact I).
  destruct (Nat.eqb (rv__id x) (rv__id r)) eqn:E; [|reflexivity].
  apply Nat.eqb_eq in E. rewrite (H x (or_introl eq_refl) E). reflexivity.
Qed.

Lemma replace_In (r : Review) (rs : list Review) (x : Review) :
  In x (map (fun r' => if Nat.eqb (rv__id r') (rv__id r) then r else r') rs) ->
  x = r \/ (In x rs /\ rv__id x <> rv__id r).
Proof.
  intros I. apply in_map_iff in I. destruct I as (y & E & I).
  destruct (Nat.eqb (rv__id y) (rv__id r)) eqn:N.
  - left. congruence.
  - right. subst y. split; [exact I|]. apply Nat.eqb_neq. exact N.
Qed.

Lemma replace_keeps (r : Review) (rs : list Review) (x : Review) :
  In x rs -> rv__id x <> rv__id r ->
  In x (map (fun r' => if Nat.eqb (rv__id r') (rv__id r) then r else r') rs).
Proof.
  intros I N. apply in_map_iff. exists x. split; [|exact I].
  apply Nat.eqb_neq in N. rewrite N. reflexivity.
Qed.

Lemma replace_puts (r : Review) (rs : list Review) (x : Review) :
  In x rs -> rv__id x = rv__id r ->
  In r (map (fun r' => if Nat.eqb (rv__id r') (rv__id r) then r else r') rs).
Proof.
  intros I E. apply in_map_iff. exists x. split; [|exact I].
  rewrite E, Nat.eqb_refl. reflexivity.
Qed.

Lemma Review_save_inr (r : Review) (rs rs' : list Review) :
  Review_save r rs = inr rs' ->
  validate_review r = true
  /\ rs' = Review_upsert r rs
  /\ (forall r', In r' rs -> rv__id r' <> rv__id r ->
                 same_subject r r' = false).
Proof.
  unfold Review_save. destruct (validate_review r); [|discriminate].
  cbn [negb]. destruct (existsb _ rs) eqn:E; [discriminate|].
  intros H. inversion H. split; [reflexivity|]. split; [reflexivity|].
  intros r' I N.
  destruct (same_subject r r') eqn:S; [|reflexivity].
  exfalso.
  assert (Y : existsb (fun r' => negb (Nat.eqb (rv__id r') (rv__id r))
                                 && same_subject r r') rs = true).
  { apply existsb_exists. exists r'. split; [exact I|].
    apply Nat.eqb_neq in N. rewrite N, S. reflexivity. }
  congruence.
Qed.

Lemma same_subject_eq (r r' : Review) :
  same_subject r r' = true
  <-> (rv_productId r', rv_userId r') = (rv_productId r, rv_userId r).
Proof.
  unfold same_subject. rewrite andb_true_iff, String.eqb_eq, Nat.eqb_eq.
  split; [intros [-> ->]; reflexivity|intros H; inversion H; auto].
Qed.

(** Saving a stored review after a change that keeps its id, product and
    author goes through when the review still passes the schema. *)
Lemma Review_save_stored (r r0 : Review) (rs : list Review) :
  reviews_ok rs -> In r0 rs ->
  rv__id r = rv__id r0 ->
  (rv_productId r, rv_userId r) = (rv_productId r0, rv_userId r0) ->
  validate_review r = true ->
  Review_save r rs
  = inr (map (fun r' => if Nat.eqb (rv__id r') (rv__id r) then r else r') rs).
Proof.
  intros (Ni & Ns & _) I E S V. unfold Review_save. rewrite V. cbn [negb].
  destruct (existsb _ rs) eqn:X.
  - exfalso. apply existsb_exists in X. destruct X as (r' & I' & X).
    apply andb_prop in X. destruct X as [X1 X2].
    apply negb_true_iff, Nat.eqb_neq in X1.
    apply same_subject_eq in X2. rewrite S in X2.
    apply X1. rewrite E. f_equal.
    apply (NoDup_map_In_eq (fun r => (rv_productId r, rv_userId r)) rs);
      assumption.
  - rewrite (Review_upsert_stored r r0 rs I (eq_sym E)). reflexivity.
Qed.

Lemma apply_review_update_keeps (req : ReviewReq) (r : Review) :
  rv__id (apply_review_update req r) = rv__id r
  /\ rv_productId (apply_review_update req r) = rv_productId r
  /\ rv_userId (apply_review_update req r) = rv_userId r
  /\ helpfulVotes (apply_review_update req r) = helpfulVotes r
  /\ helpfulVoters (apply_review_update req r) = helpfulVoters r.
Proof.
  unfold apply_review_update.
  destruct (rq_rating req) as [x|]; [destruct (JS.truthy x)|];
    (destruct (rq_title req) as [t|]);
    (destruct (rq_comment req) as [c|]; [destruct (JS.truthy_string c)|]);
    cbv zeta; repeat split; reflexivity.
Qed.

Lemma Math_max_zero_nonneg (y : Number) :
  number_ok y = true -> is_nonneg (JS.Math_max JS.zero y) = true.
Proof.
  destruct y as [[|]|[|]| |[|] m e]; intros H; try reflexivity.
  discriminate.
Qed.

Lemma binary_normalize_number (m e : Z) (s : bool) :
  number_ok (binary_normalize JS.prec JS.emax m e s) = true.
Proof.
  unfold binary_normalize. destruct m as [|p|p]; [reflexivity| |].
  - pose proof (binary_round_sign false p e) as H.
    destruct (binary_round _ _ _ _ _); simpl in *; tauto || reflexivity.
  - pose proof (binary_round_sign true p e) as H.
    destruct (binary_round _ _ _ _ _); simpl in *; tauto || reflexivity.
Qed.

Lemma sub_one_number (v : Number) :
  is_nonneg v = true -> number_ok (JS.sub v (JS.of_Z 1)) = true.
Proof.
  change (JS.of_Z 1) with (S754_finite false 4503599627370496 (-52)).
  destruct v as [s|s| |s m e]; intros H; try reflexivity; try discriminate.
  unfold JS.sub, SFsub. cbv zeta. apply binary_normalize_number.
Qed.

Lemma toggle_vote_keeps (user : User) (r : Review) :
  same_content r (toggle_vote user r)
  /\ validate_review (toggle_vote user r) = validate_review r.
Proof.
  unfold toggle_vote. destruct (existsb _ _); split;
    try reflexivity; repeat split; reflexivity.
Qed.

Lemma toggle_vote_ok (user : User) (r : Review) :
  review_ok r -> review_ok (toggle_vote user r).
Proof.
  intros (V & P & N). split; [|split].
  - rewrite (proj2 (toggle_vote_keeps user r)). exact V.
  - unfold toggle_vote. destruct (existsb _ _); cbn [set_votes helpfulVotes].
    + apply Math_max_zero_nonneg, sub_one_number, P.
    + apply add_nonneg; [exact P|reflexivity].
  - unfold toggle_vote. destruct (existsb _ _) eqn:E;
      cbn [set_votes helpfulVoters].
    + apply NoDup_filter. exact N.
    + apply NoDup_snoc; [exact N|].
      intros I.
      assert (Y : existsb (Nat.eqb (u__id user)) (helpfulVoters r) = true).
      { apply existsb_exists. exists (u__id user). split; [exact I|].
        apply Nat.eqb_refl. }
      congruence.
Qed.

Lemma replace_ok (r r0 : Review) (rs : list Review) :
  reviews_ok rs -> In r0 rs ->
  rv__id r = rv__id r0 ->
  (rv_productId r, rv_userId r) = (rv_productId r0, rv_userId r0) ->
  review_ok r ->
  reviews_ok
    (map (fun r' => if Nat.eqb (rv__id r') (rv__id r) then r else r') rs).
Proof.
  intros (Ni & Ns & F) I E S K.
  assert (U : forall r', In r' rs -> rv__id r' = rv__id r -> r' = r0).
  { intros r' I' E'. apply (NoDup_map_In_eq rv__id rs); try assumption.
    congruence. }
  split; [|split].
  - rewrite replace_map; [exact Ni|]. intros r' _ E'. exact E'.
  - rewrite replace_map; [exact Ns|].
    intros r' I' E'. rewrite (U r' I' E'). symmetry. exact S.
  - apply Forall_forall. intros x Ix.
    destruct (replace_In _ _ _ Ix) as [->|[Ix' _]]; [exact K|].
    rewrite Forall_forall in F. apply F. exact Ix'.
Qed.

Lemma create_review_cases user productId req rs :
  snd (create_review user productId req rs) = rs
  \/ exists rating comment,
       rq_rating req = Some rating /\ rq_comment req = Some comment
       /\ Review_findOne rs productId (u__id user) = None
       /\ Review_save
            (new_review user productId rating (rq_title req) comment rs) rs
          = inr (rs ++ [new_review user productId rating (rq_title req)
                                   comment rs])%list
       /\ create_review user productId req rs
          = (mkReviewResponse 201
               (RReview "Review submitted successfully"
                  (new_review user productId rating (rq_title req)
                              comment rs)),
             (rs ++ [new_review user productId rating (rq_title req)
                                comment rs])%list).
Proof.
  unfold create_review.
  destruct (rq_rating req) as [rating|]; [|left; reflexivity].
  destruct (negb (JS.truthy rating) || rating_out_of_range rating);
    [left; reflexivity|].
  destruct (rq_comment req) as [comment|]; [|left; reflexivity].
  destruct (negb (JS.truthy_string comment) || comment_too_short comment);
    [left; reflexivity|].
  destruct (Review_findOne rs productId (u__id user)); [left; reflexivity|].
  cbv zeta.
  destruct (Review_save _ rs) as [[|]|rs'] eqn:S; try (left; reflexivity).
  right. exists rating, comment.
  destruct (Review_save_inr _ _ _ S) as (_ & U & _).
  rewrite Review_upsert_fresh in U.
  - subst rs'. repeat split; try reflexivity. exact S.
  - intros r' I. pose proof (fresh_review_id_above rs r' I) as L.
    cbn [new_review rv__id]. lia.
Qed.

Lemma update_review_cases user reviewId req rs :
  snd (update_review user reviewId req rs) = rs
  \/ exists review,
       Review_findById rs reviewId = Some review
       /\ rv_userId review = u__id user
       /\ validate_review (apply_review_update req review) = true
       /\ snd (update_review user reviewId req rs)
          = Review_upsert (apply_review_update req review) rs.
Proof.
  unfold update_review.
  destruct (Review_findById rs reviewId) as [review|] eqn:F;
    [|left; reflexivity].
  destruct (Nat.eqb (rv_userId review) (u__id user)) eqn:O;
    [|left; reflexivity].
  cbn [negb].
  destruct (match rq_rating req with Some _ => _ | None => _ end);
    [left; reflexivity|].
  destruct (match rq_comment req with Some _ => _ | None => _ end);
    [left; reflexivity|].
  cbv zeta.
  destruct (Review_save _ rs) as [e|rs'] eqn:S; [left; reflexivity|].
  right. exists review. apply Nat.eqb_eq in O.
  destruct (Review_save_inr _ _ _ S) as (V & U & _).
  repeat split; assumption.
Qed.

Lemma vote_helpful_cases user reviewId rs :
  snd (vote_helpful user reviewId rs) = rs
  \/ exists review,
       Review_findById rs reviewId = Some review
       /\ snd (vote_helpful user reviewId rs)
          = Review_upsert (toggle_vote user review) rs.
Proof.
  unfold vote_helpful.
  destruct (Review_findById rs reviewId) as [review|] eqn:F;
    [|left; reflexivity].
  cbv zeta.
  destruct (Review_save _ rs) as [e|rs'] eqn:S; [left; reflexivity|].
  right. exists review.
  destruct (Review_save_inr _ _ _ S) as (_ & U & _).
  split; [reflexivity|exact U].
Qed.

Lemma delete_review_cases user reviewId rs :
  snd (delete_review user reviewId rs) = rs
  \/ exists review,
       Review_findById rs reviewId = Some review
       /\ (rv_userId review = u__id user \/ u_role user = "admin")
       /\ snd (delete_review user reviewId rs)
          = Review_findByIdAndDelete reviewId rs.
Proof.
  unfold delete_review.
  destruct (Review_findById rs reviewId) as [review|] eqn:F;
    [|left; reflexivity].
  destruct (Nat.eqb (rv_userId review) (u__id user)) eqn:O.
  - right. exists review. apply Nat.eqb_eq in O. auto.
  - destruct (String.eqb (u_role user) "admin") eqn:A.
    + right. exists review. apply String.eqb_eq in A. auto.
    + left. reflexivity.
Qed.

Lemma review_handler_ok user c rs :
  reviews_ok rs -> reviews_ok (snd (review_handler user c rs)).
Proof.
  intros K. destruct c as [productId req|reviewId req|reviewId|reviewId];
    cbn [review_handler].
  - destruct (create_review_cases user productId req rs)
      as [E|(rating & comment & _ & _ & _ & S & E)]; rewrite E; [exact K|].
    cbn [snd]. destruct K as (Ni & Ns & F).
    destruct (Review_save_inr _ _ _ S) as (V & _ & D).
    set (r := new_review user productId rating (rq_title req) comment rs)
      in *.
    assert (L : forall r', In r' rs -> rv__id r' <> rv__id r).
    { intros r' I. pose proof (fresh_review_id_above rs r' I).
      unfold r. cbn [new_review rv__id]. lia. }
    split; [|split].
    + rewrite map_app. apply NoDup_snoc; [exact Ni|].
      intros I. apply in_map_iff in I. destruct I as (r' & E' & I).
      apply (L r' I E').
    + rewrite map_app. apply NoDup_snoc; [exact Ns|].
      intros I. apply in_map_iff in I. destruct I as (r' & E' & I).
      apply same_subject_eq in E'. rewrite (D r' I (L r' I)) in E'.
      discriminate.
    + apply Forall_app. split; [exact F|]. constructor; [|constructor].
      split; [exact V|]. split; [reflexivity|constructor].
  - destruct (update_review_cases user reviewId req rs)
      as [E|(review & Fi & O & V & E)]; rewrite E; [exact K|].
    destruct (Review_findById_In _ _ _ Fi) as [I Eid].
    destruct (apply_review_update_keeps req review)
      as (K1 & K2 & K3 & K4 & K5).
    rewrite (Review_upsert_stored _ review rs I (eq_sym K1)).
    apply (replace_ok _ review); try assumption.
    + congruence.
    + destruct K as (_ & _ & F). rewrite Forall_forall in F.
      destruct (F review I) as (_ & P & N).
      split; [exact V|]. rewrite K4, K5. split; assumption.
  - destruct (delete_review_cases user reviewId rs)
      as [E|(review & _ & _ & E)]; rewrite E; [exact K|].
    destruct K as (Ni & Ns & F). unfold Review_findByIdAndDelete.
    split; [|split].
    + fold (Review_findByIdAndDelete reviewId rs).
      apply NoDup_map_delete. exact Ni.
    + fold (Review_findByIdAndDelete reviewId rs).
      apply NoDup_map_delete. exact Ns.
    + apply Forall_forall. intros x Ix. apply filter_In in Ix.
      rewrite Forall_forall in F. apply F. tauto.
  - destruct (vote_helpful_cases user reviewId rs)
      as [E|(review & Fi & E)]; rewrite E; [exact K|].
    destruct (Review_findById_In _ _ _ Fi) as [I Eid].
    destruct (toggle_vote_keeps user review)
      as ((K1 & K2 & K3 & _) & _).
    rewrite (Review_upsert_stored _ review rs I (eq_sym K1)).
    apply (replace_ok _ review); try assumption.
    + congruence.
    + apply toggle_vote_ok.
      destruct K as (_ & _ & F). rewrite Forall_forall in F.
      apply F. exact I.
Qed.

Lemma reviewed_ok (rs : list Review) : reviewed rs -> reviews_ok rs.
Proof.
  induction 1 as [|rs user c _ IH].
  - split; [constructor|]. split; constructor.
  - apply review_handler_ok. exact IH.
Qed.

(** X16. In every review collection the routes produce there is at most
    one review per product and author, ids are distinct, and every stored
    review has a rating between 1 and 5, a comment of 10 to 1000
    characters, a title of at most 100, a vote count that is neither
    negative nor NaN, and no voter listed twice. *)
Theorem X16_stored_reviews (rs : list Review) :
  reviewed rs ->
  NoDup (map rv__id rs)
  /\ NoDup (map (fun r => (rv_productId r, rv_userId r)) rs)
  /\ Forall (fun r =>
               min_ok 1 (rating r) = true /\ max_ok 5 (rating r) = true
               /\ 10 <= String.length (comment r) <= 1000
               /\ String.length (title r) <= 100
               /\ is_nonneg (helpfulVotes r) = true
               /\ NoDup (helpfulVoters r)) rs.
Proof.
  intros H. destruct (reviewed_ok rs H) as (Ni & Ns & F).
  split; [exact Ni|]. split; [exact Ns|].
  apply Forall_forall. intros r I. rewrite Forall_forall in F.
  destruct (F r I) as (V & P & N).
  unfold validate_review in V.
  repeat (apply andb_prop in V; destruct V as [V ?]).
  unfold minlength_ok, maxlength_ok in *.
  repeat match goal with
         | X : Nat.leb _ _ = true |- _ => apply Nat.leb_le in X
         end.
  repeat split; assumption.
Qed.

Lemma X16_stored_reviews_witness :
  let rs :=
    snd (review_handler demo_reviewer
           (POST_review "STE001" demo_review_request) []) in
  List.length rs = 1
  /\ Forall (fun r => min_ok 1 (rating r) = true
                      /\ max_ok 5 (rating r) = true
                      /\ String.length (title r) <= 100) rs.
Proof.
  intros rs. split; [vm_compute; reflexivity|].
  destruct (X16_stored_reviews rs
              (reviewed_step [] demo_reviewer
                 (POST_review "STE001" demo_review_request) reviewed_init))
    as (_ & _ & F).
  eapply Forall_impl; [|exact F]. cbv beta. intros r H. tauto.
Defined.
(** ** Reviews: who changes what *)

Lemma same_content_refl (r : Review) : same_content r r.
Proof. repeat split; reflexivity. Qed.

(** X17. A request made by one account leaves the reviews of every other
    author in place with their product, author, rating, title and comment
    unchanged (only the helpful votes may move), with one exception:
    an account whose role is exactly admin can delete anybody's review.
    A super_admin is not an admin for that route. *)
Theorem X17_reviews_owner_only
  (rs : list Review) (user : User) (c : ReviewCall) (r : Review) :
  reviewed rs -> In r rs -> rv_userId r <> u__id user ->
  (exists r', In r' (snd (review_handler user c rs)) /\ same_content r r'
              /\ (c <> POST_review_helpful (rv__id r) -> r' = r))
  \/ (c = DELETE_review (rv__id r) /\ u_role user = "admin"
      /\ fst (review_handler user c rs)
         = mkReviewResponse 200 (RDone "Review deleted successfully")
      /\ forall r', In r' (snd (review_handler user c rs)) ->
                    rv__id r' <> rv__id r).
Proof.
  intros H I O. pose proof (reviewed_ok rs H) as K.
  destruct K as (Ni & Ns & F).
  assert (Keep : In r rs ->
                 exists r', In r' rs /\ same_content r r'
                            /\ (c <> POST_review_helpful (rv__id r) -> r' = r)).
  { intros _. exists r. split; [exact I|].
    split; [apply same_content_refl|reflexivity]. }
  destruct c as [productId req|reviewId req|reviewId|reviewId];
    cbn [review_handler].
  - left.
    destruct (create_review_cases user productId req rs)
      as [E|(rating & comment & _ & _ & _ & _ & E)]; rewrite E;
      [apply Keep; exact I|].
    cbn [snd]. exists r. split; [apply in_or_app; left; exact I|].
    split; [apply same_content_refl|reflexivity].
  - left.
    destruct (update_review_cases user reviewId req rs)
      as [E|(review & Fi & Ow & _ & E)]; rewrite E; [apply Keep; exact I|].
    destruct (Review_findById_In _ _ _ Fi) as [I' Eid].
    destruct (apply_review_update_keeps req review) as (K1 & _).
    rewrite (Review_upsert_stored _ review rs I' (eq_sym K1)).
    exists r. split; [|split; [apply same_content_refl|reflexivity]].
    apply replace_keeps; [exact I|].
    rewrite K1. intros E'.
    assert (X : r = review)
      by (apply (NoDup_map_In_eq rv__id rs); assumption).
    subst review. contradiction.
  - destruct (Nat.eqb (rv__id r) reviewId) eqn:T.
    + apply Nat.eqb_eq in T. subst reviewId.
      pose proof (Review_findById_unique rs r Ni I) as Fi.
      unfold delete_review. rewrite Fi.
      apply Nat.eqb_neq in O. rewrite O. cbn [negb andb].
      destruct (String.eqb (u_role user) "admin") eqn:A.
      * right. apply String.eqb_eq in A. cbn [negb fst snd].
        split; [reflexivity|]. split; [exact A|]. split; [reflexivity|].
        intros r' I'. unfold Review_findByIdAndDelete in I'.
        apply filter_In in I'. destruct I' as [_ I'].
        apply negb_true_iff, Nat.eqb_neq in I'. exact I'.
      * left. cbn [negb snd]. apply Keep. exact I.
    + left. apply Nat.eqb_neq in T.
      destruct (delete_review_cases user reviewId rs)
        as [E|(review & _ & _ & E)]; rewrite E; [apply Keep; exact I|].
      exists r. split; [|split; [apply same_content_refl|reflexivity]].
      unfold Review_findByIdAndDelete. apply filter_In. split; [exact I|].
      apply negb_true_iff, Nat.eqb_neq. exact T.
  - left.
    destruct (vote_helpful_cases user reviewId rs)
      as [E|(review & Fi & E)]; rewrite E; [apply Keep; exact I|].
    destruct (Review_findById_In _ _ _ Fi) as [I' Eid].
    destruct (toggle_vote_keeps user review) as (S & _).
    pose proof S as (K1 & _).
    rewrite (Review_upsert_stored _ review rs I' (eq_sym K1)).
    destruct (Nat.eqb (rv__id r) reviewId) eqn:T.
    + apply Nat.eqb_eq in T.
      assert (X : r = review).
      { apply (NoDup_map_In_eq rv__id rs); try assumption. congruence. }
      subst review. exists (toggle_vote user r).
      split; [apply (replace_puts _ rs r I); symmetry; exact K1|].
      split; [exact S|]. intros N. exfalso. apply N. congruence.
    + apply Nat.eqb_neq in T.
      exists r. split; [|split; [apply same_content_refl|reflexivity]].
      apply replace_keeps; [exact I|]. rewrite K1. congruence.
Qed.

Lemma X17_reviews_owner_only_witness :
  let rs :=
    snd (review_handler demo_reviewer
           (POST_review "STE001" demo_review_request) []) in
  List.length rs = 1
  /\ Forall
       (fun r =>
          exists r',
            In r' (snd (review_handler
                          (mkUser 1 "Super Admin" "superadmin@sriamman.com"
                                  "super_admin" true)
                          (DELETE_review (rv__id r)) rs))
            /\ same_content r r') rs.
Proof.
  intros rs. split; [vm_compute; reflexivity|].
  apply Forall_forall. intros r I.
  destruct (X17_reviews_owner_only rs
              (mkUser 1 "Super Admin" "superadmin@sriamman.com"
                      "super_admin" true)
              (DELETE_review (rv__id r)) r
              (reviewed_step [] demo_reviewer
                 (POST_review "STE001" demo_review_request) reviewed_init)
              I)
    as [(r' & I' & S & _)|(_ & A & _)].
  - vm_compute in I. destruct I as [<-|[]]. cbn. discriminate.
  - exists r'. split; assumption.
  - cbn in A. discriminate.
Defined.
(** ** Reviews: helpful votes *)

Lemma existsb_voter (u : ObjectId) (l : list ObjectId) :
  existsb (Nat.eqb u) l = true <-> In u l.
Proof.
  rewrite existsb_exists. split.
  - intros (x & I & E). apply Nat.eqb_eq in E. subst. exact I.
  - intros I. exists u. split; [exact I|apply Nat.eqb_refl].
Qed.

Lemma filter_voters_absent (u : ObjectId) (l : list ObjectId) :
  ~ In u l -> filter (A:=ObjectId) (fun id : nat => negb (Nat.eqb id u)) l = l.
Proof.
  induction l as [|x l IH]; intros H; [reflexivity|].
  cbn [filter]. destruct (Nat.eqb x u) eqn:E.
  - exfalso. apply Nat.eqb_eq in E. apply H. left. exact E.
  - cbn [negb]. rewrite IH; [reflexivity|]. intros I. apply H. right. exact I.
Qed.

Lemma vote_helpful_stored user r rs :
  reviews_ok rs -> In r rs ->
  vote_helpful user (rv__id r) rs
  = (mkReviewResponse 200
       (RVote (if existsb (Nat.eqb (u__id user)) (helpfulVoters r)
               then "Vote removed" else "Review marked as helpful")
              (helpfulVotes (toggle_vote user r))
              (negb (existsb (Nat.eqb (u__id user)) (helpfulVoters r)))),
     map (fun r' => if Nat.eqb (rv__id r') (rv__id r)
                    then toggle_vote user r else r') rs).
Proof.
  intros K I. pose proof K as (Ni & _ & F).
  unfold vote_helpful. rewrite (Review_findById_unique rs r Ni I). cbv zeta.
  destruct (toggle_vote_keeps user r) as ((K1 & K2 & K3 & _) & V).
  rewrite Forall_forall in F. destruct (F r I) as (Vr & _).
  rewrite (Review_save_stored (toggle_vote user r) r rs K I K1);
    [|congruence|congruence].
  rewrite K1. reflexivity.
Qed.

(** X18. The helpful route is a toggle on the voter list: a vote by an
    account that has not voted on a stored review is answered 200
    (userVoted true) and lists the account last among the voters; the same
    call made again is answered 200 with Vote removed (userVoted false)
    and leaves the voter list, and everything else in the review but the
    count, as it was before the two calls; the count is reported as
    max(0, (votes + 1) - 1). No other review changes. *)
Theorem X18_helpful_vote_toggles
  (rs : list Review) (user : User) (r : Review) :
  reviewed rs -> In r rs -> ~ In (u__id user) (helpfulVoters r) ->
  exists r1 r2 rs1 rs2,
    vote_helpful user (rv__id r) rs
    = (mkReviewResponse 200
         (RVote "Review marked as helpful"
                (JS.add (helpfulVotes r) (JS.of_Z 1)) true), rs1)
    /\ Review_findById rs1 (rv__id r) = Some r1
    /\ helpfulVoters r1 = (helpfulVoters r ++ [u__id user])%list
    /\ vote_helpful user (rv__id r) rs1
       = (mkReviewResponse 200
            (RVote "Vote removed"
                   (JS.Math_max JS.zero
                      (JS.sub (JS.add (helpfulVotes r) (JS.of_Z 1))
                              (JS.of_Z 1))) false), rs2)
    /\ Review_findById rs2 (rv__id r) = Some r2
    /\ helpfulVoters r2 = helpfulVoters r
    /\ same_content r r2
    /\ is_nonneg (helpfulVotes r2) = true
    /\ (forall id, id <> rv__id r ->
                   Review_findById rs2 id = Review_findById rs id).
Proof.
  intros H I N. pose proof (reviewed_ok rs H) as K.
  assert (A0 : existsb (Nat.eqb (u__id user)) (helpfulVoters r) = false).
  { apply not_true_is_false. intros X. apply N, existsb_voter, X. }
  pose proof (vote_helpful_stored user r rs K I) as V1.
  rewrite A0 in V1. cbn [negb] in V1.
  set (r1 := toggle_vote user r) in *.
  set (rs1 := map (fun r' => if Nat.eqb (rv__id r') (rv__id r)
                             then r1 else r') rs) in *.
  assert (E1 : r1 = set_votes (JS.add (helpfulVotes r) (JS.of_Z 1))
                              (helpfulVoters r ++ [u__id user])%list r).
  { unfold r1, toggle_vote. rewrite A0. reflexivity. }
  assert (K1 : reviews_ok rs1).
  { pose proof (review_handler_ok user (POST_review_helpful (rv__id r)) rs K)
      as X.
    cbn [review_handler] in X. rewrite V1 in X. exact X. }
  assert (Id1 : rv__id r1 = rv__id r) by (rewrite E1; reflexivity).
  assert (I1 : In r1 rs1).
  { unfold rs1. apply in_map_iff. exists r. split; [|exact I].
    rewrite Nat.eqb_refl. reflexivity. }
  pose proof (vote_helpful_stored user r1 rs1 K1 I1) as V2.
  assert (A1 : existsb (Nat.eqb (u__id user)) (helpfulVoters r1) = true).
  { apply existsb_voter. rewrite E1. cbn [set_votes helpfulVoters].
    apply in_or_app. right. left. reflexivity. }
  rewrite A1, Id1 in V2. cbn [negb] in V2.
  set (r2 := toggle_vote user r1) in *.
  assert (E2 : r2 = set_votes
                      (JS.Math_max JS.zero
                         (JS.sub (JS.add (helpfulVotes r) (JS.of_Z 1))
                                 (JS.of_Z 1)))
                      (helpfulVoters r) r).
  { unfold r2, toggle_vote. rewrite A1. rewrite E1.
    cbn [set_votes helpfulVotes helpfulVoters rv__id rv_productId rv_userId
         userName userEmail rating title comment].
    rewrite filter_app, (filter_voters_absent _ _ N).
    cbn [filter]. rewrite Nat.eqb_refl. cbn [negb]. rewrite app_nil_r.
    reflexivity. }
  set (rs2 := map (fun r' => if Nat.eqb (rv__id r') (rv__id r)
                             then r2 else r') rs1) in *.
  assert (K2 : reviews_ok rs2).
  { pose proof (review_handler_ok user (POST_review_helpful (rv__id r))
                  rs1 K1) as X.
    cbn [review_handler] in X. rewrite V2 in X. exact X. }
  assert (Id2 : rv__id r2 = rv__id r) by (rewrite E2; reflexivity).
  assert (I2 : In r2 rs2).
  { unfold rs2. apply in_map_iff. exists r1. split; [|exact I1].
    rewrite Id1, Nat.eqb_refl. reflexivity. }
  exists r1, r2, rs1, rs2.
  split; [rewrite V1, E1; reflexivity|].
  split; [rewrite <- Id1; apply Review_findById_unique;
          [apply K1|exact I1]|].
  split; [rewrite E1; reflexivity|].
  split; [rewrite V2, E2; reflexivity|].
  split; [rewrite <- Id2; apply Review_findById_unique;
          [apply K2|exact I2]|].
  split; [rewrite E2; reflexivity|].
  split; [rewrite E2; repeat split; reflexivity|].
  split.
  - destruct K2 as (_ & _ & F2). rewrite Forall_forall in F2.
    apply (F2 r2 I2).
  - intros id Hid. unfold Review_findById, rs2, rs1.
    clear - Hid Id1 Id2. induction rs as [|x rs IH]; [reflexivity|].
    cbn [map find].
    destruct (Nat.eqb (rv__id x) (rv__id r)) eqn:X.
    + rewrite Id1, Nat.eqb_refl, Id2.
      apply Nat.eqb_eq in X. rewrite X.
      assert (Y : Nat.eqb (rv__id r) id = false)
        by (apply Nat.eqb_neq; congruence).
      rewrite Y. exact IH.
    + rewrite X. destruct (Nat.eqb (rv__id x) id); [reflexivity|exact IH].
Qed.

Lemma X18_helpful_vote_toggles_witness :
  let rs :=
    snd (review_handler demo_reviewer
           (POST_review "STE001" demo_review_request) []) in
  List.length rs = 1
  /\ Forall
       (fun r =>
          exists v rs1,
            vote_helpful demo_reviewer (rv__id r) rs
            = (mkReviewResponse 200
                 (RVote "Review marked as helpful" v true), rs1)
            /\ fst (vote_helpful demo_reviewer (rv__id r) rs1)
               = mkReviewResponse 200 (RVote "Vote removed" JS.zero false))
       rs.
Proof.
  intros rs. split; [vm_compute; reflexivity|].
  apply Forall_forall. intros r I.
  destruct (X18_helpful_vote_toggles rs demo_reviewer r
              (reviewed_step [] demo_reviewer
                 (POST_review "STE001" demo_review_request) reviewed_init)
              I)
    as (r1 & r2 & rs1 & rs2 & V1 & _ & _ & V2 & _).
  - vm_compute in I. destruct I as [<-|[]]. cbn. tauto.
  - exists (JS.add (helpfulVotes r) (JS.of_Z 1)), rs1.
    split; [exact V1|]. rewrite V2. cbn [fst].
    vm_compute in I. destruct I as [<-|[]]. vm_compute. reflexivity.
Defined.
(** ** Reviews: who may write them *)

(** X19. Deactivating an account closes the admin routes to it but not the
    review routes: with a valid token that names a stored, deactivated
    account by userId, [authenticate] answers 401 while the reviews
    router's own check lets the call through to its handler, which runs on
    behalf of that account. *)
Theorem X19_deactivated_accounts_review
  (verify : string -> option Decoded) (users : list User)
  (token : string) (decoded : Decoded) (user : User)
  (c : ReviewCall) (rs : list Review) :
  token <> EmptyString ->
  (forall ch, In ch (list_ascii_of_string token) -> ch <> " "%char) ->
  verify token = Some decoded ->
  userId decoded = Some (u__id user) ->
  User_findById users (Some (u__id user)) = Some user ->
  u_isActive user = false ->
  authenticate verify users (Some ("Bearer " ++ token))
  = refuse 401 "Account has been deactivated."
  /\ authenticateToken verify users (Some ("Bearer " ++ token)) = RNext user
  /\ serve_review verify users (Some ("Bearer " ++ token)) c rs
     = review_handler user c rs.
Proof.
  intros Ne Sp V Uid F A.
  destruct (split_space_word token EmptyString Sp) as [_ S].
  assert (T : nth_error (split_space ("Bearer " ++ token)) 1 = Some token).
  { change (split_space ("Bearer " ++ token))
      with ("Bearer" :: split_space token).
    rewrite S. reflexivity. }
  assert (P : startsWith ("Bearer " ++ token) "Bearer " = true).
  { unfold startsWith. cbn. destruct token; reflexivity. }
  assert (Tr : JS.truthy_string token = true)
    by (destruct token; [contradiction|reflexivity]).
  assert (AT : authenticateToken verify users (Some ("Bearer " ++ token))
               = RNext user).
  { unfold authenticateToken.
    change (JS.truthy_string ("Bearer " ++ token)) with true. cbv iota.
    rewrite T. cbv zeta iota. rewrite Tr. cbn [negb]. rewrite V, Uid, F.
    reflexivity. }
  split; [|split; [exact AT|]].
  - unfold authenticate.
    change (JS.truthy_string ("Bearer " ++ token)) with true.
    rewrite P. cbn [negb orb]. rewrite T, V, Uid. cbn [or_else_id].
    rewrite F, A. reflexivity.
  - unfold serve_review. rewrite AT. reflexivity.
Qed.

Lemma X19_deactivated_accounts_review_witness :
  authenticate demo_verify demo_users (Some "Bearer t-left")
  = refuse 401 "Account has been deactivated."
  /\ res_status
       (fst (serve demo_verify demo_users (Some "Bearer t-left")
               (POST_stock_in (mkStockInReq "steel-tmt-12" (QNumber (JS.of_Z 100))
                                            None None None None))
               scenario_db)) = 401
  /\ rres_status
       (fst (serve_review demo_verify demo_users (Some "Bearer t-left")
               (POST_review "STE001" demo_review_request) [])) = 201.
Proof.
  destruct (X19_deactivated_accounts_review demo_verify demo_users "t-left"
              (mkDecoded (Some 4) (Some 4))
              (mkUser 4 "Former Admin" "former@sriamman.com" "admin" false)
              (POST_review "STE001" demo_review_request) [])
    as (A & _ & S); try reflexivity.
  - discriminate.
  - intros ch I. cbn in I.
    repeat (destruct I as [<-|I]; [discriminate|]). destruct I.
  - change ("Bearer " ++ "t-left") with "Bearer t-left" in A, S.
    split; [exact A|]. split; [vm_compute; reflexivity|].
    rewrite S. vm_compute. reflexivity.
Defined.

(** ** Reviews: when a submission is stored *)

Lemma drop_spaces_head (l : list ascii) (c : ascii) (t : list ascii) :
  drop_spaces l = c :: t -> is_space c = false.
Proof.
  induction l as [|a l IH]; cbn [drop_spaces]; [discriminate|].
  destruct (is_space a) eqn:E; [exact IH|].
  intros H. inversion H; subst. exact E.
Qed.

Lemma drop_spaces_fixed (l : list ascii) :
  (forall c t, l = c :: t -> is_space c = false) -> drop_spaces l = l.
Proof.
  destruct l as [|a l]; [reflexivity|]. intros H. cbn [drop_spaces].
  rewrite (H a l eq_refl). reflexivity.
Qed.

Lemma drop_spaces_split (l : list ascii) :
  exists sp, l = (sp ++ drop_spaces l)%list.
Proof.
  induction l as [|a l [sp E]]; [exists []; reflexivity|].
  cbn [drop_spaces]. destruct (is_space a).
  - exists (a :: sp). cbn [app]. f_equal. exact E.
  - exists []. reflexivity.
Qed.

(** Trimming what is trimmed changes nothing. *)
Lemma trim_trim (s : string) : trim (trim s) = trim s.
Proof.
  unfold trim. rewrite list_ascii_of_string_of_list_ascii.
  set (a := drop_spaces (list_ascii_of_string s)).
  set (b := drop_spaces (rev a)).
  assert (Hb : drop_spaces b = b).
  { apply drop_spaces_fixed. intros c t E.
    apply (drop_spaces_head (rev a) c t). exact E. }
  assert (Hy : drop_spaces (rev b) = rev b).
  { apply drop_spaces_fixed. intros c t E.
    destruct (drop_spaces_split (rev a)) as [sp S]. fold b in S.
    assert (Ea : a = (rev b ++ rev sp)%list).
    { rewrite <- (rev_involutive a), S, rev_app_distr. reflexivity. }
    rewrite E in Ea. cbn [app] in Ea.
    apply (drop_spaces_head (list_ascii_of_string s) c (t ++ rev sp)%list).
    exact Ea. }
  rewrite Hy, rev_involutive, Hb. reflexivity.
Qed.

Lemma toLowerCase_empty (s : string) :
  required_string (toLowerCase s) = required_string s.
Proof. destruct s; reflexivity. Qed.

Lemma rating_in_range (x : Number) :
  JS.truthy x = true -> rating_out_of_range x = false ->
  min_ok 1 x = true /\ max_ok 5 x = true.
Proof.
  intros T R. unfold rating_out_of_range in R.
  apply orb_false_elim in R. destruct R as [R1 R2].
  assert (N : JS.isNaN x = false) by (destruct x; try reflexivity; discriminate).
  split.
  - unfold min_ok. destruct (JS.ge x (JS.of_Z 1)) eqn:G; [reflexivity|].
    rewrite (not_ge_lt x (JS.of_Z 1) N eq_refl G) in R1. discriminate.
  - unfold max_ok. change (JS.le x (JS.of_Z 5)) with (JS.ge (JS.of_Z 5) x).
    destruct (JS.ge (JS.of_Z 5) x) eqn:G; [reflexivity|].
    change (JS.gt x (JS.of_Z 5)) with (JS.lt (JS.of_Z 5) x) in R2.
    rewrite (not_ge_lt (JS.of_Z 5) x eq_refl N G) in R2. discriminate.
Qed.

(** X20. A review submission that passes the route's own checks (a rating
    from 1 to 5, a comment of at least 10 characters once its white space,
    the no-break space included, is trimmed) is
    refused with 400 when the author already reviewed the product; else it
    is stored (201, appended) exactly when the product id, the author's
    name and e-mail are not blank, the trimmed title has at most 100
    characters and the trimmed comment at most 1000; otherwise the schema
    rejects it and the answer is 500 with nothing stored. *)
Theorem X20_review_submission
  (user : User) (productId : string) (req : ReviewReq) (rs : list Review)
  (stars : Number) (text : string) :
  rq_rating req = Some stars -> rq_comment req = Some text ->
  JS.truthy stars = true -> rating_out_of_range stars = false ->
  comment_too_short text = false ->
  create_review user productId req rs
  = match Review_findOne rs productId (u__id user) with
    | Some _ =>
        (review_fail 400
           "You have already reviewed this product. You can edit your existing review.",
         rs)
    | None =>
        if notEmpty (trim productId) && notEmpty (trim (u_name user))
           && notEmpty (trim (u_email user))
           && Nat.leb (String.length (title_or_empty (rq_title req))) 100
           && Nat.leb (String.length (trim text)) 1000
        then (mkReviewResponse 201
                (RReview "Review submitted successfully"
                   (new_review user productId stars (rq_title req) text rs)),
              (rs ++ [new_review user productId stars (rq_title req)
                                 text rs])%list)
        else (review_fail 500 "Failed to submit review", rs)
    end.
Proof.
  intros Er Ec T R C. unfold create_review. rewrite Er, T, R, Ec. cbn [negb orb].
  assert (Tc : JS.truthy_string text = true).
  { destruct text; [|reflexivity]. vm_compute in C. discriminate. }
  rewrite Tc, C. cbn [negb orb].
  destruct (Review_findOne rs productId (u__id user)) eqn:F; [reflexivity|].
  cbv zeta.
  set (review := new_review user productId stars (rq_title req) text rs).
  destruct (rating_in_range stars T R) as [R1 R5].
  assert (Tt : trim (title_or_empty (rq_title req))
               = title_or_empty (rq_title req)).
  { unfold title_or_empty. destruct (rq_title req); [apply trim_trim|].
    reflexivity. }
  assert (L10 : minlength_ok 10 (trim text) = true).
  { unfold comment_too_short in C. unfold minlength_ok.
    apply Nat.ltb_ge in C. apply Nat.leb_le. exact C. }
  assert (Rq : required_string (trim text) = true).
  { unfold minlength_ok in L10. destruct (trim text); [discriminate|].
    reflexivity. }
  assert (V : validate_review review
              = notEmpty (trim productId) && notEmpty (trim (u_name user))
                && notEmpty (trim (u_email user))
                && Nat.leb (String.length (title_or_empty (rq_title req))) 100
                && Nat.leb (String.length (trim text)) 1000).
  { unfold validate_review, review, new_review.
    cbn [rv_productId userName userEmail rating title comment maxlength_ok].
    rewrite toLowerCase_empty, R1, R5, Tt, trim_trim, Rq, L10.
    unfold notEmpty, required_string.
    rewrite !andb_true_r. reflexivity. }
  assert (U : existsb (fun r' => negb (Nat.eqb (rv__id r') (rv__id review))
                                 && same_subject review r') rs = false).
  { apply not_true_is_false. intros X. apply existsb_exists in X.
    destruct X as (r' & I & X). apply andb_prop in X. destruct X as [_ X].
    unfold Review_findOne in F. pose proof (find_none _ _ F r' I) as Y.
    cbv beta in Y. unfold same_subject, review in X.
    cbn [new_review rv_productId rv_userId] in X. congruence. }
  assert (Fr : Review_upsert review rs = (rs ++ [review])%list).
  { apply Review_upsert_fresh. intros r' I.
    pose proof (fresh_review_id_above rs r' I).
    unfold review. cbn [new_review rv__id]. lia. }
  unfold Review_save. rewrite V, U, Fr.
  destruct (notEmpty (trim productId) && notEmpty (trim (u_name user))
            && notEmpty (trim (u_email user))
            && Nat.leb (String.length (title_or_empty (rq_title req))) 100
            && Nat.leb (String.length (trim text)) 1000); reflexivity.
Qed.

Lemma X20_review_submission_witness :
  rres_status
    (fst (create_review demo_reviewer "STE001" demo_review_request [])) = 201
  /\ rres_status
       (fst (create_review
               (mkUser 12 "  " "someone@example.com" "customer" true)
               "STE001" demo_review_request [])) = 500.
Proof.
  split.
  - rewrite (X20_review_submission demo_reviewer "STE001" demo_review_request
               [] (JS.of_Z 4) "Straight bars, no rust at all.");
      reflexivity.
  - rewrite (X20_review_submission
               (mkUser 12 "  " "someone@example.com" "customer" true)
               "STE001" demo_review_request
               [] (JS.of_Z 4) "Straight bars, no rust at all.");
      reflexivity.
Defined.
